(** * The Producer agent of bitspider-agent-baseservice

    A shallow embedding of [src/lib/apis/producers.js] (the [Producer] class:
    configuration watcher, job loop, job runner, result dispatcher) and the
    properties of it that the specification states.

    Conventions of the embedding.
    - JavaScript values are the inductive [value]; numbers are integers
      (statuses, timestamps and counters are the only numbers the class
      computes with), so NaN, -0 and fractions are outside the model.
    - An array is an object of class [KArray] holding its index properties.
    - Intelligences are objects with identity: they live in a store ([heap])
      and the running job, the collected dictionary and the dispatcher's
      buckets hold references to them, so a mutation through one reference is
      seen through every other one, as in the source.  Objects nested below an
      intelligence ([system], [soi], [dataset]) are held by value.
    - A JS object used as a dictionary is a [gmap]; inherited properties of
      [Object.prototype] are not modelled.
    - Every function that awaits is cut at its awaits: what the outside world
      answers (HTTP responses, the clock, fresh uuids, timer handles) is an
      argument of the piece that runs next. Two functions are run through
      their awaits in one piece, no other handler in between: the fetch of
      the configuration, and the end of a job with its dispatch. The clock
      is read once per piece.
    - Logging is left out; so is the worker itself, of which only the calls
      and the settled promises are seen. *)

From stdpp Require Import gmap strings list fin_maps pretty.
From Stdlib Require Import ZArith.

#[local] Set Warnings "-register-all".
#[local] Open Scope Z_scope.

(** ** JavaScript values *)

(** What [instanceof] can tell apart in this file. *)
Inductive klass : Type :=
| KObject   (* a plain object *)
| KArray    (* an Array *)
| KError    (* an instance of Error *)
| KString.  (* a String wrapper object *)

Inductive value : Type :=
| VUndefined
| VNull
| VBool (b : bool)
| VNum (n : Z)
| VStr (s : string)
| VObj (k : klass) (props : list (string * value)).

Abbreviation fields := (list (string * value)).

#[global] Instance value_inhabited : Inhabited value := populate VUndefined.

(** [!!v]: every value is truthy except undefined, null, false, 0 and "". *)
Definition truthy (v : value) : bool :=
  match v with
  | VUndefined | VNull => false
  | VBool b => b
  | VNum n => negb (n =? 0)
  | VStr s => negb (String.eqb s "")
  | VObj _ _ => true
  end.

(** [typeof v === "object"] (null included, as in JavaScript). *)
Definition typeof_object (v : value) : bool :=
  match v with
  | VNull | VObj _ _ => true
  | _ => false
  end.

(** [v instanceof Object], [v instanceof Error], [v instanceof String]. *)
Definition instanceof_Object (v : value) : bool :=
  match v with VObj _ _ => true | _ => false end.

Definition instanceof_Error (v : value) : bool :=
  match v with VObj KError _ => true | _ => false end.

Definition instanceof_String (v : value) : bool :=
  match v with VObj KString _ => true | _ => false end.

(** [a === b]. Two objects are strictly equal only when they are the same
    object; a nested object held by value has no identity to share, and the
    objects compared in this file are built afresh by every fetch, so the
    comparison of two objects is [false]. *)
Definition strict_eq (a b : value) : bool :=
  match a, b with
  | VUndefined, VUndefined => true
  | VNull, VNull => true
  | VBool x, VBool y => Bool.eqb x y
  | VNum x, VNum y => x =? y
  | VStr x, VStr y => String.eqb x y
  | _, _ => false
  end.

(** *** Own properties *)

(** [o[k]] on the property list of an object; an absent property reads
    [undefined]. *)
Fixpoint lookup_field (k : string) (fs : fields) : value :=
  match fs with
  | [] => VUndefined
  | (k', v) :: fs' => if String.eqb k k' then v else lookup_field k fs'
  end.

(** [o[k] = x]: an existing property keeps its place, a new one is added
    last. *)
Fixpoint assign (k : string) (x : value) (fs : fields) : fields :=
  match fs with
  | [] => [(k, x)]
  | (k', v) :: fs' =>
      if String.eqb k k' then (k, x) :: fs' else (k', v) :: assign k x fs'
  end.

Definition get_field (v : value) (k : string) : value :=
  match v with
  | VObj _ fs => lookup_field k fs
  | _ => VUndefined
  end.

(** lodash [_.get(v, "a.b.c")], the path given as its keys. *)
Fixpoint get (v : value) (path : list string) : value :=
  match path with
  | [] => v
  | k :: path' => get (get_field v k) path'
  end.

(** lodash [_.set] below the root (baseSet): along the path a value that is
    not an object is replaced by a new plain object. *)
Fixpoint set_fields (path : list string) (x : value) (fs : fields) : fields :=
  match path with
  | [] => fs
  | k :: path' =>
      match path' with
      | [] => assign k x fs
      | _ :: _ =>
          match lookup_field k fs with
          | VObj c fs' => assign k (VObj c (set_fields path' x fs')) fs
          | _ => assign k (VObj KObject (set_fields path' x [])) fs
          end
      end
  end.

(** Two paths diverge when they differ at some key both of them have. *)
Fixpoint diverge (p q : list string) : bool :=
  match p, q with
  | a :: p', b :: q' => if String.eqb a b then diverge p' q' else true
  | _, _ => false
  end.

(** ** Strings *)

Definition upper_ascii (c : Ascii.ascii) : Ascii.ascii :=
  let n := Ascii.nat_of_ascii c in
  if ((97 <=? n) && (n <=? 122))%nat then Ascii.ascii_of_nat (n - 32) else c.

Definition lower_ascii (c : Ascii.ascii) : Ascii.ascii :=
  let n := Ascii.nat_of_ascii c in
  if ((65 <=? n) && (n <=? 90))%nat then Ascii.ascii_of_nat (n + 32) else c.

Fixpoint map_string (f : Ascii.ascii -> Ascii.ascii) (s : string) : string :=
  match s with
  | EmptyString => EmptyString
  | String c s' => String (f c) (map_string f s')
  end.

(** [s.toUpperCase()] and [s.toLowerCase()] on ASCII text (every string the
    class itself writes is ASCII; other bytes are left alone). *)
Definition toUpperCase : string -> string := map_string upper_ascii.
Definition toLowerCase : string -> string := map_string lower_ascii.

(** ** What the class takes from outside

    Built-ins and modules that are not part of [producers.js]: the constants
    module, [utils.joinURL], [JSON.stringify], the [toString] and [toJSON]
    methods of objects, and lodash's [_.merge] with the default agent
    configuration. *)
Class Externals : Type := {
  (** [JSON.stringify(v)] ([undefined] for [undefined]) *)
  JSON_stringify : value -> value;
  (** [String(o)] for an object [o] (its [toString] method) *)
  object_toString : klass -> fields -> string;
  (** ToNumber of a string; [None] is NaN *)
  string_ToNumber : string -> option Z;
  (** [err.toJSON()]; [None] when the call throws (no such method) *)
  toJSON : value -> option value;
  (** [joinURL(path, baseURL)] of [./utils] *)
  joinURL : value -> value -> value;
  (** [_.merge({}, constants.DEFAULT_AGENT_CONFIGURATION, producer)] *)
  merge_DEFAULT_AGENT_CONFIGURATION : value -> value;
  (** [constants.DEFAULT_AGENT_CONFIGURATION.pollingInterval] *)
  DEFAULT_pollingInterval : Z;
  (** [constants.SERVICE_AGENT_TYPE] *)
  SERVICE_AGENT_TYPE : value;
  (** [constants.AGENT_STATE.active] *)
  AGENT_STATE_active : value;
  (** [constants.X_SECURITY_KEY_HEADER] *)
  X_SECURITY_KEY_HEADER : string;
  (** [constants.COLLECT_JOB_TIMEOUT] *)
  COLLECT_JOB_TIMEOUT : Z;
  (** [constants.POLLING_INTERVAL_WATCH_AGENT] *)
  POLLING_INTERVAL_WATCH_AGENT : Z
}.

Section Coercions.
Context `{Externals}.

(** JavaScript's ToString, as a template literal or a property key applies
    it. *)
Definition ToString (v : value) : string :=
  match v with
  | VUndefined => "undefined"
  | VNull => "null"
  | VBool true => "true"
  | VBool false => "false"
  | VNum n => pretty n
  | VStr s => s
  | VObj c fs => object_toString c fs
  end.

(** lodash [_.toString]: null and undefined give the empty string. *)
Definition lodash_toString (v : value) : string :=
  match v with
  | VUndefined | VNull => ""
  | _ => ToString v
  end.

(** lodash [_.toUpper] and [_.toLower]. *)
Definition toUpper (v : value) : string := toUpperCase (lodash_toString v).
Definition toLower (v : value) : string := toLowerCase (lodash_toString v).

(** JavaScript's ToNumber; [None] is NaN. *)
Definition ToNumber (v : value) : option Z :=
  match v with
  | VUndefined => None
  | VNull => Some 0
  | VBool b => Some (if b then 1 else 0)
  | VNum n => Some n
  | VStr s => string_ToNumber s
  | VObj c fs => string_ToNumber (object_toString c fs)
  end.

(** [v >= k] for a number literal [k]: false when [v] is NaN. *)
Definition js_ge (v : value) (k : Z) : bool :=
  match ToNumber v with
  | Some n => k <=? n
  | None => false
  end.

(** [v * k] for a number literal [k]. *)
Definition js_mul (v : value) (k : Z) : option Z :=
  match ToNumber v with
  | Some n => Some (n * k)
  | None => None
  end.
End Coercions.

(** ** The store of intelligences *)

Abbreviation ref := nat.
Abbreviation heap := (gmap nat (list (string * value))).

(** The object behind a reference, as a value. *)
Definition deref (h : heap) (l : ref) : value := VObj KObject (h !!! l).

(** [_.get(intelligence, path)] through a reference. *)
Definition get_at (h : heap) (l : ref) (path : list string) : value :=
  get (deref h l) path.

(** [_.set(intelligence, path, x)] through a reference: the object is changed
    in place. *)
Definition set_at (h : heap) (l : ref) (path : list string) (x : value) : heap :=
  <[l := set_fields path x (h !!! l)]> h.

(** ** The Producer *)

(** A timer handle field: [undefined], [null], or the handle that
    [setInterval] / [setTimeout] returned. *)
Inductive handle : Type :=
| HUndefined
| HNull
| HTimer (id : nat).

Record RunningJob : Type := {
  totalIntelligences : list ref;
  collectedIntelligencesDict : gmap string nat;
  collectedIntelligencesNumber : Z;
  jobId : value;
  startTime : Z;
  jobTimeout : bool;
  endingCollectIntelligencesJob : bool;
  jobTimeoutHandler : handle;
  lockJob : bool
}.

Record Producer : Type := {
  __type : value;
  __producerError : value;
  __ranJobNumber : Z;
  __currentProducerConfig : value;
  __watchIntelligencesIntervalHandler : handle;
  __watchProducerIntervalHandler : handle;
  __runningJob : RunningJob;
  __manuallySetConfigs : value
}.

(** Everything a call of the outside world carries. The requests the class
    sends and the timers it arms or cancels are logged in the order they
    are issued. *)
Inductive call : Type :=
| getProducerAPI (baseURL globalId type securityKey : value)
| getIntelligencesAPI (baseURL globalId securityKey : value)
| updateIntelligencesAPI (baseURL securityKey : value)
    (intelligences : list ref) (body : list value)
| sendIntelligencesToSOI (baseURL method callbackPath : value)
    (headers : fields) (intelligences : list ref) (body : list value)
| worker (intelligences : list ref) (job : value) (producerConfig : value)
| setInterval (id : nat) (delay : option Z)
| clearInterval (t : handle)
| setTimeout (id : nat) (delay : Z)
| clearTimeout (t : handle).

(** The producer, the store its intelligences live in, and the log of
    outbound calls (oldest first). *)
Record World : Type := {
  producer : Producer;
  store : heap;
  calls : list call
}.

(** How a call ends: it returns, or it throws. *)
Inductive completion (A : Type) : Type :=
| Return (a : A)
| Throw (e : value).
Arguments Return {A} a.
Arguments Throw {A} e.

(** The [TypeError] the runtime raises; only its being an Error matters. *)
Definition TypeError (msg : string) : value :=
  VObj KError [("name", VStr "TypeError"); ("message", VStr msg)].

(** [new Error(msg)] *)
Definition new_Error (msg : string) : value :=
  VObj KError [("message", VStr msg)].

(** *** Field updates *)

Definition set___type (t : value) (p : Producer) : Producer :=
  Build_Producer t (__producerError p) (__ranJobNumber p)
    (__currentProducerConfig p) (__watchIntelligencesIntervalHandler p)
    (__watchProducerIntervalHandler p) (__runningJob p)
    (__manuallySetConfigs p).

Definition set___producerError (e : value) (p : Producer) : Producer :=
  Build_Producer (__type p) e (__ranJobNumber p)
    (__currentProducerConfig p) (__watchIntelligencesIntervalHandler p)
    (__watchProducerIntervalHandler p) (__runningJob p)
    (__manuallySetConfigs p).

Definition set___ranJobNumber (n : Z) (p : Producer) : Producer :=
  Build_Producer (__type p) (__producerError p) n
    (__currentProducerConfig p) (__watchIntelligencesIntervalHandler p)
    (__watchProducerIntervalHandler p) (__runningJob p)
    (__manuallySetConfigs p).

Definition set___currentProducerConfig (c : value) (p : Producer) : Producer :=
  Build_Producer (__type p) (__producerError p) (__ranJobNumber p)
    c (__watchIntelligencesIntervalHandler p)
    (__watchProducerIntervalHandler p) (__runningJob p)
    (__manuallySetConfigs p).

Definition set___watchIntelligencesIntervalHandler (t : handle) (p : Producer)
  : Producer :=
  Build_Producer (__type p) (__producerError p) (__ranJobNumber p)
    (__currentProducerConfig p) t
    (__watchProducerIntervalHandler p) (__runningJob p)
    (__manuallySetConfigs p).

Definition set___watchProducerIntervalHandler (t : handle) (p : Producer)
  : Producer :=
  Build_Producer (__type p) (__producerError p) (__ranJobNumber p)
    (__currentProducerConfig p) (__watchIntelligencesIntervalHandler p)
    t (__runningJob p)
    (__manuallySetConfigs p).

Definition set___runningJob (j : RunningJob) (p : Producer) : Producer :=
  Build_Producer (__type p) (__producerError p) (__ranJobNumber p)
    (__currentProducerConfig p) (__watchIntelligencesIntervalHandler p)
    (__watchProducerIntervalHandler p) j
    (__manuallySetConfigs p).

Definition set___manuallySetConfigs (c : value) (p : Producer) : Producer :=
  Build_Producer (__type p) (__producerError p) (__ranJobNumber p)
    (__currentProducerConfig p) (__watchIntelligencesIntervalHandler p)
    (__watchProducerIntervalHandler p) (__runningJob p)
    c.

Definition set_totalIntelligences (x : list ref) (j : RunningJob) : RunningJob :=
  Build_RunningJob x (collectedIntelligencesDict j)
    (collectedIntelligencesNumber j) (jobId j) (startTime j) (jobTimeout j)
    (endingCollectIntelligencesJob j) (jobTimeoutHandler j) (lockJob j).

Definition set_collected (d : gmap string nat) (n : Z) (j : RunningJob)
  : RunningJob :=
  Build_RunningJob (totalIntelligences j) d n (jobId j) (startTime j)
    (jobTimeout j) (endingCollectIntelligencesJob j) (jobTimeoutHandler j)
    (lockJob j).

Definition set_jobTimeout (b : bool) (j : RunningJob) : RunningJob :=
  Build_RunningJob (totalIntelligences j) (collectedIntelligencesDict j)
    (collectedIntelligencesNumber j) (jobId j) (startTime j) b
    (endingCollectIntelligencesJob j) (jobTimeoutHandler j) (lockJob j).

Definition set_endingCollectIntelligencesJob (b : bool) (j : RunningJob)
  : RunningJob :=
  Build_RunningJob (totalIntelligences j) (collectedIntelligencesDict j)
    (collectedIntelligencesNumber j) (jobId j) (startTime j) (jobTimeout j)
    b (jobTimeoutHandler j) (lockJob j).

Definition set_jobTimeoutHandler (t : handle) (j : RunningJob) : RunningJob :=
  Build_RunningJob (totalIntelligences j) (collectedIntelligencesDict j)
    (collectedIntelligencesNumber j) (jobId j) (startTime j) (jobTimeout j)
    (endingCollectIntelligencesJob j) t (lockJob j).

(** [this.__runningJob] of a world, and the updates of a world. *)
Definition job (w : World) : RunningJob := __runningJob (producer w).

Definition with_producer (p : Producer) (w : World) : World :=
  {| producer := p; store := store w; calls := calls w |}.

Definition with_job (j : RunningJob) (w : World) : World :=
  with_producer (set___runningJob j (producer w)) w.

Definition with_store (h : heap) (w : World) : World :=
  {| producer := producer w; store := h; calls := calls w |}.

Definition emit (c : call) (w : World) : World :=
  {| producer := producer w; store := store w; calls := calls w ++ [c] |}.

(** *** setConfigs *)

Definition setConfigs (configs : value) (p : Producer) : Producer :=
  if instanceof_Object configs then set___manuallySetConfigs configs p else p.

(** *** type, and the read accessors *)

(** [type(t)] returns the current type (getter) or the producer itself
    (setter). *)
Inductive type_result : Type :=
| TheType (t : value)
| This (p : Producer).

Section Accessors.
Context `{Externals}.

Definition type (t : value) (p : Producer) : completion type_result :=
  if negb (truthy t) then Return (TheType (__type p))
  else if negb (instanceof_String t) && negb (truthy t)
  then Throw (new_Error
                (ToString t +:+ " isn't valid, you must pass a not empty string"))
  else Return (This (set___type t p)).

Definition producerConfiguration (p : Producer) : value :=
  __currentProducerConfig p.

Definition producerError (p : Producer) : value := __producerError p.

Definition Producer_jobId (p : Producer) : value := jobId (__runningJob p).
End Accessors.

(** ** What the outside world answers

    One record per handler run: the clock, the uuid generator, the resolved
    configuration snapshot [this.getConfigs()] returns (its environment and
    preferences file are not part of the class state), the handle the next
    timer gets, and for each routing key whether the POST to that target
    system throws (and what). Whether the PUT to the control plane throws is
    not an input: its failure is logged and changes nothing. *)
Record Answers : Type := {
  Date_now : Z;
  uuid_v4 : string;
  getConfigs : value;
  new_timer : nat;
  sendIntelligencesToSOI_error : string -> option value
}.

(** The response of an awaited HTTP call. *)
Inductive response (A : Type) : Type :=
| Resolved (data : A)
| Rejected (err : value).
Arguments Resolved {A} data.
Arguments Rejected {A} err.

(** What a worker promise settles with: an object (by reference) or a
    primitive. *)
Inductive primitive : Type :=
| PUndefined
| PNull
| PBool (b : bool)
| PNum (n : Z)
| PStr (s : string).

Inductive payload : Type :=
| Obj (l : ref)
| Prim (v : primitive).

(** An entry of [Promise.allSettled]'s result:
    [{status: "fulfilled", value}] or [{status: "rejected", reason}]. *)
Inductive settled : Type :=
| Fulfilled (value : payload)
| RejectedWith (reason : payload).

Definition status (r : settled) : value :=
  match r with
  | Fulfilled _ => VStr "fulfilled"
  | RejectedWith _ => VStr "rejected"
  end.

Definition settled_value (r : settled) : payload :=
  match r with
  | Fulfilled v => v
  | RejectedWith _ => Prim PUndefined
  end.

Definition settled_reason (r : settled) : payload :=
  match r with
  | Fulfilled _ => Prim PUndefined
  | RejectedWith e => e
  end.

(** [_.get(x, "globalId")] for a payload: a primitive has no such property. *)
Definition payload_globalId (h : heap) (x : payload) : value :=
  match x with
  | Obj l => get_at h l ["globalId"]
  | Prim _ => VUndefined
  end.

(** One routing bucket of the dispatcher:
    [{soi: ..., intelligences: [...]}]. *)
Record Bucket : Type := {
  soi : value;
  intelligences : list ref
}.

Section Producer.
Context `{Externals}.

(** *** setIntelligenceState

    The intelligence is changed in place and returned; the embedding returns
    the store, the returned reference being the argument [intelligence].
    An omitted [reason] is [VUndefined]. *)
Definition setIntelligenceState (now : Z) (intelligence : ref) (state : value)
  (reason : value) (h : heap) : heap :=
  let h := set_at h intelligence ["system"; "state"] (VStr (toUpper state)) in
  let h :=
    if truthy (get_at h intelligence ["system"; "producer"; "endedAt"])
    then set_at h intelligence ["system"; "producer"; "endedAt"] (VNum now)
    else h in
  if truthy reason then
    let reasonStr :=
      if instanceof_Error reason then get_field reason "message"
      else if typeof_object reason then JSON_stringify reason
      else VStr (lodash_toString reason) in
    set_at h intelligence ["system"; "failuresReason"] reasonStr
  else h.

(** *** resetRunningJob, initRunningJob, resetRuntime *)

Definition resetRunningJob (w : World) : World :=
  let w := emit (clearTimeout (jobTimeoutHandler (job w))) w in
  with_job
    {| totalIntelligences := [];
       collectedIntelligencesDict := ∅;
       collectedIntelligencesNumber := 0;
       jobId := VUndefined;
       startTime := 0;
       jobTimeout := false;
       endingCollectIntelligencesJob := false;
       jobTimeoutHandler := HUndefined;
       lockJob := false |} w.

(** [initRunningJob(intelligences)]; [None] is a call without argument. *)
Definition initRunningJob (a : Answers) (intelligences : option (list ref))
  (w : World) : World :=
  let w := resetRunningJob w in
  let j := job w in
  with_job
    {| totalIntelligences := default [] intelligences;
       collectedIntelligencesDict := collectedIntelligencesDict j;
       collectedIntelligencesNumber := collectedIntelligencesNumber j;
       jobId := VStr (uuid_v4 a);
       startTime := Date_now a;
       jobTimeout := jobTimeout j;
       endingCollectIntelligencesJob := endingCollectIntelligencesJob j;
       jobTimeoutHandler := jobTimeoutHandler j;
       lockJob := true |} w.

Definition resetRuntime (w : World) : World :=
  let p := producer w in
  let w := emit (clearInterval (__watchIntelligencesIntervalHandler p)) w in
  let w := emit (clearInterval (__watchProducerIntervalHandler p)) w in
  let w :=
    with_producer
      (set___watchProducerIntervalHandler HUndefined
         (set___watchIntelligencesIntervalHandler HUndefined
            (set___currentProducerConfig VUndefined
               (set___ranJobNumber 0 (producer w))))) w in
  resetRunningJob w.

(** *** startCollectIntelligencesJob, up to its first await

    The guard, [initRunningJob], and the request for a batch. *)
Definition startCollectIntelligencesJob (a : Answers) (w : World) : World :=
  let j := job w in
  if truthy (jobId j) || lockJob j || endingCollectIntelligencesJob j then w
  else
    let w := initRunningJob a None w in
    let configs := getConfigs a in
    emit (getIntelligencesAPI (get_field configs "BITSKY_BASE_URL")
            (get_field configs "GLOBAL_ID")
            (get_field configs "BITSKY_SECURITY_KEY")) w.

(** *** sendToSOIAndDIA *)

(** [sois[key]] and [sois[key] = b] on the buckets, kept in the order their
    keys were first written (the order [for (key in sois)] visits them). *)
Fixpoint sois_lookup (key : string) (sois : list (string * Bucket))
  : option Bucket :=
  match sois with
  | [] => None
  | (k, b) :: sois' => if String.eqb key k then Some b else sois_lookup key sois'
  end.

Fixpoint sois_push (key : string) (i : ref) (sois : list (string * Bucket))
  : list (string * Bucket) :=
  match sois with
  | [] => []
  | (k, b) :: sois' =>
      if String.eqb key k
      then (k, {| soi := soi b; intelligences := intelligences b ++ [i] |})
             :: sois'
      else (k, b) :: sois_push key i sois'
  end.

(** The routing key of an intelligence; [None] when it lacks [soi.baseURL],
    [soi.callback.method] or [soi.callback.path] and is skipped. *)
Definition routing_key (h : heap) (i : ref) : option string :=
  let baseUrl := get_at h i ["soi"; "baseURL"] in
  let method := get_at h i ["soi"; "callback"; "method"] in
  let callbackPath := get_at h i ["soi"; "callback"; "path"] in
  if negb (truthy baseUrl) || negb (truthy method) || negb (truthy callbackPath)
  then None
  else
    let url := joinURL callbackPath baseUrl in
    Some (toLower method +:+ ":" +:+ toLower url).

(** The first loop: bucket the intelligences by routing key. *)
Definition categorize_step (h : heap) (sois : list (string * Bucket)) (i : ref)
  : list (string * Bucket) :=
  match routing_key h i with
  | None => sois
  | Some key =>
      let sois :=
        match sois_lookup key sois with
        | None =>
            sois ++ [(key, {| soi := get_at h i ["soi"]; intelligences := [] |})]
        | Some _ => sois
        end in
      sois_push key i sois
  end.

Definition categorize (h : heap) (intelligences : list ref)
  : list (string * Bucket) :=
  fold_left (categorize_step h) intelligences [].

(** The body of a request at the moment it is sent. *)
Definition snapshot (h : heap) (intelligences : list ref) : list value :=
  map (deref h) intelligences.

(** The request each bucket's promise sends before its first await. Note
    the fifth argument: the list given to [sendToSOIAndDIA]. *)
Definition send_bucket (all : list ref) (w : World) (kb : string * Bucket)
  : World :=
  let b := snd kb in
  let baseURL := get (soi b) ["baseURL"] in
  let method := get (soi b) ["callback"; "method"] in
  let callbackPath := get (soi b) ["callback"; "path"] in
  let apiKey := get (soi b) ["apiKey"] in
  let headers :=
    if truthy apiKey then [(X_SECURITY_KEY_HEADER, apiKey)] else [] in
  emit (sendIntelligencesToSOI baseURL method callbackPath headers
          all (snapshot (store w) all)) w.

(** The [catch] of a failed POST, for one intelligence of the bucket:
    [intelligence.system.state = "FAILED"] and
    [intelligence.system.failuresReason = JSON.stringify(err && err.toJSON())].
    The flag is [false] when a statement throws (no [system] object to write
    to, or [toJSON] throws); the store is as the statements before the throw
    left it. *)
Definition fail_intelligence (err : value) (h : heap) (i : ref)
  : heap * bool :=
  match lookup_field "system" (h !!! i) with
  | VObj c sys =>
      let h1 :=
        <[i := assign "system" (VObj c (assign "state" (VStr "FAILED") sys))
                 (h !!! i)]> h in
      let json := if truthy err then toJSON err else Some err in
      match json with
      | None => (h1, false)
      | Some j =>
          match lookup_field "system" (h1 !!! i) with
          | VObj c1 sys1 =>
              (<[i := assign "system"
                        (VObj c1 (assign "failuresReason" (JSON_stringify j) sys1))
                        (h1 !!! i)]> h1, true)
          | _ => (h1, false)
          end
      end
  | _ => (h, false)
  end.

(** [intelligences.forEach(...)] of that [catch]: stops at the first throw. *)
Fixpoint fail_intelligences (err : value) (h : heap) (items : list ref)
  : heap * bool :=
  match items with
  | [] => (h, true)
  | i :: items' =>
      match fail_intelligence err h i with
      | (h1, true) => fail_intelligences err h1 items'
      | (h1, false) => (h1, false)
      end
  end.

(** What a bucket's promise does once its POST has settled: on failure mark
    the bucket's intelligences, then PUT the bucket to the control plane. A
    throw inside the failure branch lands in the outer [catch], which resolves
    without the PUT. *)
Definition settle_bucket (a : Answers) (w : World) (kb : string * Bucket)
  : World :=
  let key := fst kb in
  let b := snd kb in
  let configs := getConfigs a in
  let put (w : World) :=
    emit (updateIntelligencesAPI (get_field configs "BITSKY_BASE_URL")
            (get_field configs "BITSKY_SECURITY_KEY")
            (intelligences b) (snapshot (store w) (intelligences b))) w in
  match sendIntelligencesToSOI_error a key with
  | None => put w
  | Some err =>
      match fail_intelligences err (store w) (intelligences b) with
      | (h, true) => put (with_store h w)
      | (h, false) => with_store h w
      end
  end.

(** [sendToSOIAndDIA(intelligences)]: every bucket's promise runs up to its
    POST when it is created; the promises are then settled, here in the order
    of the buckets. *)
Definition sendToSOIAndDIA (a : Answers) (all : list ref) (w : World) : World :=
  let sois := categorize (store w) all in
  let w := fold_left (send_bucket all) sois w in
  fold_left (settle_bucket a) sois w.

(** *** endCollectIntelligencesJob *)

Definition not_resolved : value :=
  VStr "Intelligence failed caused by timeout or you didn't resolve(intelligence) or reject(intelligence) in your producer".

(** One turn of the loop that builds [temp]: the store so far and [temp] so
    far, then the original item [tmp]. *)
Definition reconcile_step (now : Z) (dict : gmap string nat)
  (acc : heap * list ref) (tmp : ref) : heap * list ref :=
  let h := fst acc in
  let temp := snd acc in
  match dict !! ToString (get_at h tmp ["globalId"]) with
  | None =>
      (setIntelligenceState now tmp (VStr "FAILED") not_resolved h,
       temp ++ [tmp])
  | Some intelligence =>
      if negb (truthy (get_at h intelligence ["system"; "state"])) then
        if truthy (get_at h intelligence ["dataset"]) then
          (setIntelligenceState now intelligence (VStr "FINISHED") VUndefined h,
           temp ++ [intelligence])
        else
          (setIntelligenceState now intelligence (VStr "FAILED") VUndefined h,
           temp ++ [intelligence])
      else (h, temp ++ [intelligence])
  end.

Definition reconcile (now : Z) (dict : gmap string nat) (h : heap)
  (total : list ref) : heap * list ref :=
  fold_left (reconcile_step now dict) total (h, []).

(** The whole of [endCollectIntelligencesJob]: guard, reconciliation,
    dispatch, teardown, and the next job's start up to its first await. The
    awaits inside the dispatch are run through without another handler in
    between. *)
Definition endCollectIntelligencesJob (a : Answers) (w : World) : World :=
  let j := job w in
  if negb (truthy (jobId j)) || negb (lockJob j)
     || endingCollectIntelligencesJob j
  then w
  else
    let w := with_job (set_endingCollectIntelligencesJob true j) w in
    let r :=
      reconcile (Date_now a) (collectedIntelligencesDict (job w)) (store w)
        (totalIntelligences (job w)) in
    let w := with_store (fst r) w in
    let w := with_job (set_totalIntelligences (snd r) (job w)) w in
    let w := sendToSOIAndDIA a (totalIntelligences (job w)) w in
    let w := resetRunningJob w in
    startCollectIntelligencesJob a w.

(** *** The rest of startCollectIntelligencesJob *)

(** The [catch] of [startCollectIntelligencesJob]. *)
Definition startCollectIntelligencesJob_catch (a : Answers) (w : World)
  : World :=
  let w := emit (clearTimeout (jobTimeoutHandler (job w))) w in
  let w := with_job (set_jobTimeoutHandler HUndefined (job w)) w in
  endCollectIntelligencesJob a w.

(** After [await getIntelligencesAPI(...)]: up to the call of the worker. *)
Definition startCollectIntelligencesJob_fetched (a : Answers)
  (r : response (list ref)) (w : World) : World :=
  match r with
  | Rejected _ => startCollectIntelligencesJob_catch a w
  | Resolved [] =>
      emit (worker [] (jobId (job w)) (__currentProducerConfig (producer w))) w
  | Resolved intelligences =>
      let p := producer w in
      let w := with_producer (set___ranJobNumber (__ranJobNumber p + 1) p) w in
      let w := with_job (set_totalIntelligences intelligences (job w)) w in
      emit (worker intelligences (jobId (job w))
              (__currentProducerConfig (producer w))) w
  end.

(** After the worker returned for an empty batch. *)
Definition startCollectIntelligencesJob_idle (a : Answers) (r : response unit)
  (w : World) : World :=
  match r with
  | Rejected _ => startCollectIntelligencesJob_catch a w
  | Resolved _ => resetRunningJob w
  end.

(** After the worker returned its promises for a batch: arm the timeout. *)
Definition startCollectIntelligencesJob_armed (a : Answers) (r : response unit)
  (w : World) : World :=
  match r with
  | Rejected _ => startCollectIntelligencesJob_catch a w
  | Resolved _ =>
      let w := emit (clearTimeout (jobTimeoutHandler (job w))) w in
      let w := emit (setTimeout (new_timer a) COLLECT_JOB_TIMEOUT) w in
      with_job (set_jobTimeoutHandler (HTimer (new_timer a)) (job w)) w
  end.

(** One turn of the [forEach] of the timeout callback. *)
Definition timeout_step (now : Z) (w : World) (intelligence : ref) : World :=
  let key := ToString (get_at (store w) intelligence ["globalId"]) in
  let h :=
    setIntelligenceState now intelligence (VStr "TIMEOUT")
      (VStr "collect intelligences timeout") (store w) in
  let w := with_store h w in
  let j := job w in
  with_job
    (set_collected (<[key := intelligence]> (collectedIntelligencesDict j))
       (collectedIntelligencesNumber j + 1) j) w.

(** The [forEach] of the timeout callback, before it ends the job. *)
Definition timeout_marks (a : Answers) (w : World) : World :=
  let w := with_job (set_jobTimeout true (job w)) w in
  let w := with_job (set_jobTimeoutHandler HUndefined (job w)) w in
  fold_left (timeout_step (Date_now a)) (totalIntelligences (job w)) w.

(** The callback given to [setTimeout]. *)
Definition jobTimeout_callback (a : Answers) (w : World) : World :=
  endCollectIntelligencesJob a (timeout_marks a w).

(** One turn of [results.forEach(...)] in the [then] of
    [Promise.allSettled]. *)
Definition collect (now : Z) (intelligence : ref) (state : string) (w : World)
  : World :=
  let key := ToString (get_at (store w) intelligence ["globalId"]) in
  let h :=
    setIntelligenceState now intelligence (VStr state) VUndefined (store w) in
  let w := with_store h w in
  let j := job w in
  with_job
    (set_collected (<[key := intelligence]> (collectedIntelligencesDict j))
       (collectedIntelligencesNumber j + 1) j) w.

Definition settled_step (now : Z) (w : World) (result : settled) : World :=
  if String.eqb (toLower (status result)) "fulfilled"
     && truthy (payload_globalId (store w) (settled_value result))
  then
    match settled_value result with
    | Obj intelligence => collect now intelligence "FINISHED" w
    | Prim _ => w
    end
  else if String.eqb (toLower (status result)) "rejected"
          && truthy (payload_globalId (store w) (settled_reason result))
  then
    match settled_reason result with
    | Obj intelligence => collect now intelligence "FAILED" w
    | Prim _ => w
    end
  else w.

(** The [forEach] of the [then] callback, before it ends the job. *)
Definition settled_marks (a : Answers) (results : list settled) (w : World)
  : World :=
  let w := emit (clearTimeout (jobTimeoutHandler (job w))) w in
  let w := with_job (set_jobTimeoutHandler HUndefined (job w)) w in
  fold_left (settled_step (Date_now a)) results w.

(** The [then] callback of [Promise.allSettled(promises)]. *)
Definition allSettled_then (a : Answers) (results : list settled) (w : World)
  : World :=
  if jobTimeout (job w) then w
  else endCollectIntelligencesJob a (settled_marks a results w).

(** The [catch] callback of the same chain (reached only if the [then]
    callback throws). *)
Definition allSettled_catch (a : Answers) (w : World) : World :=
  if jobTimeout (job w) then w
  else startCollectIntelligencesJob_catch a w.

(** *** The job loop *)

(** The callback given to [setInterval] in [startPollingGetIntelligences]. *)
Definition watchIntelligences_callback (a : Answers) (w : World) : World :=
  let j := job w in
  if negb (truthy (jobId j)) && negb (lockJob j)
  then startCollectIntelligencesJob a w
  else w.

Definition endPollingGetIntelligences (a : Answers) (w : World) : World :=
  let w :=
    emit (clearInterval (__watchIntelligencesIntervalHandler (producer w))) w in
  let w :=
    with_producer
      (set___watchIntelligencesIntervalHandler HNull (producer w)) w in
  endCollectIntelligencesJob a w.

Definition startPollingGetIntelligences (a : Answers) (w : World) : World :=
  let w := endPollingGetIntelligences a w in
  let producerConfigs := __currentProducerConfig (producer w) in
  match producerConfigs with
  | VUndefined | VNull => w
  | _ =>
      let interval := get_field producerConfigs "pollingInterval" in
      let pollingValue :=
        js_mul (if truthy interval then interval
                else VNum DEFAULT_pollingInterval) 1000 in
      let w :=
        emit (clearInterval
                (__watchIntelligencesIntervalHandler (producer w))) w in
      let w := emit (setInterval (new_timer a) pollingValue) w in
      with_producer
        (set___watchIntelligencesIntervalHandler (HTimer (new_timer a))
           (producer w)) w
  end.

(** *** getProducerConfiguration *)

(** The message chosen in the [catch] when [err.status] is truthy. *)
Definition producerError_message (p : Producer) (configs err : value)
  : string :=
  let st := get_field err "status" in
  let code := get_field err "code" in
  if strict_eq st (VNum 404) then
    "Cannot find any producer by " +:+ ToString (get_field configs "GLOBAL_ID")
      +:+ ". Please check your GLOBAL_ID"
  else if strict_eq st (VNum 401) then
    "Please pass correct BITSKY_SECURITY_KEY. "
      +:+ ToString (get_field configs "BITSKY_SECURITY_KEY") +:+ " is invalid"
  else if js_ge st 500 then "Internal server error"
  else if strict_eq st (VNum 403) then
    "The producer you want connect to was already connected by other producer instance. You need to disconnect it before you can connect or change another producer to connect"
  else if js_ge st 400 && strict_eq code (VStr "00144000002") then
    "Please set PRODUCER_SERIAL_ID, this is required"
  else if js_ge st 400 && strict_eq code (VStr "00144000004") then
    "The producer's type you are trying to connect isn't "
      +:+ ToString (__type p) +:+ ", please change Producer Global ID which its type is "
      +:+ ToString (__type p)
  else if js_ge st 400 then
    "Please check GLOBAL ID, PRODUCER_SERIAL_ID or BITSKY_SECURITY_KEY, some fileds isn't correct"
  else "Internal server error".

(** [getProducerConfiguration()], with the answer of [getProducerAPI]. The
    result is what the call returns or the error it throws. *)
Definition getProducerConfiguration (a : Answers) (api : response value)
  (w : World) : World * completion value :=
  let p := producer w in
  let configs := getConfigs a in
  if negb (truthy (get_field configs "BITSKY_BASE_URL"))
     || negb (truthy (get_field configs "GLOBAL_ID"))
  then
    (with_producer
       (set___producerError
          (VObj KObject
             [("status", VNum 400);
              ("message", VStr "GLOBAL_ID and BITSKY_BASE_URL is required")])
          p) w,
     Return VUndefined)
  else
    let w :=
      emit (getProducerAPI (get_field configs "BITSKY_BASE_URL")
              (get_field configs "GLOBAL_ID") (__type p)
              (get_field configs "BITSKY_SECURITY_KEY")) w in
    match api with
    | Resolved data =>
        (with_producer (set___producerError VNull p) w,
         Return (merge_DEFAULT_AGENT_CONFIGURATION data))
    | Rejected err =>
        match err with
        | VUndefined | VNull =>
            (* [err.message] in the log line of the [catch] *)
            (w, Throw (TypeError "Cannot read properties of undefined"))
        | _ =>
            if truthy err && truthy (get_field err "status") then
              (with_producer
                 (set___producerError
                    (VObj KObject
                       [("error", VBool true);
                        ("status", get_field err "status");
                        ("code", get_field err "code");
                        ("message", VStr (producerError_message p configs err))])
                    p) w,
               Return VUndefined)
            else
              match __producerError p with
              | VObj c fs =>
                  (with_producer
                     (set___producerError
                        (VObj c (assign "message"
                                   (VStr "Internal server error") fs)) p) w,
                   Return VUndefined)
              | _ =>
                  (* [this.__producerError.message = ...] on null *)
                  (w, Throw (TypeError "Cannot set properties of null"))
              end
        end
    end.

(** *** compareProducerConfiguration *)

Definition compareProducerConfiguration (a : Answers) (api : response value)
  (w : World) : World :=
  match getProducerConfiguration a api w with
  | (w, Throw _) => w
  | (w, Return config) =>
      let current := __currentProducerConfig (producer w) in
      if negb (strict_eq (get config ["globalId"]) (get current ["globalId"]))
         || negb (strict_eq (get config ["system"; "version"])
                    (get current ["system"; "version"]))
      then
        let configs := getConfigs a in
        let w :=
          with_producer (set___currentProducerConfig config (producer w)) w in
        if negb (truthy (get_field configs "BITSKY_BASE_URL"))
           || negb (truthy (get config ["type"]))
           || negb (truthy (get config ["globalId"]))
           || negb (String.eqb (toUpper (get config ["type"]))
                      (toUpper (__type (producer w))))
           || negb (String.eqb (toUpper (get config ["system"; "state"]))
                      (toUpper AGENT_STATE_active))
        then endPollingGetIntelligences a w
        else startPollingGetIntelligences a w
      else w
  end.

(** *** constructor, start, stop *)

Definition constructor (configs : value) : Producer :=
  setConfigs configs
    {| __type := SERVICE_AGENT_TYPE;
       __producerError := VNull;
       __ranJobNumber := 0;
       __currentProducerConfig := VUndefined;
       __watchIntelligencesIntervalHandler := HUndefined;
       __watchProducerIntervalHandler := HUndefined;
       __runningJob :=
         {| totalIntelligences := [];
            collectedIntelligencesDict := ∅;
            collectedIntelligencesNumber := 0;
            jobId := VUndefined;
            startTime := 0;
            jobTimeout := false;
            endingCollectIntelligencesJob := false;
            jobTimeoutHandler := HUndefined;
            lockJob := false |};
       __manuallySetConfigs :=
         VObj KObject
           [("BITSKY_BASE_URL", VUndefined);
            ("BITSKY_SECURITY_KEY", VUndefined);
            ("GLOBAL_ID", VUndefined)] |}.

Definition start (a : Answers) (w : World) : World :=
  let w := resetRuntime w in
  let w :=
    if negb (truthy (__type (producer w)))
    then with_producer (set___type SERVICE_AGENT_TYPE (producer w)) w
    else w in
  let w := emit (setInterval (new_timer a) (Some POLLING_INTERVAL_WATCH_AGENT)) w in
  with_producer
    (set___watchProducerIntervalHandler (HTimer (new_timer a)) (producer w)) w.

Definition stop (w : World) : World := resetRuntime w.

(** *** Everything that runs

    One constructor for each piece of the class the event loop can run: the
    public operations, the two interval callbacks, the continuations of
    [startCollectIntelligencesJob] after each of its awaits, the timeout
    callback, the [then] and [catch] callbacks of the worker's promises; and
    one for whoever else holds an intelligence (the worker) and writes to it.
    The accessor [worker()] is left out: the worker is not part of the state
    modelled, its calls are. *)
Inductive handler : Type :=
| Start (a : Answers)
| Stop
| SetConfigs (configs : value)
| SetType (t : value)
| WatchProducer (a : Answers) (api : response value)
| WatchIntelligences (a : Answers)
| Fetched (a : Answers) (r : response (list ref))
| WorkerIdle (a : Answers) (r : response unit)
| WorkerCalled (a : Answers) (r : response unit)
| JobTimeout (a : Answers)
| AllSettled (a : Answers) (results : list settled)
| AllSettledThrew (a : Answers)
| WorkerWrites (h : heap).

Definition run (hd : handler) (w : World) : World :=
  match hd with
  | Start a => start a w
  | Stop => stop w
  | SetConfigs configs => with_producer (setConfigs configs (producer w)) w
  | SetType t =>
      match type t (producer w) with
      | Return (This p) => with_producer p w
      | _ => w
      end
  | WatchProducer a api => compareProducerConfiguration a api w
  | WatchIntelligences a => watchIntelligences_callback a w
  | Fetched a r => startCollectIntelligencesJob_fetched a r w
  | WorkerIdle a r => startCollectIntelligencesJob_idle a r w
  | WorkerCalled a r => startCollectIntelligencesJob_armed a r w
  | JobTimeout a => jobTimeout_callback a w
  | AllSettled a results => allSettled_then a results w
  | AllSettledThrew a => allSettled_catch a w
  | WorkerWrites h => with_store h w
  end.

(** The answers a handler ran with. *)
Definition answers_of (hd : handler) : option Answers :=
  match hd with
  | Start a | WatchProducer a _ | WatchIntelligences a | Fetched a _
  | WorkerIdle a _ | WorkerCalled a _ | JobTimeout a | AllSettled a _
  | AllSettledThrew a => Some a
  | Stop | SetConfigs _ | SetType _ | WorkerWrites _ => None
  end.

End Producer.

(** Who holds the slot: the id of the running job, its start time, the
    lock. *)
Definition slot (j : RunningJob) : value * Z * bool :=
  (jobId j, startTime j, lockJob j).

(** The running job as [resetRunningJob] leaves it, and as [initRunningJob()]
    leaves it. *)
Definition idle_job : RunningJob :=
  {| totalIntelligences := [];
     collectedIntelligencesDict := ∅;
     collectedIntelligencesNumber := 0;
     jobId := VUndefined;
     startTime := 0;
     jobTimeout := false;
     endingCollectIntelligencesJob := false;
     jobTimeoutHandler := HUndefined;
     lockJob := false |}.

Definition new_job (a : Answers) : RunningJob :=
  {| totalIntelligences := [];
     collectedIntelligencesDict := ∅;
     collectedIntelligencesNumber := 0;
     jobId := VStr (uuid_v4 a);
     startTime := Date_now a;
     jobTimeout := false;
     endingCollectIntelligencesJob := false;
     jobTimeoutHandler := HUndefined;
     lockJob := true |}.

(** ** An environment for the examples *)

(** The path without its leading slash. *)
Definition strip_slash (s : string) : string :=
  match s with
  | String c s' => if Ascii.eqb c (Ascii.ascii_of_nat 47) then s' else s
  | EmptyString => s
  end.

(** Modelled from the spec: the constants module and [utils.joinURL] are not
    in src/. The spec gives the header name [X-Security-Key], the type tag
    [SERVICE] and the state [ACTIVE] of its scenarios, and that the join of
    [http://s/] and [/cb] is [http://s/cb]; the intervals are arbitrary. The
    built-ins are stand-ins: no example below depends on the text
    [JSON.stringify] or [toString] produce. *)
Definition sample_externals : Externals :=
  {| JSON_stringify :=
       fun v => match v with VUndefined => VUndefined | _ => VStr "{}" end;
     object_toString := fun _ _ => "[object Object]";
     string_ToNumber := fun _ => None;
     toJSON := fun err => Some err;
     joinURL :=
       fun path base =>
         match path, base with
         | VStr p, VStr b => VStr (b +:+ strip_slash p)
         | _, _ => VUndefined
         end;
     merge_DEFAULT_AGENT_CONFIGURATION := fun producer => producer;
     DEFAULT_pollingInterval := 30;
     SERVICE_AGENT_TYPE := VStr "SERVICE";
     AGENT_STATE_active := VStr "ACTIVE";
     X_SECURITY_KEY_HEADER := "X-Security-Key";
     COLLECT_JOB_TIMEOUT := 300000;
     POLLING_INTERVAL_WATCH_AGENT := 30000 |}.

(** A world with nothing in it but a new producer. *)
Definition new_world : World :=
  {| producer := constructor (H := sample_externals) VUndefined;
     store := ∅;
     calls := [] |}.

(** An intelligence as the control plane hands it out: an id and the target
    system to report to. *)
Definition intelligence_for (globalId baseURL path : string) : fields :=
  [("globalId", VStr globalId);
   ("soi",
    VObj KObject
      [("baseURL", VStr baseURL);
       ("callback",
        VObj KObject [("method", VStr "POST"); ("path", VStr path)])])].

(** Answers of the outside world; [fails] says whether the POSTs to the
    target systems throw. *)
Definition sample_answers (fails : bool) : Answers :=
  {| Date_now := 1000;
     uuid_v4 := "job-2";
     getConfigs :=
       VObj KObject
         [("BITSKY_BASE_URL", VStr "http://dia/");
          ("BITSKY_SECURITY_KEY", VStr "key");
          ("PRODUCER_SERIAL_ID", VStr "serial");
          ("GLOBAL_ID", VStr "g1")];
     new_timer := 7;
     sendIntelligencesToSOI_error :=
       fun _ =>
         if fails
         then Some (VObj KError [("message", VStr "connect ECONNREFUSED")])
         else None |}.

(** A producer in the middle of job [job-1] over the given batch: the
    worker has been called and the timeout is armed. *)
Definition running_world (batch : list (nat * fields)) : World :=
  {| producer :=
       set___runningJob
         {| totalIntelligences := map fst batch;
            collectedIntelligencesDict := ∅;
            collectedIntelligencesNumber := 0;
            jobId := VStr "job-1";
            startTime := 500;
            jobTimeout := false;
            endingCollectIntelligencesJob := false;
            jobTimeoutHandler := HTimer 3;
            lockJob := true |}
         (producer new_world);
     store := list_to_map batch;
     calls := [] |}.

(** The configuration [g1] at version [v1], for an active producer. *)
Definition adopted_config : value :=
  VObj KObject
    [("globalId", VStr "g1");
     ("type", VStr "SERVICE");
     ("system",
      VObj KObject [("version", VStr "v1"); ("state", VStr "ACTIVE")]);
     ("pollingInterval", VNum 1)].

(** The batch of the mixed-outcomes scenario after the worker has settled:
    item 1 came back with a dataset and no state, item 2 came back marked
    "FAILED", item 3 did not come back. *)
Definition mixed_store : heap :=
  list_to_map
    [(1%nat, intelligence_for "i1" "http://s/" "/cb"
               ++ [("dataset", VObj KObject [("title", VStr "t")])]);
     (2%nat, intelligence_for "i2" "http://s/" "/cb"
               ++ [("system", VObj KObject [("state", VStr "FAILED")])]);
     (3%nat, intelligence_for "i3" "http://s/" "/cb")].

Definition mixed_dict : gmap string nat :=
  <["i1" := 1%nat]> (<["i2" := 2%nat]> ∅).

(** Two intelligences for two target systems. *)
Definition two_destinations : list (nat * fields) :=
  [(1%nat, intelligence_for "i1" "http://s/" "/cb");
   (2%nat, intelligence_for "i2" "http://t/" "/done")].

(** ** Predicates of the statements *)

Section Predicates.
Context `{Externals}.

(** The bucket [kb] holds, in their order, the intelligences of [seen] that
    have its key, has at least one, and carries the [soi] of the first. *)
Definition bucket_of (h : heap) (seen : list ref) (kb : string * Bucket)
  : Prop :=
  intelligences (snd kb)
  = filter (fun l => routing_key h l = Some (fst kb)) seen /\
  exists l0 tl, intelligences (snd kb) = l0 :: tl
                /\ soi (snd kb) = get_at h l0 ["soi"].

(** The buckets [sois] are the grouping of [seen] by routing key: no key
    twice, every bucket as above, and a bucket for every routed
    intelligence. *)
Definition grouped (h : heap) (sois : list (string * Bucket))
  (seen : list ref) : Prop :=
  NoDup (map fst sois) /\
  Forall (bucket_of h seen) sois /\
  (forall l k, l ∈ seen -> routing_key h l = Some k -> k ∈ map fst sois).

End Predicates.

(** ** The requests of the dispatcher, by bucket *)

Section Requests.
Context `{Externals}.

(** The POST to the target system of a bucket, sent while the store is [h]:
    the request of [send_bucket]. *)
Definition post_of (all : list ref) (h : heap) (kb : string * Bucket) : call :=
  sendIntelligencesToSOI (get (soi (snd kb)) ["baseURL"])
    (get (soi (snd kb)) ["callback"; "method"])
    (get (soi (snd kb)) ["callback"; "path"])
    (if truthy (get (soi (snd kb)) ["apiKey"])
     then [(X_SECURITY_KEY_HEADER, get (soi (snd kb)) ["apiKey"])]
     else [])
    all (snapshot h all).

(** The PUT of a bucket to the control plane, sent while the store is [h]:
    the request of [settle_bucket]. *)
Definition put_of (a : Answers) (h : heap) (kb : string * Bucket) : call :=
  updateIntelligencesAPI (get_field (getConfigs a) "BITSKY_BASE_URL")
    (get_field (getConfigs a) "BITSKY_SECURITY_KEY")
    (intelligences (snd kb)) (snapshot h (intelligences (snd kb))).

(** The intelligences a request reports to the control plane. *)
Definition reported (c : call) : list ref :=
  match c with
  | updateIntelligencesAPI _ _ items _ => items
  | _ => []
  end.


End Requests.

(** ** The job runner, seen from the rest of the producer *)

(** The producer without its running job. *)
Definition no_job (p : Producer) : Producer := set___runningJob idle_job p.

(** The pieces of the job loop and the job runner: the tick of the job loop
    and the continuations of [startCollectIntelligencesJob]. *)
Definition is_job_handler (hd : handler) : bool :=
  match hd with
  | WatchIntelligences _ | Fetched _ _ | WorkerIdle _ _ | WorkerCalled _ _
  | JobTimeout _ | AllSettled _ _ | AllSettledThrew _ => true
  | Start _ | Stop | SetConfigs _ | SetType _ | WatchProducer _ _
  | WorkerWrites _ => false
  end.

(** The batches a handler counts: one for a fetch answered a non-empty
    batch. *)
Definition counted (hd : handler) : Z :=
  match hd with
  | Fetched _ (Resolved (_ :: _)) => 1
  | _ => 0
  end.

(** The request for a batch that [startCollectIntelligencesJob] sends. *)
Definition fetch_of (a : Answers) : call :=
  getIntelligencesAPI (get_field (getConfigs a) "BITSKY_BASE_URL")
    (get_field (getConfigs a) "GLOBAL_ID")
    (get_field (getConfigs a) "BITSKY_SECURITY_KEY").

(** A job is live when [endCollectIntelligencesJob] would end it. *)
Definition live (j : RunningJob) : bool :=
  truthy (jobId j) && lockJob j && negb (endingCollectIntelligencesJob j).

(** ** The conditions of the configuration watcher *)

Section Conditions.
Context `{Externals}.

(** The configuration differs from the adopted one in [globalId] or in
    [system.version]. *)
Definition changed (config current : value) : bool :=
  negb (strict_eq (get config ["globalId"]) (get current ["globalId"]))
  || negb (strict_eq (get config ["system"; "version"])
             (get current ["system"; "version"])).

(** The conditions under which the job loop is started for a configuration:
    a base URL is configured, the configuration has a type and a
    [globalId], its type is the producer's (letter case apart) and its state
    is the active one (letter case apart). *)
Definition may_poll (a : Answers) (p : Producer) (config : value) : bool :=
  truthy (get_field (getConfigs a) "BITSKY_BASE_URL")
  && truthy (get config ["type"])
  && truthy (get config ["globalId"])
  && String.eqb (toUpper (get config ["type"])) (toUpper (__type p))
  && String.eqb (toUpper (get config ["system"; "state"]))
       (toUpper AGENT_STATE_active).

(** The delay of the job loop for a configuration, in milliseconds. *)
Definition polling_delay (config : value) : option Z :=
  js_mul (if truthy (get_field config "pollingInterval")
          then get_field config "pollingInterval"
          else VNum DEFAULT_pollingInterval) 1000.

End Conditions.

(** ** A second environment for the examples *)

(** The environment of the examples on a runtime whose errors are the
    built-in ones: an instance of Error has no [toJSON] method, so the call
    throws; any other value answers itself. *)
Definition plain_error_externals : Externals :=
  {| JSON_stringify :=
       fun v => match v with VUndefined => VUndefined | _ => VStr "{}" end;
     object_toString := fun _ _ => "[object Object]";
     string_ToNumber := fun _ => None;
     toJSON := fun err => if instanceof_Error err then None else Some err;
     joinURL :=
       fun path base =>
         match path, base with
         | VStr p, VStr b => VStr (b +:+ strip_slash p)
         | _, _ => VUndefined
         end;
     merge_DEFAULT_AGENT_CONFIGURATION := fun producer => producer;
     DEFAULT_pollingInterval := 30;
     SERVICE_AGENT_TYPE := VStr "SERVICE";
     AGENT_STATE_active := VStr "ACTIVE";
     X_SECURITY_KEY_HEADER := "X-Security-Key";
     COLLECT_JOB_TIMEOUT := 300000;
     POLLING_INTERVAL_WATCH_AGENT := 30000 |}.


(** * Properties *)

(** Case analysis on the condition of the first [if] of the goal. *)
Ltac case_cond :=
  match goal with
  | |- context [if ?c then _ else _] => destruct c
  end.

(** ** Reading and writing properties *)

Lemma lookup_assign_eq (k : string) (x : value) (fs : fields) :
  lookup_field k (assign k x fs) = x.
Proof.
  induction fs as [|[k' v] fs IH]; simpl.
  - by rewrite String.eqb_refl.
  - destruct (String.eqb k k') eqn:E; simpl.
    + by rewrite String.eqb_refl.
    + by rewrite E.
Qed.

Lemma lookup_assign_ne (k k' : string) (x : value) (fs : fields) :
  k <> k' -> lookup_field k' (assign k x fs) = lookup_field k' fs.
Proof.
  intros Hne. induction fs as [|[k0 v] fs IH]; simpl.
  - destruct (String.eqb k' k) eqn:E; [|done].
    apply String.eqb_eq in E. congruence.
  - destruct (String.eqb k k0) eqn:E; simpl.
    + apply String.eqb_eq in E. subst k0.
      destruct (String.eqb k' k) eqn:E'; [|done].
      apply String.eqb_eq in E'. congruence.
    + by rewrite IH.
Qed.

Lemma get_undefined (q : list string) : get VUndefined q = VUndefined.
Proof. induction q as [|k q IH]; [done|]. simpl. exact IH. Qed.

Lemma get_not_object (v : value) (k : string) (q : list string) :
  instanceof_Object v = false -> get v (k :: q) = VUndefined.
Proof. intros Hv. destruct v; try discriminate; simpl; apply get_undefined. Qed.

Lemma get_empty_object (c : klass) (k : string) (q : list string) :
  get (VObj c []) (k :: q) = VUndefined.
Proof. simpl. apply get_undefined. Qed.

Lemma set_fields_nested (k k' : string) (p : list string) (x : value)
  (fs : fields) :
  set_fields (k :: k' :: p) x fs =
  match lookup_field k fs with
  | VObj c fs' => assign k (VObj c (set_fields (k' :: p) x fs')) fs
  | _ => assign k (VObj KObject (set_fields (k' :: p) x [])) fs
  end.
Proof. reflexivity. Qed.

Lemma get_set_fields_eq (p : list string) (x : value) :
  p <> [] -> forall (c : klass) (fs : fields),
  get (VObj c (set_fields p x fs)) p = x.
Proof.
  induction p as [|k p IH]; [done|]. intros _ c fs.
  destruct p as [|k' p].
  - simpl. apply lookup_assign_eq.
  - change (get (VObj c (set_fields (k :: k' :: p) x fs)) (k :: k' :: p))
      with (get (lookup_field k (set_fields (k :: k' :: p) x fs)) (k' :: p)).
    rewrite set_fields_nested.
    destruct (lookup_field k fs); rewrite lookup_assign_eq; by apply IH.
Qed.

Lemma get_set_fields_diverge (p q : list string) (x : value) :
  diverge p q = true -> forall (c : klass) (fs : fields),
  get (VObj c (set_fields p x fs)) q = get (VObj c fs) q.
Proof.
  revert q. induction p as [|a p IH]; intros q Hd c fs; [done|].
  destruct q as [|b q]; [done|].
  cbn [diverge] in Hd.
  change (get (lookup_field b (set_fields (a :: p) x fs)) q
          = get (lookup_field b fs) q).
  destruct (String.eqb a b) eqn:E.
  - apply String.eqb_eq in E. subst b.
    destruct p as [|a' p]; [done|].
    destruct q as [|b' q]; [by destruct (String.eqb a' a')|].
    rewrite set_fields_nested.
    destruct (lookup_field a fs) eqn:El; rewrite lookup_assign_eq;
      rewrite (IH _ Hd); try (rewrite get_empty_object; symmetry;
                              by apply get_not_object).
    done.
  - apply String.eqb_neq in E.
    destruct p as [|a' p]; [|rewrite set_fields_nested].
    + simpl. by rewrite (lookup_assign_ne _ _ _ _ E).
    + destruct (lookup_field a fs); by rewrite (lookup_assign_ne _ _ _ _ E).
Qed.

(** A write below [k] leaves every other top-level property alone. *)
Lemma lookup_set_fields_ne (k k' : string) (p : list string) (x : value)
  (fs : fields) :
  k <> k' -> lookup_field k' (set_fields (k :: p) x fs) = lookup_field k' fs.
Proof.
  intros Hne. destruct p as [|a p]; [|rewrite set_fields_nested].
  - by apply lookup_assign_ne.
  - destruct (lookup_field k fs); by apply lookup_assign_ne.
Qed.

Section HeapAccess.
Implicit Types (h : heap) (l : ref) (p q : list string) (x : value).

Lemma get_at_set_at_eq h l p x : p <> [] -> get_at (set_at h l p x) l p = x.
Proof.
  intros Hp. unfold get_at, set_at, deref.
  rewrite lookup_total_insert_eq. by apply get_set_fields_eq.
Qed.

Lemma get_at_set_at_diverge h l p q x :
  diverge p q = true -> get_at (set_at h l p x) l q = get_at h l q.
Proof.
  intros Hd. unfold get_at, set_at, deref.
  rewrite lookup_total_insert_eq. by apply get_set_fields_diverge.
Qed.

Lemma get_at_set_at_other h l l' p q x :
  l <> l' -> get_at (set_at h l p x) l' q = get_at h l' q.
Proof.
  intros Hne. unfold get_at, set_at, deref.
  by rewrite lookup_total_insert_ne.
Qed.

Lemma set_at_other h l l' p x : l <> l' -> set_at h l p x !!! l' = h !!! l'.
Proof. intros Hne. unfold set_at. by rewrite lookup_total_insert_ne. Qed.

End HeapAccess.

(** ** setIntelligenceState *)

Section SetIntelligenceState.
Context `{Externals}.
Implicit Types (h : heap) (l : ref) (state reason : value) (now : Z).

Lemma setIntelligenceState_state now l state reason h :
  get_at (setIntelligenceState now l state reason h) l ["system"; "state"]
  = VStr (toUpper state).
Proof.
  unfold setIntelligenceState.
  destruct (truthy reason);
    [rewrite get_at_set_at_diverge by reflexivity|];
    (destruct (truthy (get_at _ l ["system"; "producer"; "endedAt"]));
     [rewrite get_at_set_at_diverge by reflexivity|]);
    by apply get_at_set_at_eq.
Qed.

Lemma setIntelligenceState_endedAt now l state reason h :
  get_at (setIntelligenceState now l state reason h) l
    ["system"; "producer"; "endedAt"]
  = if truthy (get_at h l ["system"; "producer"; "endedAt"])
    then VNum now
    else get_at h l ["system"; "producer"; "endedAt"].
Proof.
  unfold setIntelligenceState.
  rewrite (get_at_set_at_diverge h l ["system"; "state"]
             ["system"; "producer"; "endedAt"]) by reflexivity.
  destruct (truthy reason);
    [rewrite get_at_set_at_diverge by reflexivity|];
    (destruct (truthy (get_at h l ["system"; "producer"; "endedAt"]));
     [by apply get_at_set_at_eq|by apply get_at_set_at_diverge]).
Qed.

Lemma setIntelligenceState_failuresReason now l state reason h :
  get_at (setIntelligenceState now l state reason h) l
    ["system"; "failuresReason"]
  = if truthy reason then
      if instanceof_Error reason then get_field reason "message"
      else if typeof_object reason then JSON_stringify reason
      else VStr (lodash_toString reason)
    else get_at h l ["system"; "failuresReason"].
Proof.
  unfold setIntelligenceState.
  destruct (truthy reason); [by apply get_at_set_at_eq|].
  destruct (truthy (get_at _ l ["system"; "producer"; "endedAt"]));
    [rewrite get_at_set_at_diverge by reflexivity|];
    by apply get_at_set_at_diverge.
Qed.

(** Only [system] is written to, and only in the intelligence given. *)
Lemma setIntelligenceState_field now l state reason h (k : string) :
  k <> "system" ->
  lookup_field k (setIntelligenceState now l state reason h !!! l)
  = lookup_field k (h !!! l).
Proof.
  intros Hk. unfold setIntelligenceState, set_at.
  assert (Hs : "system" <> k) by congruence.
  destruct (truthy reason);
    [rewrite lookup_total_insert_eq, lookup_set_fields_ne by done|];
    (destruct (truthy (get_at _ l ["system"; "producer"; "endedAt"]));
     [rewrite lookup_total_insert_eq, lookup_set_fields_ne by done|]);
    by rewrite lookup_total_insert_eq, lookup_set_fields_ne.
Qed.

Lemma setIntelligenceState_other now l l' state reason h :
  l <> l' -> setIntelligenceState now l state reason h !!! l' = h !!! l'.
Proof.
  intros Hne. unfold setIntelligenceState.
  destruct (truthy reason); [rewrite set_at_other by done|];
    (destruct (truthy (get_at _ l ["system"; "producer"; "endedAt"]));
     [rewrite set_at_other by done|]);
    by apply set_at_other.
Qed.

(** Below [system], the three properties named are the only ones written. *)
Lemma setIntelligenceState_system_field now l state reason h (k : string) :
  k <> "state" -> k <> "producer" -> k <> "failuresReason" ->
  get_at (setIntelligenceState now l state reason h) l ["system"; k]
  = get_at h l ["system"; k].
Proof.
  intros H1 H2 H3. unfold setIntelligenceState.
  assert (D : forall a p, a <> k -> diverge ("system" :: a :: p) ["system"; k]
                                  = true).
  { intros a p Ha. cbn. by apply String.eqb_neq in Ha as ->. }
  destruct (truthy reason); [rewrite get_at_set_at_diverge by by apply D|];
    (destruct (truthy (get_at _ l ["system"; "producer"; "endedAt"]));
     [rewrite get_at_set_at_diverge by by apply D|]);
    by rewrite get_at_set_at_diverge by by apply D.
Qed.

Lemma setIntelligenceState_globalId now l l' state reason h :
  get_at (setIntelligenceState now l state reason h) l' ["globalId"]
  = get_at h l' ["globalId"].
Proof.
  destruct (decide (l = l')) as [<-|Hne].
  - unfold get_at, deref. simpl.
    by apply setIntelligenceState_field.
  - unfold get_at, deref. by rewrite setIntelligenceState_other.
Qed.

(** C5, on the code. What [setIntelligenceState] writes: [system.state] is
    the state in upper case; [system.producer.endedAt] becomes the current
    time only when it already held a truthy value, and is otherwise left as
    it was (an intelligence without [endedAt] gets none); a truthy reason is
    stored in [system.failuresReason] as the message of an Error, the JSON
    text of another object, or the string of anything else, and without a
    truthy reason [system.failuresReason] is left as it was. Nothing else is
    written: no other property of the intelligence, no other property of its
    [system], no other intelligence. *)
Theorem setIntelligenceState_writes now l state reason h :
  let h' := setIntelligenceState now l state reason h in
  get_at h' l ["system"; "state"] = VStr (toUpper state) /\
  get_at h' l ["system"; "producer"; "endedAt"]
  = (if truthy (get_at h l ["system"; "producer"; "endedAt"])
     then VNum now
     else get_at h l ["system"; "producer"; "endedAt"]) /\
  get_at h' l ["system"; "failuresReason"]
  = (if truthy reason then
       if instanceof_Error reason then get_field reason "message"
       else if typeof_object reason then JSON_stringify reason
       else VStr (lodash_toString reason)
     else get_at h l ["system"; "failuresReason"]) /\
  (forall k : string,
     k <> "system" -> lookup_field k (h' !!! l) = lookup_field k (h !!! l)) /\
  (forall k : string,
     k <> "state" -> k <> "producer" -> k <> "failuresReason" ->
     get_at h' l ["system"; k] = get_at h l ["system"; k]) /\
  (forall l' : ref, l <> l' -> h' !!! l' = h !!! l').
Proof.
  cbv zeta. split_and!.
  - apply setIntelligenceState_state.
  - apply setIntelligenceState_endedAt.
  - apply setIntelligenceState_failuresReason.
  - intros k Hk. by apply setIntelligenceState_field.
  - intros k H1 H2 H3. by apply setIntelligenceState_system_field.
  - intros l' Hne. by apply setIntelligenceState_other.
Qed.

End SetIntelligenceState.

(** ** The facade: setConfigs and type *)

Section Facade.
Context `{Externals}.

(** C10. [setConfigs] with an argument that is not an instance of Object
    (undefined, null, a string, a number, a boolean) returns normally and
    leaves the producer, its caller-override snapshot included, as it was;
    an object argument becomes the snapshot and nothing else changes. *)
Theorem setConfigs_only_objects (configs : value) (p : Producer) :
  (instanceof_Object configs = false -> setConfigs configs p = p) /\
  (instanceof_Object configs = true ->
   setConfigs configs p = set___manuallySetConfigs configs p) /\
  (forall (s : string) (n : Z) (b : bool),
     setConfigs VUndefined p = p /\ setConfigs VNull p = p /\
     setConfigs (VStr s) p = p /\ setConfigs (VNum n) p = p /\
     setConfigs (VBool b) p = p) /\
  (__manuallySetConfigs (setConfigs configs p) <> __manuallySetConfigs p ->
   instanceof_Object configs = true /\
   __manuallySetConfigs (setConfigs configs p) = configs).
Proof.
  unfold setConfigs. repeat split; try done.
  - by intros ->.
  - by intros ->.
  - destruct (instanceof_Object configs); done.
  - destruct (instanceof_Object configs); done.
Qed.

(** [type] never throws: the test that guards the [throw] repeats the test
    of the getter, which has returned by then. *)
Lemma type_never_throws (t : value) (p : Producer) :
  type t p = if truthy t then Return (This (set___type t p))
             else Return (TheType (__type p)).
Proof.
  unfold type. destruct (truthy t); simpl; [|done].
  by rewrite andb_false_r.
Qed.

(** C9, on the code. Called with the empty string, [type] does not throw: it
    takes the string for a missing argument and returns the current type,
    which it leaves as it was. A non-empty string is stored and the producer
    returned; without an argument the current type is returned. *)
Theorem type_empty_string_is_getter (p : Producer) (s : string) :
  type (VStr "") p = Return (TheType (__type p)) /\
  type VUndefined p = Return (TheType (__type p)) /\
  (type (VStr s) p = if String.eqb s "" then Return (TheType (__type p))
                     else Return (This (set___type (VStr s) p))).
Proof.
  rewrite !type_never_throws. simpl. repeat split; try done.
  by destruct (String.eqb s "").
Qed.

End Facade.

(** ** The configuration watcher *)

Section Watcher.
Context `{Externals}.
Implicit Types (a : Answers) (w : World) (err config : value).

(** With a complete configuration and an error that carries a truthy
    [status], the fetch returns [undefined] and records the classified
    error. *)
Lemma getProducerConfiguration_status a err w :
  truthy (get_field (getConfigs a) "BITSKY_BASE_URL") = true ->
  truthy (get_field (getConfigs a) "GLOBAL_ID") = true ->
  truthy (get_field err "status") = true ->
  let configs := getConfigs a in
  let request :=
    getProducerAPI (get_field configs "BITSKY_BASE_URL")
      (get_field configs "GLOBAL_ID") (__type (producer w))
      (get_field configs "BITSKY_SECURITY_KEY") in
  getProducerConfiguration a (Rejected err) w
  = (with_producer
       (set___producerError
          (VObj KObject
             [("error", VBool true);
              ("status", get_field err "status");
              ("code", get_field err "code");
              ("message",
               VStr (producerError_message (producer w) configs err))])
          (producer w)) (emit request w),
     Return VUndefined).
Proof.
  intros Hb Hg Hs. cbv zeta. unfold getProducerConfiguration.
  rewrite Hb, Hg. cbn [negb orb].
  destruct err; try discriminate Hs.
  by rewrite Hs.
Qed.

(** The messages the statuses named in the taxonomy select. *)
Lemma producerError_message_by_status (p : Producer) (configs err : value)
  (n : Z) :
  get_field err "status" = VNum n ->
  (n = 404 ->
   producerError_message p configs err
   = "Cannot find any producer by "
       +:+ ToString (get_field configs "GLOBAL_ID")
       +:+ ". Please check your GLOBAL_ID") /\
  (n = 401 ->
   producerError_message p configs err
   = "Please pass correct BITSKY_SECURITY_KEY. "
       +:+ ToString (get_field configs "BITSKY_SECURITY_KEY")
       +:+ " is invalid") /\
  (n = 403 ->
   producerError_message p configs err
   = "The producer you want connect to was already connected by other producer instance. You need to disconnect it before you can connect or change another producer to connect") /\
  (500 <= n ->
   producerError_message p configs err = "Internal server error").
Proof.
  intros Hs. unfold producerError_message. rewrite Hs.
  repeat split; intros Hn.
  - by subst n.
  - by subst n.
  - by subst n.
  - unfold js_ge, strict_eq. cbn [ToNumber].
    destruct (n =? 404) eqn:E1; [lia|].
    destruct (n =? 401) eqn:E2; [lia|].
    destruct (500 <=? n) eqn:E3; [done|lia].
Qed.

(** C8, on the code. A complete configuration, an error that carries no
    truthy [status], and no error object recorded so far (the state of a new
    producer, and the state after every successful fetch): the fetch does not
    return [undefined], it throws a TypeError out of its [catch], and the
    producer, its [producerError] included, is left as it was. *)
Theorem getProducerConfiguration_no_status_throws a err w :
  truthy (get_field (getConfigs a) "BITSKY_BASE_URL") = true ->
  truthy (get_field (getConfigs a) "GLOBAL_ID") = true ->
  truthy (get_field err "status") = false ->
  instanceof_Object (__producerError (producer w)) = false ->
  exists e : value,
    snd (getProducerConfiguration a (Rejected err) w) = Throw e /\
    instanceof_Error e = true /\
    producer (fst (getProducerConfiguration a (Rejected err) w)) = producer w.
Proof.
  intros Hb Hg Hs Hp. unfold getProducerConfiguration.
  rewrite Hb, Hg. cbn [negb orb].
  destruct err; try (eexists; by repeat split); rewrite Hs, ?andb_false_r;
    destruct (__producerError (producer w)); try discriminate Hp;
    eexists; by repeat split.
Qed.

(** The fetch of the configuration writes [producerError] and nothing else,
    and sends at most the one request. *)
Lemma getProducerConfiguration_frame a (api : response value) w :
  let w' := fst (getProducerConfiguration a api w) in
  let configs := getConfigs a in
  store w' = store w /\
  set___producerError (__producerError (producer w)) (producer w')
  = producer w /\
  (calls w' = calls w \/
   calls w' = calls w ++
     [getProducerAPI (get_field configs "BITSKY_BASE_URL")
        (get_field configs "GLOBAL_ID") (__type (producer w))
        (get_field configs "BITSKY_SECURITY_KEY")]).
Proof.
  cbv zeta. unfold getProducerConfiguration.
  destruct w as [[] h cs]. cbn.
  destruct (negb (truthy (get_field (getConfigs a) "BITSKY_BASE_URL"))
            || negb (truthy (get_field (getConfigs a) "GLOBAL_ID")));
    [by auto|].
  destruct api as [data|err]; [by auto|].
  destruct err as [| |b|n|s|c props]; cbn; rewrite ?andb_false_r; auto;
    try (destruct __producerError0; cbn; by auto).
  destruct (truthy (lookup_field "status" props)); cbn; auto.
  destruct __producerError0; cbn; auto.
Qed.

Lemma set___producerError_inv (e : value) (p p' : Producer) :
  set___producerError e p' = p ->
  __watchIntelligencesIntervalHandler p' = __watchIntelligencesIntervalHandler p
  /\ __currentProducerConfig p' = __currentProducerConfig p
  /\ __runningJob p' = __runningJob p.
Proof. intros <-. by destruct p'. Qed.

Lemma strict_eq_eq (x y : value) : strict_eq x y = true -> x = y.
Proof.
  destruct x, y; try discriminate; cbn; intros E; try done.
  - by apply Bool.eqb_prop in E as ->.
  - by apply Z.eqb_eq in E as ->.
  - by apply String.eqb_eq in E as ->.
Qed.

(** A watcher tick whose fetch returns a configuration with the [globalId]
    and the [system.version] of the adopted snapshot is the fetch alone. *)
Lemma compareProducerConfiguration_unchanged a (api : response value) w
  config :
  snd (getProducerConfiguration a api w) = Return config ->
  strict_eq (get config ["globalId"])
    (get (__currentProducerConfig (producer w)) ["globalId"]) = true ->
  strict_eq (get config ["system"; "version"])
    (get (__currentProducerConfig (producer w)) ["system"; "version"]) = true ->
  let w' := compareProducerConfiguration a api w in
  let configs := getConfigs a in
  w' = fst (getProducerConfiguration a api w) /\
  __watchIntelligencesIntervalHandler (producer w')
  = __watchIntelligencesIntervalHandler (producer w) /\
  __currentProducerConfig (producer w') = __currentProducerConfig (producer w) /\
  __runningJob (producer w') = __runningJob (producer w) /\
  set___producerError (__producerError (producer w)) (producer w')
  = producer w /\
  store w' = store w /\
  (calls w' = calls w \/
   calls w' = calls w ++
     [getProducerAPI (get_field configs "BITSKY_BASE_URL")
        (get_field configs "GLOBAL_ID") (__type (producer w))
        (get_field configs "BITSKY_SECURITY_KEY")]).
Proof.
  intros Hr Hg Hv. cbv zeta.
  destruct (getProducerConfiguration_frame a api w) as (Hs & Hp & Hc).
  destruct (set___producerError_inv _ _ _ Hp) as (Hint & Hcur & Hjob).
  assert (E : compareProducerConfiguration a api w
              = fst (getProducerConfiguration a api w)).
  { unfold compareProducerConfiguration.
    destruct (getProducerConfiguration a api w) as [w1 r] eqn:Eg.
    cbn [fst snd] in *. subst r. by rewrite Hcur, Hg, Hv. }
  rewrite E. by repeat split.
Qed.

End Watcher.

(** ** The running job of a world *)


(** ** Collecting the outcomes of the worker *)

Section Collect.
Context `{Externals}.
Implicit Types (a : Answers) (w : World) (l : ref) (now : Z).

(** C6, as the code has it. An outcome rejected with an object that carries
    a truthy [globalId] is collected under that id: the dictionary entry is
    the rejected object itself, its [system.state] is "FAILED" from then on
    and the count goes up by one; [system.failuresReason] is not written,
    the object keeps the one it came with. *)
Theorem rejected_outcome_collected now w l :
  truthy (get_at (store w) l ["globalId"]) = true ->
  let w' := settled_step now w (RejectedWith (Obj l)) in
  collectedIntelligencesDict (job w')
    !! ToString (get_at (store w) l ["globalId"]) = Some l /\
  get_at (store w') l ["system"; "state"] = VStr "FAILED" /\
  get_at (store w') l ["system"; "failuresReason"]
  = get_at (store w) l ["system"; "failuresReason"] /\
  collectedIntelligencesNumber (job w')
  = collectedIntelligencesNumber (job w) + 1.
Proof.
  intros Hg. cbv zeta. unfold settled_step. cbn [status settled_value
    settled_reason payload_globalId]. rewrite Hg. cbn [andb].
  change (String.eqb (toLower (VStr "rejected")) "fulfilled") with false.
  change (String.eqb (toLower (VStr "rejected")) "rejected") with true.
  cbn [andb]. unfold collect. cbn [job producer store with_job with_store
    with_producer set___runningJob __runningJob set_collected
    collectedIntelligencesDict collectedIntelligencesNumber].
  repeat split.
  - apply lookup_insert_eq.
  - apply setIntelligenceState_state.
  - by rewrite setIntelligenceState_failuresReason.
Qed.

(** The same for a fulfilled outcome, collected as "FINISHED". *)
Lemma fulfilled_outcome_collected now w l :
  truthy (get_at (store w) l ["globalId"]) = true ->
  let w' := settled_step now w (Fulfilled (Obj l)) in
  collectedIntelligencesDict (job w')
    !! ToString (get_at (store w) l ["globalId"]) = Some l /\
  get_at (store w') l ["system"; "state"] = VStr "FINISHED" /\
  collectedIntelligencesNumber (job w')
  = collectedIntelligencesNumber (job w) + 1.
Proof.
  intros Hg. cbv zeta. unfold settled_step. cbn [status settled_value
    settled_reason payload_globalId]. rewrite Hg.
  change (String.eqb (toLower (VStr "fulfilled")) "fulfilled") with true.
  cbn [andb]. unfold collect. cbn [job producer store with_job with_store
    with_producer set___runningJob __runningJob set_collected
    collectedIntelligencesDict collectedIntelligencesNumber].
  repeat split.
  - apply lookup_insert_eq.
  - apply setIntelligenceState_state.
Qed.

(** An outcome without a [globalId] is skipped. *)
Lemma outcome_without_globalId_skipped now w (result : settled) :
  truthy (payload_globalId (store w) (settled_value result)) = false ->
  truthy (payload_globalId (store w) (settled_reason result)) = false ->
  settled_step now w result = w.
Proof.
  intros Hv Hr. unfold settled_step. by rewrite Hv, Hr, !andb_false_r.
Qed.

End Collect.

(** ** Reconciliation *)

Section Reconcile.
Context `{Externals}.
Implicit Types (h : heap) (l tmp : ref) (now : Z) (dict : gmap string nat).

Lemma get_at_setIntelligenceState_other now l l' state reason h
  (q : list string) :
  l <> l' ->
  get_at (setIntelligenceState now l state reason h) l' q = get_at h l' q.
Proof.
  intros Hne. unfold get_at, deref. by rewrite setIntelligenceState_other.
Qed.








End Reconcile.

(** ** The result dispatcher *)

Section Dispatch.
Context `{Externals}.
Implicit Types (a : Answers) (w : World) (h : heap) (l i : ref)
  (sois : list (string * Bucket)).

(** *** The buckets *)

Lemma sois_push_spec (key : string) i sois (k : string) (b : Bucket) :
  (k, b) ∈ sois_push key i sois ->
  (k, b) ∈ sois \/
  (k = key /\ exists b0, (k, b0) ∈ sois /\ soi b = soi b0
                         /\ intelligences b = intelligences b0 ++ [i]).
Proof.
  induction sois as [|[k0 b0] sois IH]; cbn [sois_push]; [by left|].
  destruct (String.eqb key k0) eqn:E.
  - apply String.eqb_eq in E. subst k0.
    intros [Heq | Hin]%elem_of_cons.
    + injection Heq as -> ->. right. split; [done|].
      exists b0. split; [apply elem_of_cons; by left|done].
    + left. apply elem_of_cons. by right.
  - intros [Heq | Hin]%elem_of_cons.
    + left. apply elem_of_cons. by left.
    + destruct (IH Hin) as [Hold | (-> & b1 & Hb1 & Hs & Hi)].
      * left. apply elem_of_cons. by right.
      * right. split; [done|]. exists b1.
        split; [apply elem_of_cons; by right|done].
Qed.

(** Every intelligence of a bucket has the bucket's routing key. *)
Lemma categorize_routing_key h (all : list ref) (k : string) (b : Bucket) l :
  (k, b) ∈ categorize h all -> l ∈ intelligences b ->
  routing_key h l = Some k.
Proof.
  unfold categorize.
  assert (G : forall sois,
             (forall k b l, (k, b) ∈ sois -> l ∈ intelligences b ->
                            routing_key h l = Some k) ->
             forall k b l,
               (k, b) ∈ fold_left (categorize_step h) all sois ->
               l ∈ intelligences b -> routing_key h l = Some k).
  { induction all as [|x all IH]; intros sois Hinv; [exact Hinv|].
    cbn [fold_left]. apply IH. clear IH.
    intros k1 b1 l1 Hin Hl. unfold categorize_step in Hin.
    destruct (routing_key h x) as [key|] eqn:Ek; [|by eapply Hinv].
    apply sois_push_spec in Hin.
    assert (Hinv' : forall k b l,
               (k, b) ∈ match sois_lookup key sois with
                        | Some _ => sois
                        | None => sois ++ [(key, {| soi := get_at h x ["soi"];
                                                    intelligences := [] |})]
                        end ->
               l ∈ intelligences b -> routing_key h l = Some k).
    { intros k2 b2 l2 Hin2 Hl2. destruct (sois_lookup key sois).
      - by eapply Hinv.
      - apply elem_of_app in Hin2 as [Hin2 | Hin2]; [by eapply Hinv|].
        apply list_elem_of_singleton in Hin2. injection Hin2 as -> ->.
        cbn in Hl2. by apply elem_of_nil in Hl2. }
    destruct Hin as [Hin | (-> & b0 & Hb0 & _ & Hi)]; [by eapply Hinv'|].
    rewrite Hi in Hl. apply elem_of_app in Hl as [Hl | Hl].
    - by eapply Hinv'.
    - apply list_elem_of_singleton in Hl. by subst l1. }
  intros Hin Hl. eapply G; [|exact Hin|exact Hl].
  intros k0 b0 l0 Hnil. by apply elem_of_nil in Hnil.
Qed.

(** *** The POSTs *)

(** Sending the requests of the buckets writes nothing; each request
    carries the list given to the dispatcher. *)
Lemma send_buckets (all : list ref) sois :
  forall w,
  fold_left (send_bucket all) sois w
  = {| producer := producer w;
       store := store w;
       calls :=
         calls w ++
         map (fun kb =>
                sendIntelligencesToSOI (get (soi (snd kb)) ["baseURL"])
                  (get (soi (snd kb)) ["callback"; "method"])
                  (get (soi (snd kb)) ["callback"; "path"])
                  (if truthy (get (soi (snd kb)) ["apiKey"])
                   then [(X_SECURITY_KEY_HEADER, get (soi (snd kb)) ["apiKey"])]
                   else [])
                  all (snapshot (store w) all)) sois |}.
Proof.
  induction sois as [|kb sois IH]; intros w; cbn [fold_left map].
  - rewrite app_nil_r. by destruct w.
  - rewrite IH. unfold send_bucket at 1 2 3. cbn [emit producer store calls].
    by rewrite <- app_assoc.
Qed.

(** *** The failure branch *)

Lemma fail_intelligence_other err h i l :
  i <> l -> fst (fail_intelligence err h i) !!! l = h !!! l.
Proof.
  intros Hne. unfold fail_intelligence.
  destruct (lookup_field "system" (h !!! i)); try done.
  destruct (if truthy err then toJSON err else Some err); cbn [fst];
    [|by rewrite lookup_total_insert_ne].
  destruct (lookup_field "system" _); cbn [fst];
    rewrite ?lookup_total_insert_ne by done; done.
Qed.

Lemma fail_intelligences_other err (items : list ref) :
  forall h l, l ∉ items -> fst (fail_intelligences err h items) !!! l = h !!! l.
Proof.
  induction items as [|i items IH]; intros h l Hl; [done|].
  apply not_elem_of_cons in Hl as [Hne Hl]. cbn [fail_intelligences].
  pose proof (fail_intelligence_other err h i l (not_eq_sym Hne)) as Hi.
  destruct (fail_intelligence err h i) as [h1 [|]]; cbn [fst] in *.
  - by rewrite IH.
  - done.
Qed.

(** Settling a bucket writes to the producer not at all, and to the store only
    in the intelligences of the bucket, and only when its POST failed. *)
Lemma settle_bucket_frame a w (kb : string * Bucket) :
  producer (settle_bucket a w kb) = producer w /\
  forall l,
    (sendIntelligencesToSOI_error a (fst kb) = None
     \/ l ∉ intelligences (snd kb)) ->
    store (settle_bucket a w kb) !!! l = store w !!! l.
Proof.
  unfold settle_bucket.
  destruct (sendIntelligencesToSOI_error a (fst kb)) as [err|]; [|done].
  pose proof (fail_intelligences_other err (intelligences (snd kb)) (store w))
    as Hf.
  destruct (fail_intelligences err (store w) (intelligences (snd kb)))
    as [h1 [|]]; cbn [fst] in *; (split; [done|]);
    intros l [Hl|Hl]; try done; by apply Hf.
Qed.

Lemma settle_buckets_frame a sois :
  forall w,
  producer (fold_left (settle_bucket a) sois w) = producer w /\
  forall l,
    (forall k b, (k, b) ∈ sois ->
       sendIntelligencesToSOI_error a k = None \/ l ∉ intelligences b) ->
    store (fold_left (settle_bucket a) sois w) !!! l = store w !!! l.
Proof.
  induction sois as [|[k b] sois IH]; intros w; cbn [fold_left]; [done|].
  destruct (IH (settle_bucket a w (k, b))) as [Ip Is].
  destruct (settle_bucket_frame a w (k, b)) as [Sp Ss].
  split; [by rewrite Ip|].
  intros l Hl. rewrite Is.
  - apply Ss. apply (Hl k b). apply elem_of_cons. by left.
  - intros k' b' Hin. apply Hl. apply elem_of_cons. by right.
Qed.

(** The dispatcher leaves the producer alone, and every intelligence whose
    route has no failing POST (or that has no route) as it was. *)
Lemma sendToSOIAndDIA_frame a (all : list ref) w :
  producer (sendToSOIAndDIA a all w) = producer w /\
  forall l,
    match routing_key (store w) l with
    | Some key => sendIntelligencesToSOI_error a key = None
    | None => True
    end ->
    store (sendToSOIAndDIA a all w) !!! l = store w !!! l.
Proof.
  unfold sendToSOIAndDIA. rewrite send_buckets.
  destruct (settle_buckets_frame a (categorize (store w) all)
              {| producer := producer w; store := store w;
                 calls := calls w ++
                   map (fun kb =>
                     sendIntelligencesToSOI (get (soi (snd kb)) ["baseURL"])
                       (get (soi (snd kb)) ["callback"; "method"])
                       (get (soi (snd kb)) ["callback"; "path"])
                       (if truthy (get (soi (snd kb)) ["apiKey"])
                        then [(X_SECURITY_KEY_HEADER,
                               get (soi (snd kb)) ["apiKey"])]
                        else [])
                       all (snapshot (store w) all))
                     (categorize (store w) all) |}) as [Fp Fs].
  split; [exact Fp|]. intros l Hl. rewrite Fs; [done|].
  intros k b Hin.
  destruct (decide (l ∈ intelligences b)) as [Hmem|Hmem]; [|by right].
  left. by rewrite (categorize_routing_key _ _ _ _ _ Hin Hmem) in Hl.
Qed.

End Dispatch.

(** ** The job timeout *)

Section Timeout.
Context `{Externals}.
Implicit Types (a : Answers) (w : World) (h : heap) (l : ref) (now : Z).




(** With every item collected under its [globalId] and holding a state,
    the reconciliation writes nothing. *)
Lemma reconcile_fold_noop now (dict : gmap string nat) h (total : list ref) :
  (forall tmp, tmp ∈ total ->
     exists l', dict !! ToString (get_at h tmp ["globalId"]) = Some l'
                /\ truthy (get_at h l' ["system"; "state"]) = true) ->
  forall temp : list ref,
  fold_left (reconcile_step now dict) total (h, temp)
  = (h, temp ++ map (fun tmp =>
                       default tmp
                         (dict !! ToString (get_at h tmp ["globalId"])))
                  total).
Proof.
  induction total as [|tmp total IH]; intros Hall temp; cbn [fold_left map].
  - by rewrite app_nil_r.
  - destruct (Hall tmp) as (l' & Hd & Hs); [apply elem_of_cons; by left|].
    unfold reconcile_step at 2. cbn [fst snd]. rewrite Hd, Hs. cbn [negb].
    rewrite IH.
    + by rewrite <- app_assoc.
    + intros x Hx. apply Hall. apply elem_of_cons. by right.
Qed.

Lemma store_resetRunningJob w : store (resetRunningJob w) = store w.
Proof. done. Qed.

Lemma store_startCollectIntelligencesJob a w :
  store (startCollectIntelligencesJob a w) = store w.
Proof.
  unfold startCollectIntelligencesJob.
  by destruct (truthy (jobId (job w)) || lockJob (job w)
               || endingCollectIntelligencesJob (job w)).
Qed.

(** Ending a job whose items are all collected and hold a state changes no
    intelligence whose route has no failing POST. *)
Lemma endCollectIntelligencesJob_store a w l :
  (forall tmp, tmp ∈ totalIntelligences (job w) ->
     exists l', collectedIntelligencesDict (job w)
                  !! ToString (get_at (store w) tmp ["globalId"]) = Some l'
                /\ truthy (get_at (store w) l' ["system"; "state"]) = true) ->
  match routing_key (store w) l with
  | Some key => sendIntelligencesToSOI_error a key = None
  | None => True
  end ->
  store (endCollectIntelligencesJob a w) !!! l = store w !!! l.
Proof.
  intros Hall Hroute. unfold endCollectIntelligencesJob.
  destruct (negb (truthy (jobId (job w))) || negb (lockJob (job w))
            || endingCollectIntelligencesJob (job w)); [done|].
  rewrite store_startCollectIntelligencesJob, store_resetRunningJob.
  cbn [job producer with_job with_store with_producer set___runningJob
       __runningJob set_endingCollectIntelligencesJob store
       collectedIntelligencesDict totalIntelligences set_totalIntelligences].
  unfold reconcile. rewrite (reconcile_fold_noop _ _ _ _ Hall). cbn [fst snd app].
  match goal with
  | |- store (sendToSOIAndDIA a ?all ?w0) !!! l = _ =>
      destruct (sendToSOIAndDIA_frame a all w0) as [_ Hs]
  end.
  by apply Hs.
Qed.


End Timeout.

(** ** The job loop and the admission of a job *)

Section Admission.
Context `{Externals}.
Implicit Types (a : Answers) (w : World).

Lemma job_resetRunningJob w : job (resetRunningJob w) = idle_job.
Proof. done. Qed.

(** What [initRunningJob()] leaves: a new id, the time of the call, the lock
    taken, everything else cleared. *)
Lemma initRunningJob_job a w : job (initRunningJob a None w) = new_job a.
Proof. done. Qed.

Lemma job_startCollectIntelligencesJob_idle a w :
  job w = idle_job -> job (startCollectIntelligencesJob a w) = new_job a.
Proof. intros Hw. unfold startCollectIntelligencesJob. by rewrite Hw. Qed.

Lemma job_startCollectIntelligencesJob a w :
  job (startCollectIntelligencesJob a w) = job w
  \/ job (startCollectIntelligencesJob a w) = new_job a.
Proof.
  unfold startCollectIntelligencesJob.
  destruct (truthy (jobId (job w)) || lockJob (job w)
            || endingCollectIntelligencesJob (job w)); [by left|by right].
Qed.

Lemma job_sendToSOIAndDIA a (all : list ref) w :
  job (sendToSOIAndDIA a all w) = job w.
Proof.
  unfold job. by destruct (sendToSOIAndDIA_frame a all w) as [-> _].
Qed.

(** Ending a job keeps the running job, or tears it down and starts the
    next. *)
Lemma job_endCollectIntelligencesJob a w :
  job (endCollectIntelligencesJob a w) = job w
  \/ job (endCollectIntelligencesJob a w) = new_job a.
Proof.
  unfold endCollectIntelligencesJob.
  destruct (negb (truthy (jobId (job w))) || negb (lockJob (job w))
            || endingCollectIntelligencesJob (job w)); [by left|right].
  apply job_startCollectIntelligencesJob_idle, job_resetRunningJob.
Qed.

Lemma slot_endCollectIntelligencesJob a w (j : RunningJob) :
  slot (job w) = slot j ->
  slot (job (endCollectIntelligencesJob a w)) = slot j
  \/ job (endCollectIntelligencesJob a w) = new_job a.
Proof.
  intros Hs. destruct (job_endCollectIntelligencesJob a w) as [-> | ->];
    [by left|by right].
Qed.

Lemma slot_timeout_steps (now : Z) (items : list ref) :
  forall w, slot (job (fold_left (timeout_step now) items w)) = slot (job w).
Proof.
  induction items as [|x items IH]; intros w; [done|].
  cbn [fold_left]. by rewrite IH.
Qed.

Lemma slot_settled_step (now : Z) w (result : settled) :
  slot (job (settled_step now w result)) = slot (job w).
Proof.
  unfold settled_step.
  destruct (String.eqb (toLower (status result)) "fulfilled"
            && truthy (payload_globalId (store w) (settled_value result))).
  - by destruct (settled_value result).
  - destruct (String.eqb (toLower (status result)) "rejected"
              && truthy (payload_globalId (store w) (settled_reason result)));
      [|done].
    by destruct (settled_reason result).
Qed.

Lemma slot_settled_steps (now : Z) (results : list settled) :
  forall w, slot (job (fold_left (settled_step now) results w)) = slot (job w).
Proof.
  induction results as [|x results IH]; intros w; [done|].
  cbn [fold_left]. by rewrite IH, slot_settled_step.
Qed.

Lemma slot_catch a w :
  slot (job (startCollectIntelligencesJob_catch a w)) = slot (job w)
  \/ job (startCollectIntelligencesJob_catch a w) = new_job a.
Proof.
  unfold startCollectIntelligencesJob_catch.
  by apply slot_endCollectIntelligencesJob.
Qed.

Lemma slot_endPollingGetIntelligences a w :
  slot (job (endPollingGetIntelligences a w)) = slot (job w)
  \/ job (endPollingGetIntelligences a w) = new_job a.
Proof.
  unfold endPollingGetIntelligences. by apply slot_endCollectIntelligencesJob.
Qed.

Lemma slot_startPollingGetIntelligences a w :
  slot (job (startPollingGetIntelligences a w)) = slot (job w)
  \/ job (startPollingGetIntelligences a w) = new_job a.
Proof.
  unfold startPollingGetIntelligences.
  destruct (slot_endPollingGetIntelligences a w) as [E|E];
    destruct (__currentProducerConfig
                (producer (endPollingGetIntelligences a w)));
    first [left; exact E | right; exact E].
Qed.

(** Every piece of the class that can run leaves the slot as it was, or
    cleared, or holding the job [initRunningJob()] has just built. *)
Lemma slot_run (hd : handler) w :
  slot (job (run hd w)) = slot (job w)
  \/ job (run hd w) = idle_job
  \/ exists a, answers_of hd = Some a /\ job (run hd w) = new_job a.
Proof.
  destruct hd as [a| |configs|t|a api|a|a r|a r|a r|a|a results|a|h];
    cbn [run answers_of].
  - right. left. unfold start, resetRuntime.
    by destruct (negb (truthy _)).
  - by right; left.
  - left. unfold setConfigs. by destruct (instanceof_Object configs).
  - left. rewrite type_never_throws. by destruct (truthy t).
  - unfold compareProducerConfiguration.
    destruct (getProducerConfiguration_frame a api w) as (_ & Hp & _).
    destruct (set___producerError_inv _ _ _ Hp) as (_ & _ & Hjob).
    destruct (getProducerConfiguration a api w) as [w1 [config|e]];
      cbn [fst] in *; [|left; unfold job; by rewrite Hjob].
    assert (Hs : slot (job w1) = slot (job w)) by (unfold job; by rewrite Hjob).
    match goal with
    | |- context [if ?c then _ else w1] => destruct c
    end; [|by left].
    match goal with
    | |- context [if ?c then endPollingGetIntelligences _ ?w2 else _] =>
        destruct c;
        [destruct (slot_endPollingGetIntelligences a w2) as [E|E]
        |destruct (slot_startPollingGetIntelligences a w2) as [E|E]]
    end; try (left; by rewrite E); right; right; by exists a.
  - unfold watchIntelligences_callback.
    destruct (negb (truthy (jobId (job w))) && negb (lockJob (job w)));
      [|by left].
    destruct (job_startCollectIntelligencesJob a w) as [E|E];
      [left; by rewrite E|right; right; by exists a].
  - unfold startCollectIntelligencesJob_fetched.
    destruct r as [[|x xs]|err]; [by left|by left|].
    destruct (slot_catch a w) as [E|E]; [by left|right; right; by exists a].
  - unfold startCollectIntelligencesJob_idle.
    destruct r as [[]|err]; [by right; left|].
    destruct (slot_catch a w) as [E|E]; [by left|right; right; by exists a].
  - unfold startCollectIntelligencesJob_armed.
    destruct r as [[]|err]; [by left|].
    destruct (slot_catch a w) as [E|E]; [by left|right; right; by exists a].
  - unfold jobTimeout_callback.
    destruct (slot_endCollectIntelligencesJob a (timeout_marks a w) (job w))
      as [E|E]; [|by left|right; right; by exists a].
    unfold timeout_marks. by rewrite slot_timeout_steps.
  - unfold allSettled_then. destruct (jobTimeout (job w)); [by left|].
    destruct (slot_endCollectIntelligencesJob a (settled_marks a results w)
                (job w)) as [E|E]; [|by left|right; right; by exists a].
    unfold settled_marks. by rewrite slot_settled_steps.
  - unfold allSettled_catch. destruct (jobTimeout (job w)); [by left|].
    destruct (slot_catch a w) as [E|E]; [by left|right; right; by exists a].
  - by left.
Qed.


End Admission.

(** ** Two ticks of the configuration watcher *)

Section WatcherTicks.
Context `{Externals}.
Implicit Types (a : Answers) (w : World).

Lemma config_startCollectIntelligencesJob a w :
  __currentProducerConfig (producer (startCollectIntelligencesJob a w))
  = __currentProducerConfig (producer w).
Proof.
  unfold startCollectIntelligencesJob.
  by destruct (truthy (jobId (job w)) || lockJob (job w)
               || endingCollectIntelligencesJob (job w)).
Qed.

Lemma config_endCollectIntelligencesJob a w :
  __currentProducerConfig (producer (endCollectIntelligencesJob a w))
  = __currentProducerConfig (producer w).
Proof.
  unfold endCollectIntelligencesJob.
  destruct (negb (truthy (jobId (job w))) || negb (lockJob (job w))
            || endingCollectIntelligencesJob (job w)); [done|].
  rewrite config_startCollectIntelligencesJob. unfold resetRunningJob.
  cbn [producer emit with_job with_producer set___runningJob
       __currentProducerConfig].
  match goal with
  | |- context [sendToSOIAndDIA a ?all ?w0] =>
      destruct (sendToSOIAndDIA_frame a all w0) as [-> _]
  end.
  done.
Qed.

Lemma config_endPollingGetIntelligences a w :
  __currentProducerConfig (producer (endPollingGetIntelligences a w))
  = __currentProducerConfig (producer w).
Proof.
  unfold endPollingGetIntelligences. by rewrite config_endCollectIntelligencesJob.
Qed.

Lemma config_startPollingGetIntelligences a w :
  __currentProducerConfig (producer (startPollingGetIntelligences a w))
  = __currentProducerConfig (producer w).
Proof.
  unfold startPollingGetIntelligences.
  pose proof (config_endPollingGetIntelligences a w) as E.
  destruct (__currentProducerConfig
              (producer (endPollingGetIntelligences a w))) eqn:Ec;
    cbn [producer with_producer emit __currentProducerConfig
         set___watchIntelligencesIntervalHandler]; congruence.
Qed.

(** After a tick that was answered a configuration, the adopted snapshot has
    the [globalId] and the [system.version] of that configuration. *)
Lemma compareProducerConfiguration_adopts a (api : response value) w
  (config : value) :
  snd (getProducerConfiguration a api w) = Return config ->
  let current :=
    __currentProducerConfig (producer (compareProducerConfiguration a api w)) in
  get current ["globalId"] = get config ["globalId"] /\
  get current ["system"; "version"] = get config ["system"; "version"].
Proof.
  intros Hr. cbv zeta.
  destruct (getProducerConfiguration_frame a api w) as (_ & Hp & _).
  destruct (set___producerError_inv _ _ _ Hp) as (_ & Hcur & _).
  unfold compareProducerConfiguration.
  destruct (getProducerConfiguration a api w) as [w1 r].
  cbn [fst snd] in *. subst r.
  destruct (strict_eq (get config ["globalId"])
              (get (__currentProducerConfig (producer w1)) ["globalId"]))
    eqn:Eg; cbn [negb orb].
  - destruct (strict_eq (get config ["system"; "version"])
                (get (__currentProducerConfig (producer w1))
                   ["system"; "version"])) eqn:Ev; cbn [negb].
    + by rewrite (strict_eq_eq _ _ Eg), (strict_eq_eq _ _ Ev).
    + case_cond;
        by rewrite ?config_endPollingGetIntelligences,
             ?config_startPollingGetIntelligences.
  - case_cond;
      by rewrite ?config_endPollingGetIntelligences,
           ?config_startPollingGetIntelligences.
Qed.

(** C7. Two watcher ticks in a row are answered configurations with the
    same [globalId] and [system.version]. Then the configuration the second
    tick sees has the [globalId] and [system.version] of the adopted
    snapshot, and the second tick does nothing beyond its fetch: the job
    loop's timer is neither cleared nor set (the handle is kept and no timer
    call is made), the adopted snapshot is kept, the running job and the
    intelligences are untouched. Only [producerError], which every fetch
    rewrites, may differ. *)
Theorem compareProducerConfiguration_same_version a1 a2
  (api1 api2 : response value) w (config1 config2 : value) :
  snd (getProducerConfiguration a1 api1 w) = Return config1 ->
  let w1 := compareProducerConfiguration a1 api1 w in
  snd (getProducerConfiguration a2 api2 w1) = Return config2 ->
  strict_eq (get config2 ["globalId"]) (get config1 ["globalId"]) = true ->
  strict_eq (get config2 ["system"; "version"])
    (get config1 ["system"; "version"]) = true ->
  let w2 := compareProducerConfiguration a2 api2 w1 in
  let configs := getConfigs a2 in
  (strict_eq (get config2 ["globalId"])
     (get (__currentProducerConfig (producer w1)) ["globalId"]) = true /\
   strict_eq (get config2 ["system"; "version"])
     (get (__currentProducerConfig (producer w1)) ["system"; "version"])
   = true) /\
  __watchIntelligencesIntervalHandler (producer w2)
  = __watchIntelligencesIntervalHandler (producer w1) /\
  __currentProducerConfig (producer w2) = __currentProducerConfig (producer w1)
  /\
  __runningJob (producer w2) = __runningJob (producer w1) /\
  set___producerError (__producerError (producer w1)) (producer w2)
  = producer w1 /\
  store w2 = store w1 /\
  (calls w2 = calls w1 \/
   calls w2 = calls w1 ++
     [getProducerAPI (get_field configs "BITSKY_BASE_URL")
        (get_field configs "GLOBAL_ID") (__type (producer w1))
        (get_field configs "BITSKY_SECURITY_KEY")]).
Proof.
  intros H1 w1 H2 Hg Hv. cbv zeta.
  destruct (compareProducerConfiguration_adopts a1 api1 w config1 H1)
    as [Eg Ev].
  fold w1 in Eg, Ev.
  assert (Hg1 : strict_eq (get config2 ["globalId"])
                  (get (__currentProducerConfig (producer w1)) ["globalId"])
                = true) by by rewrite Eg.
  assert (Hv1 : strict_eq (get config2 ["system"; "version"])
                  (get (__currentProducerConfig (producer w1))
                     ["system"; "version"]) = true) by by rewrite Ev.
  destruct (compareProducerConfiguration_unchanged a2 api2 w1 config2 H2 Hg1 Hv1)
    as (_ & Hloop & Hconfig & Hjob & Hp & Hs & Hc).
  by split_and!.
Qed.

End WatcherTicks.

(** ** What the dispatcher sends *)

Section Fanout.
Context `{Externals}.
Implicit Types (a : Answers) (w : World).

Lemma settle_bucket_calls a w (kb : string * Bucket) :
  exists rest, calls (settle_bucket a w kb) = calls w ++ rest.
Proof.
  unfold settle_bucket.
  destruct (sendIntelligencesToSOI_error a (fst kb)) as [err|].
  - destruct (fail_intelligences err (store w) (intelligences (snd kb)))
      as [h1 [|]]; cbn [emit calls with_store].
    + by eexists.
    + exists []. by rewrite app_nil_r.
  - cbn [emit calls]. by eexists.
Qed.

Lemma settle_buckets_calls a (sois : list (string * Bucket)) :
  forall w, exists rest,
    calls (fold_left (settle_bucket a) sois w) = calls w ++ rest.
Proof.
  induction sois as [|kb sois IH]; intros w; cbn [fold_left].
  - exists []. by rewrite app_nil_r.
  - destruct (IH (settle_bucket a w kb)) as [r1 E1].
    destruct (settle_bucket_calls a w kb) as [r2 E2].
    exists (r2 ++ r1). by rewrite E1, E2, <- app_assoc.
Qed.

(** C4, on the code. The dispatcher sends one POST per bucket, in the order
    of the buckets, and the intelligences of every one of them are the whole
    list the dispatcher was given, not those of the bucket. *)
Theorem sendToSOIAndDIA_posts_whole_list a (all : list ref) w :
  exists rest : list call,
    calls (sendToSOIAndDIA a all w)
    = calls w
      ++ map (fun kb : string * Bucket =>
                sendIntelligencesToSOI (get (soi (snd kb)) ["baseURL"])
                  (get (soi (snd kb)) ["callback"; "method"])
                  (get (soi (snd kb)) ["callback"; "path"])
                  (if truthy (get (soi (snd kb)) ["apiKey"])
                   then [(X_SECURITY_KEY_HEADER, get (soi (snd kb)) ["apiKey"])]
                   else [])
                  all (snapshot (store w) all))
           (categorize (store w) all)
      ++ rest.
Proof.
  unfold sendToSOIAndDIA. rewrite send_buckets.
  match goal with
  | |- context [fold_left (settle_bucket a) ?sois ?w0] =>
      destruct (settle_buckets_calls a sois w0) as [rest E]
  end.
  exists rest. rewrite E. cbn [calls]. by rewrite <- app_assoc.
Qed.

End Fanout.

(** ** The grouping of the dispatcher *)

Section Grouping.
Context `{Externals}.
Implicit Types (h : heap) (l i : ref) (sois : list (string * Bucket)).

Lemma sois_lookup_None (key : string) sois :
  sois_lookup key sois = None <-> key ∉ map fst sois.
Proof.
  induction sois as [|[k b] sois IH]; cbn [sois_lookup map fst].
  - split; [intros _; apply not_elem_of_nil|done].
  - destruct (String.eqb key k) eqn:E.
    + apply String.eqb_eq in E. subst k. split; [done|].
      intros Hn. exfalso. apply Hn. apply elem_of_cons. by left.
    + apply String.eqb_neq in E. rewrite IH, not_elem_of_cons. tauto.
Qed.

Lemma sois_push_keys (key : string) i sois :
  map fst (sois_push key i sois) = map fst sois.
Proof.
  induction sois as [|[k b] sois IH]; cbn [sois_push map fst]; [done|].
  destruct (String.eqb key k); cbn [map fst]; [done|]. by rewrite IH.
Qed.

(** Pushing to a key that has no bucket yet changes nothing. *)
Lemma sois_push_absent (key : string) i sois :
  key ∉ map fst sois -> sois_push key i sois = sois.
Proof.
  induction sois as [|[k b] sois IH]; cbn [sois_push map fst]; [done|].
  intros [Hne Hin]%not_elem_of_cons.
  apply String.eqb_neq in Hne. rewrite Hne. by rewrite IH.
Qed.

(** The first push to a new key. *)
Lemma sois_push_new (key : string) i sois (b : Bucket) :
  key ∉ map fst sois ->
  sois_push key i (sois ++ [(key, b)])
  = sois ++ [(key, {| soi := soi b; intelligences := intelligences b ++ [i] |})].
Proof.
  induction sois as [|[k b0] sois IH]; cbn [sois_push map fst app].
  - intros _. by rewrite String.eqb_refl.
  - intros [Hne Hin]%not_elem_of_cons.
    apply String.eqb_neq in Hne. rewrite Hne. by rewrite IH.
Qed.

Lemma filter_route_snoc h (seen : list ref) i (k : string) :
  filter (fun l => routing_key h l = Some k) (seen ++ [i])
  = filter (fun l => routing_key h l = Some k) seen
    ++ (if decide (routing_key h i = Some k) then [i] else []).
Proof.
  by rewrite filter_app.
Qed.

(** A bucket of another key is not concerned by one more intelligence. *)
Lemma bucket_of_other h (seen : list ref) i (kb : string * Bucket) :
  routing_key h i <> Some (fst kb) ->
  bucket_of h seen kb -> bucket_of h (seen ++ [i]) kb.
Proof.
  intros Hne [Hf Hhd]. split; [|exact Hhd].
  rewrite filter_route_snoc, Hf. destruct (decide _); [done|].
  by rewrite app_nil_r.
Qed.

Lemma sois_push_buckets h (seen : list ref) i (key : string) sois :
  routing_key h i = Some key ->
  NoDup (map fst sois) ->
  Forall (bucket_of h seen) sois ->
  Forall (bucket_of h (seen ++ [i])) (sois_push key i sois).
Proof.
  intros Hk. induction sois as [|[k b] sois IH]; cbn [sois_push map fst];
    [constructor|].
  intros [Hnin Hnd]%NoDup_cons Hall.
  apply Forall_cons in Hall as [Hb Hall].
  destruct (String.eqb key k) eqn:E.
  - apply String.eqb_eq in E. subst k. constructor.
    + destruct Hb as [Hf (l0 & tl & Hl0 & Hs)]. cbn [fst snd] in *.
      split; cbn [fst snd intelligences soi].
      * rewrite filter_route_snoc, Hf. by rewrite decide_True.
      * exists l0, (tl ++ [i]). by rewrite Hl0.
    + apply Forall_forall. intros kb Hin.
      apply bucket_of_other; [|by eapply Forall_forall in Hall].
      rewrite Hk. intros [= ->]. apply Hnin.
      apply list_elem_of_fmap. by exists kb.
  - apply String.eqb_neq in E. constructor; [|by apply IH].
    apply bucket_of_other; [|done]. cbn [fst]. rewrite Hk. by intros [= ->].
Qed.

Lemma categorize_step_grouped h sois (seen : list ref) i :
  grouped h sois seen -> grouped h (categorize_step h sois i) (seen ++ [i]).
Proof.
  intros (Hnd & Hall & Hcov). unfold categorize_step.
  destruct (routing_key h i) as [key|] eqn:Hk.
  - destruct (sois_lookup key sois) as [b0|] eqn:Hlk.
    + split_and!.
      * by rewrite sois_push_keys.
      * by apply sois_push_buckets.
      * intros l k [Hl|Hl]%elem_of_app Hr; rewrite sois_push_keys.
        -- by eapply Hcov.
        -- apply list_elem_of_singleton in Hl. subst l.
           rewrite Hk in Hr. injection Hr as <-.
           destruct (decide (key ∈ map fst sois)) as [Hin|Hin]; [done|].
           apply sois_lookup_None in Hin. congruence.
    + apply sois_lookup_None in Hlk. rewrite sois_push_new by done.
      cbn [soi intelligences app].
      assert (Hkeys : map fst (sois ++ [(key, {| soi := get_at h i ["soi"];
                                                  intelligences := [i] |})])
                      = map fst sois ++ [key]) by by rewrite map_app.
      split_and!.
      * rewrite Hkeys. apply NoDup_app. split_and!; [done| |apply NoDup_singleton].
        intros k Hin ->%list_elem_of_singleton. by apply Hlk.
      * apply Forall_app. split.
        -- apply Forall_forall. intros kb Hin.
           apply bucket_of_other; [|by eapply Forall_forall in Hall].
           rewrite Hk. intros [= ->]. apply Hlk.
           apply list_elem_of_fmap. by exists kb.
        -- constructor; [|constructor]. split; cbn [fst snd intelligences soi].
           ++ rewrite filter_route_snoc, decide_True by done.
              assert (filter (fun l => routing_key h l = Some key) seen = [])
                as ->; [|done].
              destruct (filter _ seen) as [|x xs] eqn:Ef; [done|]. exfalso.
              assert (Hx : x ∈ filter (fun l => routing_key h l = Some key) seen)
                by (rewrite Ef; apply elem_of_cons; by left).
              apply list_elem_of_filter in Hx as [Hx1 Hx2].
              apply Hlk. by eapply Hcov.
           ++ by exists i, [].
      * intros l k [Hl|Hl]%elem_of_app Hr; rewrite Hkeys; apply elem_of_app.
        -- left. by eapply Hcov.
        -- right. apply list_elem_of_singleton in Hl. subst l.
           rewrite Hk in Hr. injection Hr as <-.
           by apply list_elem_of_singleton.
  - split_and!; [done| |].
    + apply Forall_forall. intros kb Hin.
      apply bucket_of_other; [|by eapply Forall_forall in Hall].
      by rewrite Hk.
    + intros l k [Hl|Hl]%elem_of_app Hr; [by eapply Hcov|].
      apply list_elem_of_singleton in Hl. subst l. congruence.
Qed.

Lemma categorize_fold_grouped h (rest : list ref) :
  forall sois (seen : list ref),
  grouped h sois seen ->
  grouped h (fold_left (categorize_step h) rest sois) (seen ++ rest).
Proof.
  induction rest as [|i rest IH]; intros sois seen Hg; cbn [fold_left].
  - by rewrite app_nil_r.
  - replace (seen ++ i :: rest) with ((seen ++ [i]) ++ rest)
      by by rewrite <- app_assoc.
    apply IH. by apply categorize_step_grouped.
Qed.

Lemma categorize_grouped h (all : list ref) :
  grouped h (categorize h all) all.
Proof.
  apply (categorize_fold_grouped h all [] []).
  split_and!; [constructor|constructor|].
  intros l k Hl. by apply elem_of_nil in Hl.
Qed.

(** X1. The first loop of the dispatcher groups the list it is given by
    routing key: no key has two buckets; a bucket holds exactly the
    intelligences of the list that have its key, in the order of the list
    (so it is never empty), and carries the [soi] object of the first of
    them; and every intelligence of the list that has a routing key is in
    the bucket of that key. *)
Theorem categorize_groups_by_routing_key h (all : list ref) :
  let sois := categorize h all in
  NoDup (map fst sois) /\
  (forall (k : string) (b : Bucket), (k, b) ∈ sois ->
     intelligences b = filter (fun l => routing_key h l = Some k) all /\
     exists l0 tl, intelligences b = l0 :: tl /\ soi b = get_at h l0 ["soi"]) /\
  (forall l (k : string), l ∈ all -> routing_key h l = Some k ->
     exists b, (k, b) ∈ sois /\ l ∈ intelligences b).
Proof.
  destruct (categorize_grouped h all) as (Hnd & Hall & Hcov).
  split_and!; [done| |].
  - intros k b Hin. eapply Forall_forall in Hall; [|exact Hin]. exact Hall.
  - intros l k Hl Hr. pose proof (Hcov l k Hl Hr) as Hk.
    apply list_elem_of_fmap in Hk as ([k' b] & -> & Hin). exists b.
    split; [done|]. eapply Forall_forall in Hall; [|exact Hin].
    destruct Hall as [Hf _]. cbn [fst snd] in Hf. rewrite Hf.
    by apply list_elem_of_filter.
Qed.

End Grouping.

(** ** What the dispatcher reports *)

Section Reports.
Context `{Externals}.
Implicit Types (a : Answers) (w : World) (h : heap) (l i : ref)
  (sois : list (string * Bucket)) (kb : string * Bucket).

Lemma send_buckets_posts (all : list ref) sois w :
  fold_left (send_bucket all) sois w
  = {| producer := producer w;
       store := store w;
       calls := calls w ++ map (post_of all (store w)) sois |}.
Proof. by rewrite send_buckets. Qed.

(** A bucket whose POST succeeded: the PUT and nothing else. *)
Lemma settle_bucket_ok a w kb :
  sendIntelligencesToSOI_error a (fst kb) = None ->
  settle_bucket a w kb = emit (put_of a (store w) kb) w.
Proof. intros E. unfold settle_bucket. by rewrite E. Qed.

Lemma settle_buckets_ok a sois :
  forall w,
  (forall kb, kb ∈ sois -> sendIntelligencesToSOI_error a (fst kb) = None) ->
  fold_left (settle_bucket a) sois w
  = {| producer := producer w;
       store := store w;
       calls := calls w ++ map (put_of a (store w)) sois |}.
Proof.
  induction sois as [|kb sois IH]; intros w Hok; cbn [fold_left map].
  - rewrite app_nil_r. by destruct w.
  - rewrite settle_bucket_ok by (apply Hok, elem_of_cons; by left).
    rewrite IH by (intros kb' Hin; apply Hok, elem_of_cons; by right).
    cbn [emit producer store calls]. by rewrite <- app_assoc.
Qed.

(** X2. When no POST to a target system fails, the dispatcher writes
    nothing (neither producer nor store) and sends exactly: one POST per
    bucket, in the order of the buckets, and then one PUT per bucket with the
    intelligences of that bucket (the PUTs in the order in which the
    embedding settles the promises, which is that of the buckets). *)
Theorem sendToSOIAndDIA_when_posts_succeed a (all : list ref) w :
  (forall kb, kb ∈ categorize (store w) all ->
     sendIntelligencesToSOI_error a (fst kb) = None) ->
  sendToSOIAndDIA a all w
  = {| producer := producer w;
       store := store w;
       calls := calls w
                ++ map (post_of all (store w)) (categorize (store w) all)
                ++ map (put_of a (store w)) (categorize (store w) all) |}.
Proof.
  intros Hok. unfold sendToSOIAndDIA.
  rewrite send_buckets_posts, settle_buckets_ok by done.
  cbn [producer store calls]. by rewrite <- app_assoc.
Qed.

(** What a bucket adds to the log when it settles: its PUT, sent with the
    store as the failure branch left it, or nothing when that branch threw. *)
Lemma settle_bucket_calls_cases a w kb :
  (calls (settle_bucket a w kb)
   = calls w ++ [put_of a (store (settle_bucket a w kb)) kb]
   /\ (sendIntelligencesToSOI_error a (fst kb) = None
       \/ exists err,
            sendIntelligencesToSOI_error a (fst kb) = Some err /\
            snd (fail_intelligences err (store w) (intelligences (snd kb)))
            = true))
  \/ (calls (settle_bucket a w kb) = calls w
      /\ exists err,
           sendIntelligencesToSOI_error a (fst kb) = Some err /\
           snd (fail_intelligences err (store w) (intelligences (snd kb)))
           = false).
Proof.
  unfold settle_bucket.
  destruct (sendIntelligencesToSOI_error a (fst kb)) as [err|] eqn:E.
  - destruct (fail_intelligences err (store w) (intelligences (snd kb)))
      as [h1 [|]] eqn:F.
    + left. split; [done|]. right. exists err. by rewrite F.
    + right. split; [done|]. exists err. by rewrite F.
  - left. split; [done|]. by left.
Qed.

(** The PUTs of the buckets: each one is the PUT of a bucket whose failure
    branch, if it ran, ran to its end. *)
Lemma settle_buckets_puts a sois :
  forall w, exists puts : list call,
    calls (fold_left (settle_bucket a) sois w) = calls w ++ puts /\
    Forall
      (fun c => exists kb h,
         kb ∈ sois /\ c = put_of a h kb /\
         forall err, sendIntelligencesToSOI_error a (fst kb) = Some err ->
           exists h0, snd (fail_intelligences err h0 (intelligences (snd kb)))
                      = true)
      puts /\
    map reported puts `sublist_of` map (fun kb => intelligences (snd kb)) sois.
Proof.
  induction sois as [|kb sois IH]; intros w; cbn [fold_left].
  - exists []. rewrite app_nil_r. split_and!; [done|done|constructor].
  - destruct (IH (settle_bucket a w kb)) as (puts & Hc & Hall & Hsub).
    assert (Hall' : Forall
      (fun c => exists kb0 h,
         kb0 ∈ kb :: sois /\ c = put_of a h kb0 /\
         forall err, sendIntelligencesToSOI_error a (fst kb0) = Some err ->
           exists h0, snd (fail_intelligences err h0 (intelligences (snd kb0)))
                      = true) puts).
    { eapply Forall_impl; [exact Hall|].
      intros c (kb0 & h & Hin & -> & Hok). exists kb0, h.
      split_and!; [apply elem_of_cons; by right|done|done]. }
    destruct (settle_bucket_calls_cases a w kb)
      as [[Hput Hok] | [Hnone _]].
    + exists (put_of a (store (settle_bucket a w kb)) kb :: puts).
      split_and!.
      * rewrite Hc, Hput. by rewrite <- app_assoc.
      * constructor; [|done].
        exists kb, (store (settle_bucket a w kb)).
        split_and!; [apply elem_of_cons; by left|done|].
        intros err E. destruct Hok as [E'|(err' & E' & Hs)]; [congruence|].
        exists (store w). congruence.
      * cbn [map reported put_of]. by constructor.
    + exists puts. split_and!; [by rewrite Hc, Hnone|done|].
      cbn [map]. by constructor.
Qed.

(** X3. Whatever the POSTs do, every PUT the dispatcher sends is the PUT of
    one bucket, sent after all the POSTs, and no bucket is reported twice
    (the lists reported are, with multiplicity, among the lists of the
    buckets); so every intelligence reported to the control plane is one of
    the list and has a routing key, and an intelligence that lacks
    [soi.baseURL], [soi.callback.method] or [soi.callback.path] is in no
    PUT. *)
Theorem sendToSOIAndDIA_reports_only_routed a (all : list ref) w :
  exists puts : list call,
    calls (sendToSOIAndDIA a all w)
    = calls w ++ map (post_of all (store w)) (categorize (store w) all)
      ++ puts /\
    Forall (fun c => exists kb h,
              kb ∈ categorize (store w) all /\ c = put_of a h kb) puts /\
    (forall c l, c ∈ puts -> l ∈ reported c ->
       l ∈ all /\ exists k : string, routing_key (store w) l = Some k) /\
    (forall l, routing_key (store w) l = None ->
       Forall (fun c => l ∉ reported c) puts) /\
    map reported puts
    ⊆+ map (fun kb => intelligences (snd kb)) (categorize (store w) all).
Proof.
  unfold sendToSOIAndDIA. rewrite send_buckets_posts.
  destruct (settle_buckets_puts a (categorize (store w) all)
              {| producer := producer w; store := store w;
                 calls := calls w ++ map (post_of all (store w))
                                       (categorize (store w) all) |})
    as (puts & Hc & Hall & Hsub).
  cbn [calls] in Hc. exists puts.
  assert (Hrouted : forall c l, c ∈ puts -> l ∈ reported c ->
            l ∈ all /\ exists k : string, routing_key (store w) l = Some k).
  { intros c l Hin Hl. eapply Forall_forall in Hall; [|exact Hin].
    destruct Hall as ([k b] & h & Hkb & -> & _). cbn [reported put_of snd] in Hl.
    destruct (categorize_grouped (store w) all) as (_ & Hb & _).
    eapply Forall_forall in Hb; [|exact Hkb]. destruct Hb as [Hf _].
    cbn [fst snd] in Hf. rewrite Hf in Hl.
    apply list_elem_of_filter in Hl as [Hr Hl]. split; [done|]. by exists k. }
  split_and!.
  - by rewrite Hc, <- app_assoc.
  - eapply Forall_impl; [exact Hall|].
    intros c (kb & h & Hin & -> & _). by exists kb, h.
  - exact Hrouted.
  - intros l Hnone. apply Forall_forall. intros c Hin Hl.
    destruct (Hrouted c l Hin Hl) as [_ [k Hk]]. congruence.
  - by apply sublist_submseteq.
Qed.

(** *** The failure branch, when it runs to its end *)


Lemma get_at_same h h' l (q : list string) :
  h' !!! l = h !!! l -> get_at h' l q = get_at h l q.
Proof. intros E. unfold get_at, deref. by rewrite E. Qed.


(** The routing key reads only the [soi] of an intelligence. *)
Lemma routing_key_same h h' l :
  lookup_field "soi" (h' !!! l) = lookup_field "soi" (h !!! l) ->
  routing_key h' l = routing_key h l.
Proof.
  intros E. unfold routing_key, get_at, deref. cbn [get get_field].
  by rewrite E.
Qed.

(** The buckets before and after the one of key [k] hold no intelligence
    routed to [k]. *)
Lemma grouped_split h sois (all : list ref) (k : string) (b : Bucket) :
  grouped h sois all -> (k, b) ∈ sois ->
  exists s1 s2,
    sois = s1 ++ (k, b) :: s2 /\
    forall l, routing_key h l = Some k ->
      forall kb, kb ∈ s1 ++ s2 -> l ∉ intelligences (snd kb).
Proof.
  intros (Hnd & Hall & _) Hin.
  apply list_elem_of_split in Hin as (s1 & s2 & ->). exists s1, s2.
  split; [done|]. intros l Hl kb Hkb Hmem.
  assert (Hkb' : kb ∈ s1 ++ (k, b) :: s2).
  { apply elem_of_app in Hkb as [?|?]; apply elem_of_app; [by left|].
    right. apply elem_of_cons. by right. }
  eapply Forall_forall in Hall; [|exact Hkb'].
  destruct Hall as [Hf _]. rewrite Hf in Hmem.
  apply list_elem_of_filter in Hmem as [Hr _].
  rewrite Hl in Hr. injection Hr as Hk.
  rewrite map_app in Hnd. cbn [map fst] in Hnd.
  apply NoDup_app in Hnd as (_ & Hd1 & Hd2).
  apply NoDup_cons in Hd2 as [Hd2 _].
  apply elem_of_app in Hkb as [Hkb|Hkb].
  - apply (Hd1 k); [|apply elem_of_cons; by left].
    apply list_elem_of_fmap. exists kb. by rewrite Hk.
  - apply Hd2. apply list_elem_of_fmap. exists kb. by rewrite Hk.
Qed.

(** The dispatcher around the bucket of key [k]: the buckets before it and
    after it leave the intelligences routed to [k] alone. *)
Lemma sendToSOIAndDIA_around a (all : list ref) w (k : string) (b : Bucket) :
  (k, b) ∈ categorize (store w) all ->
  exists w1 : World,
    let w2 := settle_bucket a w1 (k, b) in
    (forall l, routing_key (store w) l = Some k ->
       store w1 !!! l = store w !!! l) /\
    (forall l, routing_key (store w) l = Some k ->
       store (sendToSOIAndDIA a all w) !!! l = store w2 !!! l) /\
    exists rest, calls (sendToSOIAndDIA a all w) = calls w2 ++ rest.
Proof.
  intros Hin.
  destruct (grouped_split _ _ _ _ _ (categorize_grouped (store w) all) Hin)
    as (s1 & s2 & Hs & Hfr).
  unfold sendToSOIAndDIA. rewrite send_buckets_posts, Hs, fold_left_app.
  cbn [fold_left].
  set (w0 := {| producer := producer w; store := store w;
                calls := calls w ++ map (post_of all (store w))
                                      (s1 ++ (k, b) :: s2) |}).
  exists (fold_left (settle_bucket a) s1 w0). cbn zeta. split_and!.
  - intros l Hl.
    destruct (settle_buckets_frame a s1 w0) as [_ Hst]. rewrite Hst; [done|].
    intros k' b' Hkb. right.
    apply (Hfr l Hl (k', b')). apply elem_of_app. by left.
  - intros l Hl.
    destruct (settle_buckets_frame a s2
                (settle_bucket a (fold_left (settle_bucket a) s1 w0) (k, b)))
      as [_ Hst].
    rewrite Hst; [done|]. intros k' b' Hkb. right.
    apply (Hfr l Hl (k', b')). apply elem_of_app. by right.
  - apply settle_buckets_calls.
Qed.


(** *** The failure branch, when [toJSON] throws *)

Lemma fail_intelligences_throw err h l0 (tl : list ref) :
  truthy err = true -> toJSON err = None ->
  fail_intelligences err h (l0 :: tl) = (fst (fail_intelligence err h l0), false).
Proof.
  intros Ht Hj. cbn [fail_intelligences]. unfold fail_intelligence.
  rewrite Ht, Hj. by destruct (lookup_field "system" (h !!! l0)).
Qed.

Lemma fail_intelligence_throw_state err h l0 :
  truthy err = true -> toJSON err = None ->
  instanceof_Object (get_at h l0 ["system"]) = true ->
  get_at (fst (fail_intelligence err h l0)) l0 ["system"; "state"]
  = VStr "FAILED" /\
  forall f : string, f <> "state" ->
    get_at (fst (fail_intelligence err h l0)) l0 ["system"; f]
    = get_at h l0 ["system"; f].
Proof.
  unfold get_at, deref. cbn [get get_field].
  intros Ht Hj Hsys. unfold fail_intelligence. rewrite Ht, Hj.
  destruct (lookup_field "system" (h !!! l0)) as [| | | | |c sys] eqn:Es;
    try discriminate.
  cbn [fst]. rewrite lookup_total_insert_eq, lookup_assign_eq.
  cbn [get_field]. split; [by rewrite lookup_assign_eq|].
  intros f Hf. by rewrite lookup_assign_ne.
Qed.

(** X5. When the POST to a target system fails with an error whose
    [toJSON()] throws (an error without that method), the bucket of that
    system is not reported to the control plane: no PUT of the dispatcher
    holds an intelligence routed there. Of the bucket only its first
    intelligence is written to: its [system.state] is "FAILED" (if it has a
    [system] object) and nothing else of [system] changes; the other
    intelligences routed there are as they came. *)
Theorem failed_post_without_toJSON_not_reported a (all : list ref) w
  (k : string) (err : value) :
  sendIntelligencesToSOI_error a k = Some err ->
  truthy err = true -> toJSON err = None ->
  let w' := sendToSOIAndDIA a all w in
  (exists puts : list call,
     calls w'
     = calls w ++ map (post_of all (store w)) (categorize (store w) all)
       ++ puts /\
     forall c l, c ∈ puts -> l ∈ reported c ->
       routing_key (store w) l <> Some k) /\
  (forall l0 (tl : list ref),
     filter (fun i => routing_key (store w) i = Some k) all = l0 :: tl ->
     (forall l, routing_key (store w) l = Some k -> l <> l0 ->
        store w' !!! l = store w !!! l) /\
     (instanceof_Object (get_at (store w) l0 ["system"]) = true ->
      get_at (store w') l0 ["system"; "state"] = VStr "FAILED" /\
      forall f : string, f <> "state" ->
        get_at (store w') l0 ["system"; f] = get_at (store w) l0 ["system"; f])).
Proof.
  intros Herr Ht Hj w'. subst w'.
  destruct (categorize_grouped (store w) all) as (_ & Hb & Hcov).
  split.
  - unfold sendToSOIAndDIA. rewrite send_buckets_posts.
    destruct (settle_buckets_puts a (categorize (store w) all)
                {| producer := producer w; store := store w;
                   calls := calls w ++ map (post_of all (store w))
                                         (categorize (store w) all) |})
      as (puts & Hc & Hall & _).
    cbn [calls] in Hc. exists puts. split; [by rewrite Hc, <- app_assoc|].
    intros c l Hin Hl Hr. eapply Forall_forall in Hall; [|exact Hin].
    destruct Hall as ([k' b] & h & Hkb & -> & Hok).
    cbn [reported put_of fst snd] in *.
    eapply Forall_forall in Hb; [|exact Hkb].
    destruct Hb as [Hf (l0 & tl & Hl0 & _)]. cbn [fst snd] in *.
    rewrite Hf in Hl. apply list_elem_of_filter in Hl as [Hr' _].
    rewrite Hr in Hr'. injection Hr' as <-.
    destruct (Hok err Herr) as [h0 Hh0].
    rewrite Hl0, fail_intelligences_throw in Hh0 by done. discriminate.
  - intros l0 tl Hfil.
    assert (Hl0 : l0 ∈ all /\ routing_key (store w) l0 = Some k).
    { assert (Hm : l0 ∈ filter (fun i => routing_key (store w) i = Some k) all)
        by (rewrite Hfil; apply elem_of_cons; by left).
      by apply list_elem_of_filter in Hm as [? ?]. }
    destruct Hl0 as [Hl0a Hl0r].
    pose proof (Hcov l0 k Hl0a Hl0r) as Hk.
    apply list_elem_of_fmap in Hk as ([k' b] & Hk' & Hin). cbn [fst] in Hk'.
    subst k'. eapply Forall_forall in Hb; [|exact Hin].
    destruct Hb as [Hf _]. cbn [fst snd] in Hf. rewrite Hfil in Hf.
    destruct (sendToSOIAndDIA_around a all w k b Hin)
      as (w1 & Hbefore & Hafter & _).
    cbn zeta in Hafter.
    assert (Hw2 : store (settle_bucket a w1 (k, b))
                  = fst (fail_intelligence err (store w1) l0)).
    { unfold settle_bucket. cbn [fst snd]. rewrite Herr, Hf.
      by rewrite fail_intelligences_throw. }
    rewrite Hw2 in Hafter. split.
    + intros l Hr Hne. rewrite Hafter by done.
      rewrite fail_intelligence_other by done. by apply Hbefore.
    + intros Hsys.
      destruct (fail_intelligence_throw_state err (store w1) l0 Ht Hj)
        as [S1 S2].
      { rewrite (get_at_same (store w) (store w1)) by by apply Hbefore.
        done. }
      rewrite (get_at_same _ _ l0 _ (Hafter l0 Hl0r)). split; [done|].
      intros f Hne. rewrite (get_at_same _ _ l0 _ (Hafter l0 Hl0r)).
      rewrite S2 by done. apply get_at_same. by apply Hbefore.
Qed.

End Reports.

(** ** The job runner and the rest of the producer *)

Section JobRunner.
Context `{Externals}.
Implicit Types (a : Answers) (w : World) (hd : handler).

Lemma no_job_resetRunningJob w :
  no_job (producer (resetRunningJob w)) = no_job (producer w).
Proof. done. Qed.

Lemma no_job_startCollectIntelligencesJob a w :
  no_job (producer (startCollectIntelligencesJob a w)) = no_job (producer w).
Proof.
  unfold startCollectIntelligencesJob.
  by destruct (truthy (jobId (job w)) || lockJob (job w)
               || endingCollectIntelligencesJob (job w)).
Qed.

Lemma no_job_endCollectIntelligencesJob a w :
  no_job (producer (endCollectIntelligencesJob a w)) = no_job (producer w).
Proof.
  unfold endCollectIntelligencesJob.
  destruct (negb (truthy (jobId (job w))) || negb (lockJob (job w))
            || endingCollectIntelligencesJob (job w)); [done|].
  rewrite no_job_startCollectIntelligencesJob, no_job_resetRunningJob.
  match goal with
  | |- context [sendToSOIAndDIA a ?all ?w0] =>
      destruct (sendToSOIAndDIA_frame a all w0) as [-> _]
  end.
  done.
Qed.

Lemma no_job_catch a w :
  no_job (producer (startCollectIntelligencesJob_catch a w))
  = no_job (producer w).
Proof.
  unfold startCollectIntelligencesJob_catch.
  by rewrite no_job_endCollectIntelligencesJob.
Qed.

Lemma no_job_timeout_steps (now : Z) (items : list ref) :
  forall w,
  no_job (producer (fold_left (timeout_step now) items w))
  = no_job (producer w).
Proof.
  induction items as [|x items IH]; intros w; [done|].
  cbn [fold_left]. by rewrite IH.
Qed.

Lemma no_job_settled_step (now : Z) w (result : settled) :
  no_job (producer (settled_step now w result)) = no_job (producer w).
Proof.
  unfold settled_step.
  destruct (String.eqb (toLower (status result)) "fulfilled"
            && truthy (payload_globalId (store w) (settled_value result))).
  - by destruct (settled_value result).
  - destruct (String.eqb (toLower (status result)) "rejected"
              && truthy (payload_globalId (store w) (settled_reason result)));
      [|done].
    by destruct (settled_reason result).
Qed.

Lemma no_job_settled_steps (now : Z) (results : list settled) :
  forall w,
  no_job (producer (fold_left (settled_step now) results w))
  = no_job (producer w).
Proof.
  induction results as [|x results IH]; intros w; [done|].
  cbn [fold_left]. by rewrite IH, no_job_settled_step.
Qed.

Lemma no_job_run hd w :
  is_job_handler hd = true ->
  no_job (producer (run hd w))
  = no_job (set___ranJobNumber (__ranJobNumber (producer w) + counted hd)
              (producer w)).
Proof.
  assert (Hsame : forall p : Producer,
            no_job (set___ranJobNumber (__ranJobNumber p + 0) p) = no_job p).
  { intros p. unfold no_job, set___runningJob, set___ranJobNumber.
    cbn. by rewrite Z.add_0_r. }
  destruct hd as [a| |configs|t|a api|a|a r|a r|a r|a|a results|a|h];
    try discriminate; intros _; cbn [run counted].
  - rewrite Hsame. unfold watchIntelligences_callback.
    destruct (negb (truthy (jobId (job w))) && negb (lockJob (job w)));
      [|done].
    apply no_job_startCollectIntelligencesJob.
  - unfold startCollectIntelligencesJob_fetched.
    destruct r as [[|x xs]|err]; [by rewrite Hsame|done|].
    rewrite Hsame. apply no_job_catch.
  - rewrite Hsame. unfold startCollectIntelligencesJob_idle.
    destruct r as [[]|err]; [done|]. apply no_job_catch.
  - rewrite Hsame. unfold startCollectIntelligencesJob_armed.
    destruct r as [[]|err]; [done|]. apply no_job_catch.
  - rewrite Hsame. unfold jobTimeout_callback.
    rewrite no_job_endCollectIntelligencesJob. unfold timeout_marks.
    by rewrite no_job_timeout_steps.
  - rewrite Hsame. unfold allSettled_then.
    destruct (jobTimeout (job w)); [done|].
    rewrite no_job_endCollectIntelligencesJob. unfold settled_marks.
    by rewrite no_job_settled_steps.
  - rewrite Hsame. unfold allSettled_catch.
    destruct (jobTimeout (job w)); [done|]. apply no_job_catch.
Qed.

(** X6. The job loop and the job runner write nothing of the producer but
    the running job and the job counter: whichever of their pieces runs
    (the tick of the job loop, a continuation of
    [startCollectIntelligencesJob], the timeout callback, the callbacks of
    the settled promises), the type, the producer error, the adopted
    configuration, both interval handles and the caller's overrides are as
    before; and the job counter goes up by one exactly when a fetch is
    answered a non-empty batch, and is otherwise unchanged. *)
Theorem job_runner_frame hd w :
  is_job_handler hd = true ->
  let p := producer w in
  let p' := producer (run hd w) in
  __type p' = __type p /\
  __producerError p' = __producerError p /\
  __currentProducerConfig p' = __currentProducerConfig p /\
  __watchIntelligencesIntervalHandler p'
  = __watchIntelligencesIntervalHandler p /\
  __watchProducerIntervalHandler p' = __watchProducerIntervalHandler p /\
  __manuallySetConfigs p' = __manuallySetConfigs p /\
  __ranJobNumber p' = __ranJobNumber p + counted hd.
Proof.
  intros Hhd p p'. pose proof (no_job_run hd w Hhd) as E. fold p p' in E.
  split_and!.
  - exact (f_equal __type E).
  - exact (f_equal __producerError E).
  - exact (f_equal __currentProducerConfig E).
  - exact (f_equal __watchIntelligencesIntervalHandler E).
  - exact (f_equal __watchProducerIntervalHandler E).
  - exact (f_equal __manuallySetConfigs E).
  - exact (f_equal __ranJobNumber E).
Qed.

(** *** Jobs without a batch *)

Lemma live_inv (j : RunningJob) :
  live j = true ->
  truthy (jobId j) = true /\ lockJob j = true
  /\ endingCollectIntelligencesJob j = false.
Proof.
  unfold live. intros [[? ?]%andb_true_iff ?%negb_true_iff]%andb_true_iff.
  done.
Qed.

(** Starting a job when the slot is free. *)
Lemma startCollectIntelligencesJob_free a w :
  truthy (jobId (job w)) = false -> lockJob (job w) = false ->
  endingCollectIntelligencesJob (job w) = false ->
  startCollectIntelligencesJob a w
  = {| producer := set___runningJob (new_job a) (producer w);
       store := store w;
       calls := calls w ++ [clearTimeout (jobTimeoutHandler (job w));
                            fetch_of a] |}.
Proof.
  intros E1 E2 E3. unfold startCollectIntelligencesJob.
  rewrite E1, E2, E3. cbn [orb].
  unfold initRunningJob, resetRunningJob, emit, with_job, with_producer.
  cbn [producer store calls job set___runningJob __runningJob default
       from_option id collectedIntelligencesDict collectedIntelligencesNumber
       jobTimeout endingCollectIntelligencesJob jobTimeoutHandler].
  unfold fetch_of, new_job. by rewrite <- app_assoc.
Qed.

(** Ending a live job that has no batch: nothing is dispatched, and the
    next job starts. *)
Lemma endCollectIntelligencesJob_empty a w :
  live (job w) = true -> totalIntelligences (job w) = [] ->
  endCollectIntelligencesJob a w
  = {| producer := set___runningJob (new_job a) (producer w);
       store := store w;
       calls := calls w ++ [clearTimeout (jobTimeoutHandler (job w));
                            clearTimeout HUndefined; fetch_of a] |}.
Proof.
  intros (E1 & E2 & E3)%live_inv Ht. unfold endCollectIntelligencesJob.
  rewrite E1, E2, E3. cbn [negb orb].
  cbn [job producer with_job with_store with_producer set___runningJob
       __runningJob set_endingCollectIntelligencesJob store
       collectedIntelligencesDict totalIntelligences set_totalIntelligences].
  fold (job w). rewrite Ht. cbn [reconcile fold_left fst snd].
  unfold sendToSOIAndDIA. cbn [categorize fold_left store].
  rewrite startCollectIntelligencesJob_free by done.
  unfold resetRunningJob, emit, with_job, with_producer, with_store.
  cbn [producer store calls job set___runningJob __runningJob
       jobTimeoutHandler set_totalIntelligences
       set_endingCollectIntelligencesJob].
  by rewrite <- app_assoc.
Qed.

(** X7. A fetch of a batch that is rejected is retried at once: the
    [catch] ends the job, which has no batch yet, and ending a job starts
    the next one, which sends the request again. So a run of rejections,
    one per request, sends one new request per rejection, with no timer in
    between; producer (but for the id and start time of the job) and store
    are as before. *)
Theorem rejected_fetch_is_retried_at_once (steps : list (Answers * value)) :
  forall w,
  live (job w) = true -> totalIntelligences (job w) = [] ->
  jobTimeoutHandler (job w) = HUndefined ->
  Forall (fun s => uuid_v4 (fst s) <> "") steps ->
  let w' :=
    fold_left (fun w s => run (Fetched (fst s) (Rejected (snd s))) w) steps w in
  no_job (producer w') = no_job (producer w) /\
  store w' = store w /\
  calls w'
  = calls w
    ++ flat_map (fun s => [clearTimeout HUndefined; clearTimeout HUndefined;
                           clearTimeout HUndefined; fetch_of (fst s)]) steps /\
  live (job w') = true.
Proof.
  induction steps as [|[a e] steps IH]; intros w Hlive Ht Hh Hu;
    cbn [fold_left flat_map].
  - by rewrite app_nil_r.
  - apply Forall_cons in Hu as [Hu1 Hu]. cbn [fst snd] in *.
    assert (Hstep : run (Fetched a (Rejected e)) w
              = {| producer := set___runningJob (new_job a) (producer w);
                   store := store w;
                   calls := calls w ++ [clearTimeout HUndefined;
                                        clearTimeout HUndefined;
                                        clearTimeout HUndefined;
                                        fetch_of a] |}).
    { cbn [run startCollectIntelligencesJob_fetched].
      unfold startCollectIntelligencesJob_catch.
      rewrite endCollectIntelligencesJob_empty; [|done|done].
      unfold emit, with_job, with_producer.
      cbn [producer store calls job set___runningJob __runningJob
           jobTimeoutHandler set_jobTimeoutHandler].
      fold (job w). rewrite Hh. by rewrite <- app_assoc. }
    rewrite Hstep.
    match goal with
    | |- context [fold_left ?f steps ?w1] =>
        destruct (IH w1) as (I1 & I2 & I3 & I4)
    end.
    + unfold live, job. cbn. apply String.eqb_neq in Hu1. by rewrite Hu1.
    + done.
    + done.
    + done.
    + split_and!; [by rewrite I1|by rewrite I2| |done].
      rewrite I3. cbn [calls]. by rewrite <- app_assoc.
Qed.

(** X8. A job that is answered an empty batch: the worker is still called,
    with an empty list and the id of the job; then the slot is freed,
    nothing is sent to a target system or reported, the job counter and the
    store are as before, and no next job is started (the next tick of the
    job loop does that). *)
Theorem empty_batch_frees_the_slot a0 a1 a2 w :
  truthy (jobId (job w)) = false -> lockJob (job w) = false ->
  endingCollectIntelligencesJob (job w) = false ->
  let w1 := run (WatchIntelligences a0) w in
  let w2 := run (Fetched a1 (Resolved [])) w1 in
  let w3 := run (WorkerIdle a2 (Resolved tt)) w2 in
  w3 = {| producer := set___runningJob idle_job (producer w);
          store := store w;
          calls := calls w
                   ++ [clearTimeout (jobTimeoutHandler (job w));
                       fetch_of a0;
                       worker [] (VStr (uuid_v4 a0))
                         (__currentProducerConfig (producer w));
                       clearTimeout HUndefined] |}.
Proof.
  intros E1 E2 E3. cbn [run]. unfold watchIntelligences_callback.
  rewrite E1, E2. cbn [negb andb].
  rewrite startCollectIntelligencesJob_free by done.
  unfold startCollectIntelligencesJob_fetched,
    startCollectIntelligencesJob_idle, resetRunningJob, emit, with_job,
    with_producer.
  cbn [producer store calls job set___runningJob __runningJob
       jobTimeoutHandler new_job jobId __currentProducerConfig].
  by rewrite <- !app_assoc.
Qed.

(** *** Fulfilled promises *)

Lemma settled_step_fulfilled (now : Z) w (l : ref) :
  truthy (get_at (store w) l ["globalId"]) = true ->
  settled_step now w (Fulfilled (Obj l)) = collect now l "FINISHED" w.
Proof.
  intros Hg. unfold settled_step.
  cbn [status settled_value payload_globalId]. rewrite Hg.
  by replace (toLower (VStr "fulfilled")) with "fulfilled" by by vm_compute.
Qed.

Lemma collect_FINISHED (now : Z) w (x : ref) :
  let w' := collect now x "FINISHED" w in
  get_at (store w') x ["system"; "state"] = VStr "FINISHED" /\
  (forall l, get_at (store w) l ["system"; "state"] = VStr "FINISHED" ->
             get_at (store w') l ["system"; "state"] = VStr "FINISHED") /\
  (forall l, get_at (store w') l ["globalId"] = get_at (store w) l ["globalId"])
  /\
  (forall l (f : string), f <> "system" ->
     lookup_field f (store w' !!! l) = lookup_field f (store w !!! l)) /\
  collectedIntelligencesDict (job w')
  = <[ToString (get_at (store w) x ["globalId"]) := x]>
      (collectedIntelligencesDict (job w)) /\
  totalIntelligences (job w') = totalIntelligences (job w) /\
  slot (job w') = slot (job w) /\
  endingCollectIntelligencesJob (job w')
  = endingCollectIntelligencesJob (job w) /\
  calls w' = calls w.
Proof.
  cbv zeta. unfold collect.
  cbn [store with_store with_job with_producer calls].
  assert (Hst : get_at (setIntelligenceState now x (VStr "FINISHED") VUndefined
                          (store w)) x ["system"; "state"] = VStr "FINISHED").
  { rewrite setIntelligenceState_state. by vm_compute. }
  split_and!; try done.
  - intros l Hl. destruct (decide (x = l)) as [<-|Hne]; [done|].
    by rewrite get_at_setIntelligenceState_other.
  - intros l. apply setIntelligenceState_globalId.
  - intros l f Hf. destruct (decide (x = l)) as [<-|Hne].
    + by apply setIntelligenceState_field.
    + by rewrite setIntelligenceState_other.
Qed.

Lemma fulfilled_fold (now : Z) (items : list ref) :
  forall w,
  (forall l, l ∈ items -> truthy (get_at (store w) l ["globalId"]) = true) ->
  let w' :=
    fold_left (settled_step now) (map (fun l => Fulfilled (Obj l)) items) w in
  (forall l, l ∈ items ->
     get_at (store w') l ["system"; "state"] = VStr "FINISHED") /\
  (forall l, get_at (store w) l ["system"; "state"] = VStr "FINISHED" ->
             get_at (store w') l ["system"; "state"] = VStr "FINISHED") /\
  (forall l, get_at (store w') l ["globalId"] = get_at (store w) l ["globalId"])
  /\
  (forall l (f : string), f <> "system" ->
     lookup_field f (store w' !!! l) = lookup_field f (store w !!! l)) /\
  (forall l, l ∈ items ->
     exists l', collectedIntelligencesDict (job w')
                  !! ToString (get_at (store w) l ["globalId"]) = Some l'
                /\ l' ∈ items) /\
  (forall (k : string) l,
     collectedIntelligencesDict (job w) !! k = Some l ->
     exists l', collectedIntelligencesDict (job w') !! k = Some l'
                /\ (l' = l \/ l' ∈ items)) /\
  totalIntelligences (job w') = totalIntelligences (job w) /\
  slot (job w') = slot (job w) /\
  endingCollectIntelligencesJob (job w')
  = endingCollectIntelligencesJob (job w) /\
  calls w' = calls w.
Proof.
  induction items as [|x items IH]; intros w Hg; cbv zeta.
  - cbn [fold_left map]. split_and!; try done.
    + intros l Hl. by apply elem_of_nil in Hl.
    + intros l Hl. by apply elem_of_nil in Hl.
    + intros k l Hk. exists l. by split; [|left].
  - cbn [fold_left map].
    rewrite settled_step_fulfilled by (apply Hg, elem_of_cons; by left).
    destruct (collect_FINISHED now w x)
      as (C1 & C2 & C3 & C4 & C5 & C6 & C7 & C8 & C9).
    cbv zeta in *.
    destruct (IH (collect now x "FINISHED" w))
      as (I1 & I2 & I3 & I4 & I5 & I6 & I7 & I8 & I9 & I10).
    { intros l Hl. rewrite C3. apply Hg, elem_of_cons. by right. }
    cbv zeta in *. split_and!.
    + intros l [->|Hl]%elem_of_cons; [by apply I2|by apply I1].
    + intros l Hl. by apply I2, C2.
    + intros l. by rewrite I3, C3.
    + intros l f Hf. by rewrite I4, C4.
    + intros l [->|Hl]%elem_of_cons.
      * destruct (I6 (ToString (get_at (store w) x ["globalId"])) x)
          as (l' & Hl' & Hor).
        { rewrite C5. apply lookup_insert_eq. }
        exists l'. split; [done|]. apply elem_of_cons.
        destruct Hor; [by left|by right].
      * destruct (I5 l Hl) as (l' & Hl' & Hin).
        exists l'. rewrite <- (C3 l). split; [done|].
        apply elem_of_cons. by right.
    + intros k l Hk.
      destruct (decide (ToString (get_at (store w) x ["globalId"]) = k))
        as [<-|Hne].
      * destruct (I6 (ToString (get_at (store w) x ["globalId"])) x)
          as (l' & Hl' & Hor).
        { rewrite C5. apply lookup_insert_eq. }
        exists l'. split; [done|]. right. apply elem_of_cons.
        destruct Hor; [by left|by right].
      * destruct (I6 k l) as (l' & Hl' & Hor).
        { rewrite C5. by rewrite lookup_insert_ne. }
        exists l'. split; [done|]. destruct Hor; [by left|].
        right. apply elem_of_cons. by right.
    + by rewrite I7.
    + by rewrite I8.
    + by rewrite I9.
    + by rewrite I10.
Qed.

(** X9. When every promise of the batch fulfils with its intelligence (and
    every intelligence has a [globalId]), the completion callback records
    each of them as "FINISHED": it overwrites [system.state] whatever the
    worker had written there and whether or not the intelligence carries a
    [dataset], so the reconciliation that follows finds a state on every
    item and writes nothing. Every intelligence of the batch whose route has
    no failing POST (or that has no route) is "FINISHED" when the callback is
    over, its [dataset] as the worker left it; and if the job was live, the
    next job has been started. *)
Theorem fulfilled_batch_is_finished a w :
  jobTimeout (job w) = false ->
  (forall l, l ∈ totalIntelligences (job w) ->
     truthy (get_at (store w) l ["globalId"]) = true) ->
  let results := map (fun l => Fulfilled (Obj l)) (totalIntelligences (job w)) in
  let w' := run (AllSettled a results) w in
  (forall l, l ∈ totalIntelligences (job w) ->
     match routing_key (store w) l with
     | Some key => sendIntelligencesToSOI_error a key = None
     | None => True
     end ->
     get_at (store w') l ["system"; "state"] = VStr "FINISHED" /\
     get_at (store w') l ["dataset"] = get_at (store w) l ["dataset"]) /\
  (live (job w) = true -> job w' = new_job a).
Proof.
  intros Hto Hg. cbv zeta. cbn [run]. unfold allSettled_then. rewrite Hto.
  unfold settled_marks.
  set (w0 := with_job (set_jobTimeoutHandler HUndefined
                         (job (emit (clearTimeout (jobTimeoutHandler (job w)))
                                 w)))
               (emit (clearTimeout (jobTimeoutHandler (job w))) w)).
  assert (Ht : totalIntelligences (job w0) = totalIntelligences (job w))
    by done.
  assert (Hs0 : store w0 = store w) by done.
  destruct (fulfilled_fold (Date_now a) (totalIntelligences (job w)) w0)
    as (I1 & I2 & I3 & I4 & I5 & I6 & I7 & I8 & I9 & I10); [by rewrite Hs0|].
  cbv zeta in *.
  set (w1 := fold_left (settled_step (Date_now a))
               (map (fun l => Fulfilled (Obj l)) (totalIntelligences (job w)))
               w0) in *.
  rewrite Hs0 in I3, I4, I5.
  assert (Hall : forall tmp, tmp ∈ totalIntelligences (job w1) ->
            exists l', collectedIntelligencesDict (job w1)
                         !! ToString (get_at (store w1) tmp ["globalId"])
                       = Some l'
                       /\ truthy (get_at (store w1) l' ["system"; "state"])
                          = true).
  { rewrite I7, Ht. intros tmp Htmp.
    destruct (I5 tmp Htmp) as (l' & Hl' & Hin).
    exists l'. rewrite I3. split; [done|]. by rewrite (I1 l' Hin). }
  split.
  - intros l Hl Hroute.
    assert (Hroute1 : match routing_key (store w1) l with
                      | Some key => sendIntelligencesToSOI_error a key = None
                      | None => True
                      end).
    { by rewrite (routing_key_same (store w) (store w1)) by by apply I4. }
    unfold get_at, deref.
    rewrite (endCollectIntelligencesJob_store a w1 l Hall Hroute1).
    split; [by apply I1|]. cbn [get get_field]. by rewrite I4.
  - intros (E1 & E2 & E3)%live_inv.
    assert (Hlive : live (job w1) = true).
    { assert (He0 : endingCollectIntelligencesJob (job w0)
                    = endingCollectIntelligencesJob (job w)) by done.
      assert (Hsl : slot (job w1) = slot (job w)) by by rewrite I8.
      unfold slot in Hsl. injection Hsl as Hj _ Hl.
      unfold live. by rewrite I9, He0, Hj, Hl, E1, E2, E3. }
    apply live_inv in Hlive as (L1 & L2 & L3).
    unfold endCollectIntelligencesJob. rewrite L1, L2, L3. cbn [negb orb].
    apply job_startCollectIntelligencesJob_idle, job_resetRunningJob.
Qed.

(** *** Ending a live job *)

Lemma sendToSOIAndDIA_calls a (all : list ref) w :
  exists rest, calls (sendToSOIAndDIA a all w) = calls w ++ rest.
Proof.
  unfold sendToSOIAndDIA. rewrite send_buckets_posts.
  match goal with
  | |- context [fold_left (settle_bucket a) ?sois ?w0] =>
      destruct (settle_buckets_calls a sois w0) as [rest ->]
  end.
  cbn [calls]. rewrite <- app_assoc. by eexists.
Qed.

(** Ending a live job: reconciliation, dispatch, teardown, next job. *)
Lemma endCollectIntelligencesJob_live a w :
  live (job w) = true ->
  let r :=
    reconcile (Date_now a) (collectedIntelligencesDict (job w)) (store w)
      (totalIntelligences (job w)) in
  endCollectIntelligencesJob a w
  = startCollectIntelligencesJob a
      (resetRunningJob
         (sendToSOIAndDIA a (snd r)
            {| producer :=
                 set___runningJob
                   (set_totalIntelligences (snd r)
                      (set_endingCollectIntelligencesJob true (job w)))
                   (producer w);
               store := fst r;
               calls := calls w |})).
Proof.
  intros (E1 & E2 & E3)%live_inv. cbv zeta. unfold endCollectIntelligencesJob.
  by rewrite E1, E2, E3.
Qed.

(** Ending a live job ends with the request for the next batch. *)
Lemma endCollectIntelligencesJob_live_calls a w :
  live (job w) = true ->
  exists mid,
    calls (endCollectIntelligencesJob a w)
    = calls w ++ mid ++ [clearTimeout HUndefined; fetch_of a].
Proof.
  intros (E1 & E2 & E3)%live_inv. unfold endCollectIntelligencesJob.
  rewrite E1, E2, E3. cbn [negb orb].
  rewrite startCollectIntelligencesJob_free by done. cbn [calls].
  match goal with
  | |- context [sendToSOIAndDIA a ?all ?w0] =>
      destruct (sendToSOIAndDIA_calls a all w0) as [rest Hrest];
      set (X := sendToSOIAndDIA a all w0) in *
  end.
  unfold resetRunningJob, emit, with_job, with_producer. cbn [calls].
  rewrite Hrest. cbn [calls with_job with_store with_producer].
  exists (rest ++ [clearTimeout (jobTimeoutHandler (job X))]).
  by rewrite <- !app_assoc.
Qed.

Lemma job_endCollectIntelligencesJob_live a w :
  live (job w) = true -> job (endCollectIntelligencesJob a w) = new_job a.
Proof.
  intros (E1 & E2 & E3)%live_inv. unfold endCollectIntelligencesJob.
  rewrite E1, E2, E3. cbn [negb orb].
  apply job_startCollectIntelligencesJob_idle, job_resetRunningJob.
Qed.

(** X10. Ending a live job when no POST to a target system fails, in
    full. With [r] the reconciliation of the batch and [sois] the buckets of
    the reconciled list: the store is the reconciled one; the requests sent
    are one POST per bucket, each carrying the whole reconciled list, then
    one PUT per bucket carrying the intelligences of the bucket as
    reconciled (in the order in which the embedding settles the promises),
    then the timers are cleared and the request for the next batch is sent;
    and the next job holds the slot. *)
Theorem endCollectIntelligencesJob_when_posts_succeed a w :
  live (job w) = true ->
  (forall key : string, sendIntelligencesToSOI_error a key = None) ->
  let r :=
    reconcile (Date_now a) (collectedIntelligencesDict (job w)) (store w)
      (totalIntelligences (job w)) in
  let sois := categorize (fst r) (snd r) in
  endCollectIntelligencesJob a w
  = {| producer := set___runningJob (new_job a) (producer w);
       store := fst r;
       calls :=
         calls w
         ++ map (post_of (snd r) (fst r)) sois
         ++ map (put_of a (fst r)) sois
         ++ [clearTimeout (jobTimeoutHandler (job w));
             clearTimeout HUndefined;
             fetch_of a] |}.
Proof.
  intros Hlive Hok r sois.
  rewrite (endCollectIntelligencesJob_live a w Hlive). cbv zeta. fold r.
  unfold sendToSOIAndDIA. cbn [store]. fold sois.
  rewrite send_buckets_posts, settle_buckets_ok by (intros; apply Hok).
  cbn [producer store calls].
  rewrite startCollectIntelligencesJob_free by done.
  unfold resetRunningJob, emit, with_job, with_producer.
  cbn [producer store calls job set___runningJob __runningJob
       jobTimeoutHandler set_totalIntelligences
       set_endingCollectIntelligencesJob].
  fold (job w). by rewrite <- !app_assoc.
Qed.

(** X11. Stopping the job loop while a job is live does not stop the
    collection: [endPollingGetIntelligences] clears the interval and sets
    its handle to [null], but it also ends the live job, and ending a job
    starts the next one, so the call finishes with a new job holding the
    slot and a new request for a batch sent. (Without a live job it clears
    the interval and nothing else.) *)
Theorem endPollingGetIntelligences_starts_next_job a w :
  live (job w) = true ->
  let w' := endPollingGetIntelligences a w in
  __watchIntelligencesIntervalHandler (producer w') = HNull /\
  job w' = new_job a /\
  (exists mid,
     calls w'
     = calls w
       ++ [clearInterval (__watchIntelligencesIntervalHandler (producer w))]
       ++ mid ++ [clearTimeout HUndefined; fetch_of a]) /\
  (forall w0, live (job w0) = false ->
     endPollingGetIntelligences a w0
     = with_producer
         (set___watchIntelligencesIntervalHandler HNull (producer w0))
         (emit (clearInterval
                  (__watchIntelligencesIntervalHandler (producer w0))) w0)).
Proof.
  intros Hlive. cbv zeta. unfold endPollingGetIntelligences.
  set (w1 := with_producer
               (set___watchIntelligencesIntervalHandler HNull
                  (producer (emit (clearInterval
                                     (__watchIntelligencesIntervalHandler
                                        (producer w))) w)))
               (emit (clearInterval
                        (__watchIntelligencesIntervalHandler (producer w))) w)).
  assert (Hl1 : live (job w1) = true) by done.
  split_and!.
  - pose proof (no_job_endCollectIntelligencesJob a w1) as E.
    exact (f_equal __watchIntelligencesIntervalHandler E).
  - by apply job_endCollectIntelligencesJob_live.
  - destruct (endCollectIntelligencesJob_live_calls a w1 Hl1) as [mid ->].
    exists mid. cbn [w1 calls with_producer emit]. by rewrite <- !app_assoc.
  - intros w0 Hn. unfold endCollectIntelligencesJob.
    cbn [job producer with_producer emit set___watchIntelligencesIntervalHandler
         __runningJob].
    fold (job w0). unfold live in Hn.
    destruct (truthy (jobId (job w0))), (lockJob (job w0)),
      (endingCollectIntelligencesJob (job w0)); try done.
Qed.

Lemma calls_settled_step (now : Z) w (result : settled) :
  calls (settled_step now w result) = calls w.
Proof.
  unfold settled_step.
  destruct (String.eqb (toLower (status result)) "fulfilled"
            && truthy (payload_globalId (store w) (settled_value result))).
  - by destruct (settled_value result).
  - destruct (String.eqb (toLower (status result)) "rejected"
              && truthy (payload_globalId (store w) (settled_reason result)));
      [|done].
    by destruct (settled_reason result).
Qed.

Lemma calls_settled_steps (now : Z) (results : list settled) :
  forall w, calls (fold_left (settled_step now) results w) = calls w.
Proof.
  induction results as [|x results IH]; intros w; [done|].
  cbn [fold_left]. by rewrite IH, calls_settled_step.
Qed.

(** The marks of the completion callback and of the timeout callback write
    to the running job only what has been collected. *)
Lemma job_settled_step (now : Z) w (result : settled) (d : gmap string nat)
  (n : Z) :
  set_collected d n (job (settled_step now w result))
  = set_collected d n (job w).
Proof.
  unfold settled_step.
  destruct (String.eqb (toLower (status result)) "fulfilled"
            && truthy (payload_globalId (store w) (settled_value result))).
  - by destruct (settled_value result).
  - destruct (String.eqb (toLower (status result)) "rejected"
              && truthy (payload_globalId (store w) (settled_reason result)));
      [|done].
    by destruct (settled_reason result).
Qed.

Lemma job_settled_steps (now : Z) (results : list settled)
  (d : gmap string nat) (n : Z) :
  forall w,
  set_collected d n (job (fold_left (settled_step now) results w))
  = set_collected d n (job w).
Proof.
  induction results as [|x results IH]; intros w; [done|].
  cbn [fold_left]. by rewrite IH, job_settled_step.
Qed.

Lemma job_timeout_steps (now : Z) (items : list ref) (d : gmap string nat)
  (n : Z) :
  forall w,
  set_collected d n (job (fold_left (timeout_step now) items w))
  = set_collected d n (job w).
Proof.
  induction items as [|x items IH]; intros w; [done|].
  cbn [fold_left]. by rewrite IH.
Qed.

Lemma calls_timeout_steps (now : Z) (items : list ref) :
  forall w, calls (fold_left (timeout_step now) items w) = calls w.
Proof.
  induction items as [|x items IH]; intros w; [done|].
  cbn [fold_left]. by rewrite IH.
Qed.

(** Two running jobs that differ at most in what has been collected. *)
Lemma same_but_collected (j j' : RunningJob) :
  set_collected ∅ 0 j' = set_collected ∅ 0 j ->
  jobId j' = jobId j /\ lockJob j' = lockJob j /\
  endingCollectIntelligencesJob j' = endingCollectIntelligencesJob j /\
  totalIntelligences j' = totalIntelligences j /\
  jobTimeoutHandler j' = jobTimeoutHandler j /\
  jobTimeout j' = jobTimeout j /\
  startTime j' = startTime j.
Proof.
  destruct j, j'. unfold set_collected. cbn.
  intros E. injection E. intros. by subst.
Qed.

Lemma settled_marks_job a (results : list settled) w :
  set_collected ∅ 0 (job (settled_marks a results w))
  = set_collected ∅ 0 (set_jobTimeoutHandler HUndefined (job w)).
Proof. unfold settled_marks. by rewrite job_settled_steps. Qed.

Lemma timeout_marks_job a w :
  set_collected ∅ 0 (job (timeout_marks a w))
  = set_collected ∅ 0
      (set_jobTimeoutHandler HUndefined (set_jobTimeout true (job w))).
Proof. unfold timeout_marks. by rewrite job_timeout_steps. Qed.

Lemma calls_settled_marks a (results : list settled) w :
  calls (settled_marks a results w)
  = calls w ++ [clearTimeout (jobTimeoutHandler (job w))].
Proof. unfold settled_marks. by rewrite calls_settled_steps. Qed.

Lemma calls_timeout_marks a w : calls (timeout_marks a w) = calls w.
Proof. unfold timeout_marks. by rewrite calls_timeout_steps. Qed.

Lemma live_settled_marks a (results : list settled) w :
  live (job (settled_marks a results w)) = live (job w).
Proof.
  destruct (same_but_collected _ _ (settled_marks_job a results w))
    as (E1 & E2 & E3 & _).
  unfold live. by rewrite E1, E2, E3.
Qed.

Lemma live_timeout_marks a w :
  live (job (timeout_marks a w)) = live (job w).
Proof.
  destruct (same_but_collected _ _ (timeout_marks_job a w))
    as (E1 & E2 & E3 & _).
  unfold live. by rewrite E1, E2, E3.
Qed.

(** *** The lock and the job id *)


(** X12. In every state the producer can reach from its construction,
    whatever pieces of the class run and in whatever order, the lock is held
    exactly when a job id is set: either there is no job id, the lock is
    free and the start time is 0, or the job id is a uuid, the lock is held,
    and id and start time are those one call of [initRunningJob] wrote. *)
Theorem lock_is_held_iff_job_id_is_set (configs : value) (h0 : heap)
  (hds : list handler) :
  let w :=
    fold_left (fun w hd => run hd w) hds
      {| producer := constructor configs; store := h0; calls := [] |} in
  (jobId (job w) = VUndefined /\ lockJob (job w) = false
   /\ startTime (job w) = 0) \/
  (exists a : Answers,
     jobId (job w) = VStr (uuid_v4 a) /\ lockJob (job w) = true
     /\ startTime (job w) = Date_now a).
Proof.
  cbv zeta.
  assert (G : forall w0,
            slot (job w0) = slot idle_job
            \/ (exists a, slot (job w0) = slot (new_job a)) ->
            slot (job (fold_left (fun w hd => run hd w) hds w0)) = slot idle_job
            \/ (exists a, slot (job (fold_left (fun w hd => run hd w) hds w0))
                          = slot (new_job a))).
  { induction hds as [|hd hds IH]; intros w0 Hinv; [done|].
    cbn [fold_left]. apply IH.
    destruct (slot_run hd w0) as [E|[E|(a & _ & E)]].
    - by rewrite E.
    - left. by rewrite E.
    - right. exists a. by rewrite E. }
  destruct (G {| producer := constructor configs; store := h0; calls := [] |})
    as [E|[a E]].
  - left. unfold constructor, setConfigs.
    by destruct (instanceof_Object configs).
  - left. unfold slot in E. by injection E as -> -> ->.
  - right. exists a. unfold slot in E. by injection E as -> -> ->.
Qed.

(** The completion callback when no job id is set: the outcomes are walked
    through, and nothing is sent. *)
Lemma allSettled_then_without_job a (results : list settled) w :
  jobTimeout (job w) = false -> truthy (jobId (job w)) = false ->
  calls (allSettled_then a results w)
  = calls w ++ [clearTimeout (jobTimeoutHandler (job w))] /\
  set_collected ∅ 0 (job (allSettled_then a results w))
  = set_collected ∅ 0 (set_jobTimeoutHandler HUndefined (job w)) /\
  no_job (producer (allSettled_then a results w)) = no_job (producer w).
Proof.
  intros Hto Hid. unfold allSettled_then. rewrite Hto.
  assert (Hj : set_collected ∅ 0 (job (settled_marks a results w))
               = set_collected ∅ 0 (set_jobTimeoutHandler HUndefined (job w))).
  { unfold settled_marks. by rewrite job_settled_steps. }
  assert (Hg : truthy (jobId (job (settled_marks a results w))) = false).
  { pose proof (f_equal jobId Hj) as E. cbn in E. by rewrite E. }
  unfold endCollectIntelligencesJob. rewrite Hg. cbn [negb orb].
  split_and!; [|done|].
  - unfold settled_marks. by rewrite calls_settled_steps.
  - unfold settled_marks. by rewrite no_job_settled_steps.
Qed.

(** X13. A batch that arrives after [stop()] is handed to the worker all
    the same (with no job id and no configuration), its timeout is armed, and
    the job counter counts it; but when its promises have settled nothing is
    sent to a target system and nothing is reported, because no job id is
    set: the outbound calls are those below and no other. *)
Theorem batch_after_stop_is_never_reported a1 a2 a3 (x : ref)
  (batch : list ref) (results : list settled) w :
  let w1 := run Stop w in
  let w2 := run (Fetched a1 (Resolved (x :: batch))) w1 in
  let w3 := run (WorkerCalled a2 (Resolved tt)) w2 in
  let w4 := run (AllSettled a3 results) w3 in
  calls w4
  = calls w
    ++ [clearInterval (__watchIntelligencesIntervalHandler (producer w));
        clearInterval (__watchProducerIntervalHandler (producer w));
        clearTimeout (jobTimeoutHandler (job w));
        worker (x :: batch) VUndefined VUndefined;
        clearTimeout HUndefined;
        setTimeout (new_timer a2) COLLECT_JOB_TIMEOUT;
        clearTimeout (HTimer (new_timer a2))] /\
  __ranJobNumber (producer w4) = 1 /\
  jobId (job w4) = VUndefined /\
  lockJob (job w4) = false /\
  totalIntelligences (job w4) = x :: batch.
Proof.
  cbv zeta.
  set (w3 := run (WorkerCalled a2 (Resolved tt))
               (run (Fetched a1 (Resolved (x :: batch))) (run Stop w))).
  destruct (allSettled_then_without_job a3 results w3)
    as (Hc & Hj & Hp); [reflexivity|reflexivity|].
  cbn [run] in *. split_and!.
  - rewrite Hc. unfold w3. cbn. by rewrite <- !app_assoc.
  - exact (f_equal __ranJobNumber Hp).
  - exact (f_equal jobId Hj).
  - exact (f_equal lockJob Hj).
  - exact (f_equal totalIntelligences Hj).
Qed.

(** *** A job that fails as a whole *)






(** *** A completion that comes after its job *)

(** X15. A completion that comes after the timeout of its job is not
    ignored. The timeout callback ends the live job and starts the next one,
    whose [jobTimeout] flag is clear again; so when the promises of the old
    job settle afterwards, the completion callback goes ahead on the new
    job: it ends that job, which has no batch yet, and starts a third one.
    Two requests for a batch have then been sent with no answer handled in
    between, and nothing has been reported for the new job. *)
Theorem late_completion_ends_the_next_job a a' (results : list settled) w :
  live (job w) = true ->
  uuid_v4 a <> "" ->
  let w1 := run (JobTimeout a) w in
  let w2 := run (AllSettled a' results) w1 in
  job w1 = new_job a /\
  (exists mid,
     calls w1 = calls w ++ mid ++ [clearTimeout HUndefined; fetch_of a]) /\
  job w2 = new_job a' /\
  calls w2
  = calls w1 ++ [clearTimeout HUndefined; clearTimeout HUndefined;
                 clearTimeout HUndefined; fetch_of a'].
Proof.
  intros Hlive Hu. cbv zeta. cbn [run]. unfold jobTimeout_callback.
  assert (Hl1 : live (job (timeout_marks a w)) = true)
    by by rewrite live_timeout_marks.
  pose proof (job_endCollectIntelligencesJob_live a _ Hl1) as Hj1.
  destruct (endCollectIntelligencesJob_live_calls a _ Hl1) as [mid Hm].
  rewrite calls_timeout_marks in Hm.
  set (w1 := endCollectIntelligencesJob a (timeout_marks a w)) in *.
  assert (Hn : live (new_job a) = true).
  { unfold live. cbn. apply String.eqb_neq in Hu. by rewrite Hu. }
  assert (Hl2 : live (job (settled_marks a' results w1)) = true)
    by by rewrite live_settled_marks, Hj1.
  destruct (same_but_collected _ _ (settled_marks_job a' results w1))
    as (_ & _ & _ & Ht & Hh & _).
  rewrite Hj1 in Ht, Hh. cbn in Ht, Hh.
  unfold allSettled_then. rewrite Hj1. cbn [jobTimeout new_job].
  split_and!; [done|by exists mid| |].
  - by apply job_endCollectIntelligencesJob_live.
  - rewrite endCollectIntelligencesJob_empty by done. cbn [calls].
    rewrite calls_settled_marks, Hh, Hj1. cbn [jobTimeoutHandler new_job].
    by rewrite <- app_assoc.
Qed.

End JobRunner.

(** ** The configuration watcher, when the configuration changes *)

Section WatcherChanges.
Context `{Externals}.
Implicit Types (a : Answers) (w : World) (err config : value).

Lemma handle_endPollingGetIntelligences a w :
  __watchIntelligencesIntervalHandler (producer (endPollingGetIntelligences a w))
  = HNull.
Proof.
  unfold endPollingGetIntelligences.
  match goal with
  | |- context [endCollectIntelligencesJob a ?w1] =>
      exact (f_equal __watchIntelligencesIntervalHandler
               (no_job_endCollectIntelligencesJob a w1))
  end.
Qed.

(** X16. A tick of the configuration watcher that is answered a
    configuration differing from the adopted one in [globalId] or
    [system.version] adopts it, whatever it is; the job loop is then armed
    exactly when a base URL is configured and the configuration has a type
    and a [globalId], the producer's type and the active state (letter case
    apart): in that case the last two calls are the clearing of the (null)
    handle and a [setInterval] of [pollingInterval] seconds, or of the
    default interval when the configuration has none; otherwise the handle
    of the job loop is [null]. *)
Theorem compareProducerConfiguration_changed a (api : response value) w
  config :
  snd (getProducerConfiguration a api w) = Return config ->
  changed config (__currentProducerConfig (producer w)) = true ->
  let w' := compareProducerConfiguration a api w in
  let ok := may_poll a (producer w) config in
  __currentProducerConfig (producer w') = config /\
  __watchIntelligencesIntervalHandler (producer w')
  = (if ok then HTimer (new_timer a) else HNull) /\
  (ok = true ->
   exists pre,
     calls w'
     = pre ++ [clearInterval HNull;
               setInterval (new_timer a) (polling_delay config)]).
Proof.
  intros Hret Hch. cbv zeta. unfold compareProducerConfiguration.
  destruct (getProducerConfiguration_frame a api w) as (_ & Hp & _).
  destruct (set___producerError_inv _ _ _ Hp) as (_ & Hcur & _).
  pose proof (f_equal __type Hp) as Hty. cbn [__type set___producerError] in Hty.
  destruct (getProducerConfiguration a api w) as [w1 c]. cbn [fst snd] in *.
  subst c. rewrite Hcur. unfold changed in Hch. rewrite Hch.
  set (w2 := with_producer (set___currentProducerConfig config (producer w1))
               w1).
  assert (Hc2 : __currentProducerConfig (producer w2) = config) by done.
  assert (Hok : may_poll a (producer w) config
                = negb (negb (truthy (get_field (getConfigs a) "BITSKY_BASE_URL"))
                        || negb (truthy (get config ["type"]))
                        || negb (truthy (get config ["globalId"]))
                        || negb (String.eqb (toUpper (get config ["type"]))
                                   (toUpper (__type (producer w2))))
                        || negb (String.eqb
                                   (toUpper (get config ["system"; "state"]))
                                   (toUpper AGENT_STATE_active)))).
  { unfold may_poll.
    cbn [w2 producer with_producer __type set___currentProducerConfig].
    rewrite Hty.
    by destruct (truthy (get_field (getConfigs a) "BITSKY_BASE_URL")),
      (truthy (get config ["type"])), (truthy (get config ["globalId"])),
      (String.eqb (toUpper (get config ["type"]))
         (toUpper (__type (producer w)))),
      (String.eqb (toUpper (get config ["system"; "state"]))
         (toUpper AGENT_STATE_active)). }
  rewrite Hok.
  destruct (negb (truthy (get_field (getConfigs a) "BITSKY_BASE_URL"))
            || negb (truthy (get config ["type"]))
            || negb (truthy (get config ["globalId"]))
            || negb (String.eqb (toUpper (get config ["type"]))
                       (toUpper (__type (producer w2))))
            || negb (String.eqb (toUpper (get config ["system"; "state"]))
                       (toUpper AGENT_STATE_active))) eqn:Eg;
    cbn [negb].
  - split_and!; [|apply handle_endPollingGetIntelligences|done].
    by rewrite config_endPollingGetIntelligences.
  - assert (Hobj : instanceof_Object config = true).
    { destruct config; try done;
        by rewrite ?orb_true_r in Eg. }
    pose proof (config_endPollingGetIntelligences a w2) as Hce.
    rewrite Hc2 in Hce.
    pose proof (handle_endPollingGetIntelligences a w2) as Hhe.
    unfold startPollingGetIntelligences. rewrite Hce.
    destruct config as [| | | | |c fs]; try discriminate.
    cbn [producer with_producer emit calls __currentProducerConfig
         __watchIntelligencesIntervalHandler
         set___watchIntelligencesIntervalHandler].
    split_and!; [done|done|]. intros _. rewrite Hhe.
    eexists. rewrite <- app_assoc. reflexivity.
Qed.

(** X17. A fetch of the configuration that fails without an HTTP status
    (a network error), after one that failed with a status: the call returns
    [undefined], and the recorded producer error keeps the status and the
    code of the earlier failure, only its message being replaced by
    "Internal server error". *)
Theorem statusless_error_keeps_stale_status a1 a2 err1 err2 w :
  truthy (get_field (getConfigs a1) "BITSKY_BASE_URL") = true ->
  truthy (get_field (getConfigs a1) "GLOBAL_ID") = true ->
  truthy (get_field (getConfigs a2) "BITSKY_BASE_URL") = true ->
  truthy (get_field (getConfigs a2) "GLOBAL_ID") = true ->
  truthy (get_field err1 "status") = true ->
  instanceof_Object err2 = true ->
  truthy (get_field err2 "status") = false ->
  let w1 := fst (getProducerConfiguration a1 (Rejected err1) w) in
  let r := getProducerConfiguration a2 (Rejected err2) w1 in
  snd r = Return VUndefined /\
  producerError (producer (fst r))
  = VObj KObject
      [("error", VBool true);
       ("status", get_field err1 "status");
       ("code", get_field err1 "code");
       ("message", VStr "Internal server error")].
Proof.
  intros B1 G1 B2 G2 S1 O2 S2. cbv zeta.
  rewrite (getProducerConfiguration_status a1 err1 w B1 G1 S1). cbn [fst].
  unfold getProducerConfiguration at 1 2. rewrite B2, G2. cbn [negb orb].
  destruct err2 as [| | | | |c fs]; try discriminate.
  rewrite S2. cbn [truthy andb].
  by cbn [producer with_producer emit __producerError set___producerError
          fst snd producerError assign String.eqb Ascii.eqb Bool.eqb].
Qed.

(** *** From [start] to the first request for a batch *)

Lemma endPollingGetIntelligences_idle a w :
  live (job w) = false ->
  endPollingGetIntelligences a w
  = with_producer
      (set___watchIntelligencesIntervalHandler HNull (producer w))
      (emit (clearInterval (__watchIntelligencesIntervalHandler (producer w)))
         w).
Proof.
  intros Hn. unfold endPollingGetIntelligences, endCollectIntelligencesJob.
  cbn [job producer with_producer emit set___watchIntelligencesIntervalHandler
       __runningJob].
  fold (job w). unfold live in Hn.
  by destruct (truthy (jobId (job w))), (lockJob (job w)),
    (endingCollectIntelligencesJob (job w)).
Qed.

Lemma may_poll_inv a (p : Producer) config :
  may_poll a p config = true ->
  truthy (get_field (getConfigs a) "BITSKY_BASE_URL") = true /\
  truthy (get config ["type"]) = true /\
  truthy (get config ["globalId"]) = true /\
  String.eqb (toUpper (get config ["type"])) (toUpper (__type p)) = true /\
  String.eqb (toUpper (get config ["system"; "state"]))
    (toUpper AGENT_STATE_active) = true.
Proof.
  unfold may_poll.
  intros [[[[? ?]%andb_true_iff ?]%andb_true_iff ?]%andb_true_iff ?]%andb_true_iff.
  done.
Qed.

(** A tick answered a new configuration that meets the conditions, while no
    job is live: the request, the adoption, and the job loop armed. *)
Lemma compareProducerConfiguration_arms a (data : value) w :
  let config := merge_DEFAULT_AGENT_CONFIGURATION data in
  truthy (get_field (getConfigs a) "GLOBAL_ID") = true ->
  live (job w) = false ->
  changed config (__currentProducerConfig (producer w)) = true ->
  may_poll a (producer w) config = true ->
  compareProducerConfiguration a (Resolved data) w
  = {| producer :=
         set___watchIntelligencesIntervalHandler (HTimer (new_timer a))
           (set___currentProducerConfig config
              (set___producerError VNull (producer w)));
       store := store w;
       calls :=
         calls w
         ++ [getProducerAPI (get_field (getConfigs a) "BITSKY_BASE_URL")
               (get_field (getConfigs a) "GLOBAL_ID") (__type (producer w))
               (get_field (getConfigs a) "BITSKY_SECURITY_KEY");
             clearInterval (__watchIntelligencesIntervalHandler (producer w));
             clearInterval HNull;
             setInterval (new_timer a) (polling_delay config)] |}.
Proof.
  intros config G Hn Hch Hok.
  destruct (may_poll_inv _ _ _ Hok) as (B & T & Gi & Ty & St).
  unfold compareProducerConfiguration, getProducerConfiguration.
  rewrite B, G. cbn [negb orb].
  cbn [producer with_producer emit __currentProducerConfig
       set___producerError].
  fold config. unfold changed in Hch. rewrite Hch.
  cbn [producer with_producer __type set___currentProducerConfig
       set___producerError].
  rewrite ?B, T, Gi, Ty, St. cbn [negb orb].
  unfold startPollingGetIntelligences.
  rewrite endPollingGetIntelligences_idle by exact Hn.
  cbn [producer with_producer emit __currentProducerConfig
       set___watchIntelligencesIntervalHandler set___currentProducerConfig
       __watchIntelligencesIntervalHandler].
  destruct config as [| | | | |c fs] eqn:Ec; try discriminate.
  unfold with_producer, emit, polling_delay.
  cbn [producer store calls get_field set___watchIntelligencesIntervalHandler
       set___currentProducerConfig set___producerError __type
       __producerError __ranJobNumber __currentProducerConfig
       __watchIntelligencesIntervalHandler __watchProducerIntervalHandler
       __runningJob __manuallySetConfigs].
  by rewrite <- !app_assoc.
Qed.

Lemma strict_eq_undefined (v : value) :
  truthy v = true -> strict_eq v VUndefined = false.
Proof. by destruct v. Qed.

(** X18. From [start] to the first request for a batch. A producer is
    started; the first tick of the configuration watcher is answered a
    configuration that meets the conditions of the job loop; the job loop
    ticks once. Then the configuration is adopted, both intervals are armed,
    a job holds the slot, and the outbound calls are, in this order: the
    clearing of the old timers, the interval of the watcher, the request for
    the configuration, the clearing of the job loop's handle (twice), the
    interval of the job loop, and the request for a batch. *)
Theorem started_producer_requests_a_batch a0 a1 a2 (data : value) w :
  truthy (get_field (getConfigs a1) "GLOBAL_ID") = true ->
  let w1 := run (Start a0) w in
  let config := merge_DEFAULT_AGENT_CONFIGURATION data in
  may_poll a1 (producer w1) config = true ->
  let w2 := run (WatchProducer a1 (Resolved data)) w1 in
  let w3 := run (WatchIntelligences a2) w2 in
  __currentProducerConfig (producer w3) = config /\
  __watchProducerIntervalHandler (producer w3) = HTimer (new_timer a0) /\
  __watchIntelligencesIntervalHandler (producer w3) = HTimer (new_timer a1) /\
  job w3 = new_job a2 /\
  calls w3
  = calls w
    ++ [clearInterval (__watchIntelligencesIntervalHandler (producer w));
        clearInterval (__watchProducerIntervalHandler (producer w));
        clearTimeout (jobTimeoutHandler (job w));
        setInterval (new_timer a0) (Some POLLING_INTERVAL_WATCH_AGENT);
        getProducerAPI (get_field (getConfigs a1) "BITSKY_BASE_URL")
          (get_field (getConfigs a1) "GLOBAL_ID") (__type (producer w1))
          (get_field (getConfigs a1) "BITSKY_SECURITY_KEY");
        clearInterval HUndefined;
        clearInterval HNull;
        setInterval (new_timer a1) (polling_delay config);
        clearTimeout HUndefined;
        fetch_of a2].
Proof.
  intros G w1 config Hok w2 w3. subst config.
  destruct (may_poll_inv _ _ _ Hok) as (_ & _ & Gi & _).
  assert (Hj1 : job w1 = idle_job).
  { unfold w1. cbn [run]. unfold start, resetRuntime.
    by destruct (negb (truthy _)). }
  assert (Hc1 : __currentProducerConfig (producer w1) = VUndefined).
  { unfold w1. cbn [run]. unfold start, resetRuntime.
    by destruct (negb (truthy _)). }
  assert (Hh1 : __watchIntelligencesIntervalHandler (producer w1) = HUndefined).
  { unfold w1. cbn [run]. unfold start, resetRuntime.
    by destruct (negb (truthy _)). }
  assert (Hp1 : __watchProducerIntervalHandler (producer w1)
                = HTimer (new_timer a0)).
  { unfold w1. cbn [run]. unfold start, resetRuntime.
    by destruct (negb (truthy _)). }
  assert (Hcalls1 : calls w1
            = calls w
              ++ [clearInterval (__watchIntelligencesIntervalHandler
                                   (producer w));
                  clearInterval (__watchProducerIntervalHandler (producer w));
                  clearTimeout (jobTimeoutHandler (job w));
                  setInterval (new_timer a0)
                    (Some POLLING_INTERVAL_WATCH_AGENT)]).
  { unfold w1. cbn [run]. unfold start, resetRuntime, resetRunningJob.
    destruct (negb (truthy _));
      cbn [calls emit with_producer with_job producer job
           set___runningJob __runningJob];
      by rewrite <- !app_assoc. }
  assert (Hn1 : live (job w1) = false) by by rewrite Hj1.
  assert (Hch1 : changed (merge_DEFAULT_AGENT_CONFIGURATION data)
                   (__currentProducerConfig (producer w1)) = true).
  { unfold changed. by rewrite Hc1, get_undefined, (strict_eq_undefined _ Gi). }
  pose proof (compareProducerConfiguration_arms a1 data w1 G Hn1 Hch1 Hok)
    as Hw2.
  change (compareProducerConfiguration a1 (Resolved data) w1) with w2 in Hw2.
  cbv zeta in Hw2.
  assert (Hfree : truthy (jobId (job w2)) = false /\ lockJob (job w2) = false
                  /\ endingCollectIntelligencesJob (job w2) = false).
  { rewrite Hw2. unfold job. cbn [producer __runningJob
      set___watchIntelligencesIntervalHandler set___currentProducerConfig
      set___producerError].
    fold (job w1). by rewrite Hj1. }
  destruct Hfree as (F1 & F2 & F3).
  pose proof (startCollectIntelligencesJob_free a2 w2 F1 F2 F3) as Hw3.
  assert (Hw3' : w3 = startCollectIntelligencesJob a2 w2).
  { unfold w3. cbn [run]. unfold watchIntelligences_callback.
    by rewrite F1, F2. }
  rewrite Hw3', Hw3, Hw2.
  cbn [producer store calls job __currentProducerConfig
       __watchProducerIntervalHandler __watchIntelligencesIntervalHandler
       set___runningJob set___watchIntelligencesIntervalHandler
       set___currentProducerConfig set___producerError __runningJob].
  fold (job w1). rewrite Hj1, Hp1, Hh1, Hcalls1.
  split_and!; try done. cbn [jobTimeoutHandler idle_job].
  by rewrite <- !app_assoc.
Qed.

End WatcherChanges.
(** * The properties at work

    Closed instances of the theorems above, in the environment for the
    examples. *)

#[local] Existing Instance sample_externals.

(** C10 at work: [setConfigs] with a string and with an object. *)
Lemma setConfigs_only_objects_witness :
  setConfigs (VStr "http://dia/") (producer new_world) = producer new_world /\
  __manuallySetConfigs
    (setConfigs (VObj KObject [("GLOBAL_ID", VStr "g1")]) (producer new_world))
  = VObj KObject [("GLOBAL_ID", VStr "g1")].
Proof.
  split.
  - destruct (setConfigs_only_objects (VStr "http://dia/") (producer new_world))
      as (Hnot & _).
    apply Hnot. reflexivity.
  - destruct (setConfigs_only_objects (VObj KObject [("GLOBAL_ID", VStr "g1")])
                (producer new_world)) as (_ & Hobj & _).
    rewrite Hobj by reflexivity. reflexivity.
Defined.

(** C9 at work: [type] with the empty string returns the default type of a
    new producer. *)
Example type_empty_string_example :
  type (VStr "") (producer new_world) = Return (TheType (VStr "SERVICE")).
Proof. reflexivity. Qed.





(** The states of the mixed-outcomes batch after reconciliation. *)
Example reconcile_mixed_outcomes :
  let h := fst (reconcile 1000 mixed_dict mixed_store [1; 2; 3]%nat) in
  get_at h 1%nat ["system"; "state"] = VStr "FINISHED" /\
  get_at h 2%nat ["system"; "state"] = VStr "FAILED" /\
  get_at h 3%nat ["system"; "state"] = VStr "FAILED" /\
  get_at h 3%nat ["system"; "failuresReason"] = not_resolved.
Proof. vm_compute. by repeat split. Qed.

(** C6 at work: an outcome rejected with item 2 is collected as "FAILED". *)
Lemma rejected_outcome_collected_witness :
  let w := running_world two_destinations in
  let w' := settled_step 1000 w (RejectedWith (Obj 2%nat)) in
  collectedIntelligencesDict (job w') !! "i2" = Some 2%nat /\
  get_at (store w') 2%nat ["system"; "state"] = VStr "FAILED".
Proof.
  cbv zeta.
  destruct (rejected_outcome_collected 1000 (running_world two_destinations)
              2%nat) as (Hdict & Hstate & _).
  - vm_compute. reflexivity.
  - split; [exact Hdict|exact Hstate].
Defined.

(** C6 fails as stated. The worker rejects with item 2, which carries its
    [globalId] and no [system.failuresReason]: the item is collected as
    "FAILED" and no reason is recorded, neither when the outcomes have been
    walked through nor when the job has been reported. *)
Lemma rejected_outcome_records_no_reason :
  let w := running_world two_destinations in
  let walked := settled_marks (sample_answers false) [RejectedWith (Obj 2%nat)] w in
  let reported :=
    allSettled_then (sample_answers false) [RejectedWith (Obj 2%nat)] w in
  collectedIntelligencesDict (job walked) !! "i2" = Some 2%nat /\
  get_at (store walked) 2%nat ["system"; "state"] = VStr "FAILED" /\
  get_at (store walked) 2%nat ["system"; "failuresReason"] = VUndefined /\
  get_at (store reported) 2%nat ["system"; "state"] = VStr "FAILED" /\
  get_at (store reported) 2%nat ["system"; "failuresReason"] = VUndefined.
Proof. cbv zeta. split_and!; vm_compute; reflexivity. Qed.

(** C7 at work: the fetch is answered the configuration [g1] at [v1] twice;
    the second tick sends its request and nothing else happens. *)
Lemma compareProducerConfiguration_same_version_witness :
  let w1 :=
    compareProducerConfiguration (sample_answers false)
      (Resolved adopted_config) new_world in
  let w2 :=
    compareProducerConfiguration (sample_answers false)
      (Resolved adopted_config) w1 in
  __watchIntelligencesIntervalHandler (producer w1) = HTimer 7 /\
  __watchIntelligencesIntervalHandler (producer w2) = HTimer 7 /\
  __currentProducerConfig (producer w2) = adopted_config /\
  __runningJob (producer w2) = __runningJob (producer w1) /\
  calls w2
  = calls w1 ++ [getProducerAPI (VStr "http://dia/") (VStr "g1")
                   (VStr "SERVICE") (VStr "key")].
Proof.
  cbv zeta.
  destruct (compareProducerConfiguration_same_version (sample_answers false)
              (sample_answers false) (Resolved adopted_config)
              (Resolved adopted_config) new_world adopted_config adopted_config)
    as (_ & Hloop & Hconfig & Hjob & _ & _ & Hcalls);
    try (vm_compute; reflexivity).
  split_and!.
  - vm_compute. reflexivity.
  - rewrite Hloop. vm_compute. reflexivity.
  - rewrite Hconfig. vm_compute. reflexivity.
  - exact Hjob.
  - destruct Hcalls as [Hc|Hc]; [|exact Hc].
    apply (f_equal (@length call)) in Hc. vm_compute in Hc. discriminate Hc.
Defined.

(** C8 at work: a new producer, and a fetch that fails with a plain Error
    (no status); the fetch throws. *)
Lemma getProducerConfiguration_no_status_throws_witness :
  exists e : value,
    snd (getProducerConfiguration (sample_answers false)
           (Rejected (new_Error "connect ECONNREFUSED")) new_world) = Throw e /\
    instanceof_Error e = true /\
    producer (fst (getProducerConfiguration (sample_answers false)
                     (Rejected (new_Error "connect ECONNREFUSED")) new_world))
    = producer new_world.
Proof.
  apply (getProducerConfiguration_no_status_throws (sample_answers false)
           (new_Error "connect ECONNREFUSED") new_world); reflexivity.
Defined.

(** The same fetch, evaluated: the TypeError of the assignment to [null]. *)
Example getProducerConfiguration_plain_error :
  snd (getProducerConfiguration (sample_answers false)
         (Rejected (new_Error "connect ECONNREFUSED")) new_world)
  = Throw (TypeError "Cannot set properties of null").
Proof. reflexivity. Qed.

(** A fetch answered 404 is classified. *)
Example getProducerConfiguration_not_found :
  let r :=
    getProducerConfiguration (sample_answers false)
      (Rejected (VObj KError [("message", VStr "Not Found");
                              ("status", VNum 404)])) new_world in
  snd r = Return VUndefined /\
  get_field (__producerError (producer (fst r))) "message"
  = VStr "Cannot find any producer by g1. Please check your GLOBAL_ID".
Proof. split; reflexivity. Qed.

(** C4 at work: two intelligences for two target systems; two POSTs, each
    carrying both intelligences, then two PUTs, each carrying its bucket. *)
Example sendToSOIAndDIA_two_destinations :
  let w := running_world two_destinations in
  calls (sendToSOIAndDIA (sample_answers false) [1; 2]%nat w)
  = [sendIntelligencesToSOI (VStr "http://s/") (VStr "POST") (VStr "/cb") []
       [1; 2]%nat (snapshot (store w) [1; 2]%nat);
     sendIntelligencesToSOI (VStr "http://t/") (VStr "POST") (VStr "/done") []
       [1; 2]%nat (snapshot (store w) [1; 2]%nat);
     updateIntelligencesAPI (VStr "http://dia/") (VStr "key")
       [1%nat] (snapshot (store w) [1%nat]);
     updateIntelligencesAPI (VStr "http://dia/") (VStr "key")
       [2%nat] (snapshot (store w) [2%nat])].
Proof. vm_compute. reflexivity. Qed.

(** C5 at work: an intelligence without [endedAt] is marked; it still has
    none. *)
Example setIntelligenceState_without_endedAt :
  let h := store (running_world two_destinations) in
  let h' := setIntelligenceState 1000 1%nat (VStr "failed") (VStr "boom") h in
  get_at h' 1%nat ["system"]
  = VObj KObject [("state", VStr "FAILED"); ("failuresReason", VStr "boom")] /\
  get_at h' 1%nat ["system"; "producer"; "endedAt"] = VUndefined.
Proof. vm_compute. by split. Qed.

(** Beyond C2: the promises of a job that timed out settle after the job has
    been torn down. [jobTimeout] has been reset by then, so the [then]
    callback goes ahead: it marks the old item "FINISHED", collects it into
    the job that has just started, and ends that job. *)
Example completion_after_teardown :
  let w := running_world [(1%nat, intelligence_for "i1" "http://s/" "/cb")] in
  let torn := jobTimeout_callback (sample_answers false) w in
  let late := allSettled_then (sample_answers false) [Fulfilled (Obj 1%nat)] torn in
  get_at (store torn) 1%nat ["system"; "state"] = VStr "TIMEOUT" /\
  jobTimeout (job torn) = false /\
  get_at (store late) 1%nat ["system"; "state"] = VStr "FINISHED" /\
  late <> torn.
Proof.
  cbv zeta. split_and!; try (vm_compute; reflexivity).
  intros E. apply (f_equal (fun w => length (calls w))) in E.
  vm_compute in E. discriminate E.
Qed.

(** X2 at work: two intelligences for two target systems, both POSTs
    succeed; the store is as before and four requests are sent. *)
Lemma sendToSOIAndDIA_when_posts_succeed_witness :
  let w := running_world two_destinations in
  let w' := sendToSOIAndDIA (sample_answers false) [1; 2]%nat w in
  store w' = store w /\ length (calls w') = 4%nat.
Proof.
  cbv zeta.
  rewrite (sendToSOIAndDIA_when_posts_succeed (sample_answers false)
             [1; 2]%nat (running_world two_destinations));
    [split; reflexivity|].
  intros kb _. reflexivity.
Defined.


(** X5 at work: the POSTs fail with a built-in Error; nothing is reported
    for the target system of item 1, and item 1 is left "FAILED". *)
Lemma failed_post_without_toJSON_not_reported_witness :
  let w := running_world two_destinations in
  let w' :=
    sendToSOIAndDIA (H := plain_error_externals) (sample_answers true)
      [1; 2]%nat w in
  (exists puts : list call,
     calls w'
     = calls w
       ++ map (post_of (H := plain_error_externals) [1; 2]%nat (store w))
            (categorize (H := plain_error_externals) (store w) [1; 2]%nat)
       ++ puts /\
     forall c l, c ∈ puts -> l ∈ reported c ->
       routing_key (H := plain_error_externals) (store w) l
       <> Some "post:http://s/cb").
Proof.
  cbv zeta.
  destruct (failed_post_without_toJSON_not_reported
              (H := plain_error_externals) (sample_answers true) [1; 2]%nat
              (running_world two_destinations) "post:http://s/cb"
              (VObj KError [("message", VStr "connect ECONNREFUSED")]))
    as [Hputs _]; [reflexivity|reflexivity|reflexivity|].
  exact Hputs.
Defined.

(** X6 at work: a fetch answered a batch of one counts one job. *)
Lemma job_runner_frame_witness :
  __ranJobNumber
    (producer (run (Fetched (sample_answers false) (Resolved [1%nat]))
                 (running_world [])))
  = 1.
Proof.
  destruct (job_runner_frame
              (Fetched (sample_answers false) (Resolved [1%nat]))
              (running_world [])) as (_ & _ & _ & _ & _ & _ & Hn);
    [reflexivity|].
  rewrite Hn. reflexivity.
Defined.

(** X7 at work: two rejections in a row after the start of a job; each is
    followed by a new request. *)
Lemma rejected_fetch_is_retried_at_once_witness :
  let a := sample_answers false in
  let w := startCollectIntelligencesJob a new_world in
  let steps :=
    [(a, new_Error "connect ECONNREFUSED");
     (a, new_Error "connect ECONNREFUSED")] in
  calls (fold_left (fun w s => run (Fetched (fst s) (Rejected (snd s))) w)
           steps w)
  = calls w
    ++ flat_map (fun s => [clearTimeout HUndefined; clearTimeout HUndefined;
                           clearTimeout HUndefined; fetch_of (fst s)]) steps.
Proof.
  cbv zeta.
  destruct (rejected_fetch_is_retried_at_once
              [(sample_answers false, new_Error "connect ECONNREFUSED");
               (sample_answers false, new_Error "connect ECONNREFUSED")]
              (startCollectIntelligencesJob (sample_answers false) new_world))
    as (_ & _ & Hcalls & _);
    [by vm_compute|by vm_compute|by vm_compute| |exact Hcalls].
  repeat constructor; discriminate.
Defined.

(** X8 at work: a new producer, a tick of the job loop, an empty batch. *)
Lemma empty_batch_frees_the_slot_witness :
  let a := sample_answers false in
  let w3 :=
    run (WorkerIdle a (Resolved tt))
      (run (Fetched a (Resolved [])) (run (WatchIntelligences a) new_world)) in
  job w3 = idle_job /\
  calls w3
  = [clearTimeout HUndefined; fetch_of a;
     worker [] (VStr "job-2") VUndefined; clearTimeout HUndefined].
Proof.
  cbv zeta.
  rewrite (empty_batch_frees_the_slot (sample_answers false)
             (sample_answers false) (sample_answers false) new_world);
    [split; reflexivity|reflexivity|reflexivity|reflexivity].
Defined.

(** X9 at work: both promises of the batch fulfil; item 1, which carries no
    dataset, is "FINISHED". *)
Lemma fulfilled_batch_is_finished_witness :
  let w := running_world two_destinations in
  let w' :=
    run (AllSettled (sample_answers false)
           [Fulfilled (Obj 1%nat); Fulfilled (Obj 2%nat)]) w in
  get_at (store w') 1%nat ["system"; "state"] = VStr "FINISHED" /\
  get_at (store w') 1%nat ["dataset"] = VUndefined /\
  job w' = new_job (sample_answers false).
Proof.
  cbv zeta.
  destruct (fulfilled_batch_is_finished (sample_answers false)
              (running_world two_destinations)) as [Hstate Hjob].
  - reflexivity.
  - intros l [->|[->|Hl]%elem_of_cons]%elem_of_cons;
      [reflexivity|reflexivity|by apply elem_of_nil in Hl].
  - destruct (Hstate 1%nat) as [H1 H2].
    + apply elem_of_cons. left. reflexivity.
    + vm_compute. reflexivity.
    + split_and!; [exact H1|exact H2|]. apply Hjob. reflexivity.
Defined.

(** X11 at work: the job loop is stopped while job-1 is live; job-2 holds
    the slot. *)
Lemma endPollingGetIntelligences_starts_next_job_witness :
  let w' := endPollingGetIntelligences (sample_answers false) (running_world []) in
  __watchIntelligencesIntervalHandler (producer w') = HNull /\
  jobId (job w') = VStr "job-2".
Proof.
  cbv zeta.
  destruct (endPollingGetIntelligences_starts_next_job (sample_answers false)
              (running_world [])) as (Hh & Hj & _); [reflexivity|].
  split; [exact Hh|]. rewrite Hj. reflexivity.
Defined.

(** X16 at work: the first tick of a new producer is answered the
    configuration [g1]; it is adopted and the job loop is armed. *)
Lemma compareProducerConfiguration_changed_witness :
  let w' :=
    compareProducerConfiguration (sample_answers false)
      (Resolved adopted_config) new_world in
  __currentProducerConfig (producer w') = adopted_config /\
  __watchIntelligencesIntervalHandler (producer w') = HTimer 7 /\
  exists pre,
    calls w' = pre ++ [clearInterval HNull; setInterval 7 (Some 1000)].
Proof.
  cbv zeta.
  destruct (compareProducerConfiguration_changed (sample_answers false)
              (Resolved adopted_config) new_world adopted_config)
    as (Hc & Hh & Hcalls); [reflexivity|reflexivity|].
  split_and!; [exact Hc|exact Hh|]. apply Hcalls. reflexivity.
Defined.

(** X17 at work: a 404, then a network error. *)
Lemma statusless_error_keeps_stale_status_witness :
  let a := sample_answers false in
  let w1 :=
    fst (getProducerConfiguration a
           (Rejected (VObj KError [("message", VStr "Not Found");
                                   ("status", VNum 404)])) new_world) in
  let r :=
    getProducerConfiguration a (Rejected (new_Error "connect ECONNREFUSED"))
      w1 in
  snd r = Return VUndefined /\
  producerError (producer (fst r))
  = VObj KObject
      [("error", VBool true); ("status", VNum 404); ("code", VUndefined);
       ("message", VStr "Internal server error")].
Proof.
  cbv zeta.
  apply (statusless_error_keeps_stale_status (sample_answers false)
           (sample_answers false)
           (VObj KError [("message", VStr "Not Found"); ("status", VNum 404)])
           (new_Error "connect ECONNREFUSED") new_world); reflexivity.
Defined.


(** X18 at work: a new producer is started and answered the configuration
    [g1]; after one tick of the job loop job-2 holds the slot. *)
Lemma started_producer_requests_a_batch_witness :
  let a := sample_answers false in
  let w3 :=
    run (WatchIntelligences a)
      (run (WatchProducer a (Resolved adopted_config))
         (run (Start a) new_world)) in
  __currentProducerConfig (producer w3)
  = merge_DEFAULT_AGENT_CONFIGURATION adopted_config /\
  job w3 = new_job a.
Proof.
  cbv zeta.
  destruct (started_producer_requests_a_batch (sample_answers false)
              (sample_answers false) (sample_answers false) adopted_config
              new_world) as (Hc & _ & _ & Hj & _);
    [by vm_compute|by vm_compute|].
  split; [exact Hc|exact Hj].
Defined.

(** X15 at work: job-1 times out, then its promise fulfils. *)
Lemma late_completion_ends_the_next_job_witness :
  let a := sample_answers false in
  let w := running_world [(1%nat, intelligence_for "i1" "http://s/" "/cb")] in
  let w1 := run (JobTimeout a) w in
  let w2 := run (AllSettled a [Fulfilled (Obj 1%nat)]) w1 in
  job w2 = new_job a /\
  calls w2
  = calls w1 ++ [clearTimeout HUndefined; clearTimeout HUndefined;
                 clearTimeout HUndefined; fetch_of a].
Proof.
  cbv zeta.
  destruct (late_completion_ends_the_next_job (sample_answers false)
              (sample_answers false) [Fulfilled (Obj 1%nat)]
              (running_world [(1%nat, intelligence_for "i1" "http://s/" "/cb")]))
    as (_ & _ & Hj & Hc); [by vm_compute|discriminate|].
  split; [exact Hj|exact Hc].
Defined.

(** X10 at work: job-1 over the two intelligences is ended with nothing
    collected; both are reported, and job-2 holds the slot. *)
Lemma endCollectIntelligencesJob_when_posts_succeed_witness :
  let a := sample_answers false in
  let w := running_world two_destinations in
  let w' := endCollectIntelligencesJob a w in
  job w' = new_job a /\ length (calls w') = 7%nat.
Proof.
  cbv zeta.
  rewrite (endCollectIntelligencesJob_when_posts_succeed (sample_answers false)
             (running_world two_destinations));
    [split; by vm_compute|by vm_compute|done].
Defined.
